(** * The data-discovery engine of freva: a shallow embedding.

    Two Python modules are embedded:
    - [evaluation_system/model/solr.py] (class [SolrFindFiles]): the query
      translator, the paginated search executor and the facet aggregator;
    - [model/file.py] (class [BaselineFile]): the naming-convention codec,
      the file-system candidate enumerator and the latest-version resolver.

    Python generators are modelled by the trace a consumer observes when it
    drains them: the values yielded, the calls made to the outside world
    (Solr, the file system) and how the generator ended. *)

From Stdlib Require Import List String Ascii ZArith Bool Lia Permutation.
From Stdlib Require Import Numbers.DecimalString.
From Stdlib Require OrderedTypeEx.
Import ListNotations.

Local Open Scope list_scope.
Local Open Scope string_scope.

(** ** Python built-ins used by the two modules *)

Module Py.

(** Exceptions the embedded code can raise.  [file.py] raises the plain
    [Exception] with a message; the look-up errors come from the
    interpreter. *)
Inductive exn : Type :=
| Exception (msg : string)
| KeyError (key : string)
| IndexError
| TypeError
| ValueError
| BackendError (msg : string).

Inductive result (A : Type) : Type :=
| Ok (a : A)
| Raise (e : exn).
Arguments Ok {A} a.
Arguments Raise {A} e.

Definition bind {A B : Type} (r : result A) (k : A -> result B) : result B :=
  match r with
  | Ok a => k a
  | Raise e => Raise e
  end.

Notation "x <- r ;; k" := (bind r (fun x => k))
  (at level 61, r at next level, right associativity).

(** *** Strings *)

(** [s.split(sep)] for a one-character separator. *)
Fixpoint split (sep : ascii) (s : string) : list string :=
  match s with
  | EmptyString => [EmptyString]
  | String c s' =>
      if Ascii.eqb c sep then EmptyString :: split sep s'
      else match split sep s' with
           | [] => [String c EmptyString]
           | w :: ws => String c w :: ws
           end
  end.

(** [sep.join(l)] *)
Definition join (sep : string) (l : list string) : string := String.concat sep l.

(** [c in s] for a one-character [c]. *)
Fixpoint contains (c : ascii) (s : string) : bool :=
  match s with
  | EmptyString => false
  | String c' s' => Ascii.eqb c' c || contains c s'
  end.

(** [s.startswith(p)] *)
Definition startswith (p s : string) : bool := String.prefix p s.

(** [s[n:]] *)
Fixpoint drop (n : nat) (s : string) : string :=
  match n, s with
  | O, _ => s
  | S n', String _ s' => drop n' s'
  | S _, EmptyString => EmptyString
  end.

(** [s[:-n]] for a positive [n]: everything but the last [n] characters,
    the empty string when [s] is shorter. *)
Definition drop_last (n : nat) (s : string) : string :=
  String.substring 0 (String.length s - n) s.

(** [s.endswith(p)] *)
Definition endswith (p s : string) : bool :=
  (String.length p <=? String.length s)%nat
  && String.eqb (drop (String.length s - String.length p) s) p.

(** [s[-1]] *)
Fixpoint last_char (s : string) : option ascii :=
  match s with
  | EmptyString => None
  | String c EmptyString => Some c
  | String _ s' => last_char s'
  end.

(** White space as [str.strip()] sees it.  A string is read as a sequence
    of characters with code points below 256, one character of [string]
    for one character of the Python string; in that range [str.isspace]
    holds of the code points 9 to 13, 28 to 32, 133 and 160. *)
Definition is_space (c : ascii) : bool :=
  let n := nat_of_ascii c in
  ((9 <=? n) && (n <=? 13) || (28 <=? n) && (n <=? 32)
   || (n =? 133) || (n =? 160))%nat.

Fixpoint lstrip (s : string) : string :=
  match s with
  | EmptyString => EmptyString
  | String c s' => if is_space c then lstrip s' else s
  end.

Fixpoint rstrip (s : string) : string :=
  match s with
  | EmptyString => EmptyString
  | String c s' =>
      match rstrip s' with
      | EmptyString => if is_space c then EmptyString else String c EmptyString
      | r => String c r
      end
  end.

(** [s.strip()] *)
Definition strip (s : string) : string := rstrip (lstrip s).

(** [str(n)] for an integer. *)
Definition str_of_Z (n : Z) : string := NilEmpty.string_of_int (Z.to_int n).

(** *** Dictionaries

    A Python [dict] keeps its keys in insertion order and the code depends on it
    (the order of the query parameters, of the leftover constraints in an
    error message, of the data sets given back), so a dictionary is an
    association list whose keys are pairwise distinct. *)

Definition Dict (V : Type) : Type := list (string * V).

Definition keys {V} (d : Dict V) : list string := map fst d.
Definition values {V} (d : Dict V) : list V := map snd d.

Definition dict_wf {V} (d : Dict V) : Prop := NoDup (keys d).

(** [d.get(k)] *)
Fixpoint dict_get {V} (k : string) (d : Dict V) : option V :=
  match d with
  | [] => None
  | (k', v) :: d' => if String.eqb k' k then Some v else dict_get k d'
  end.

(** [k in d] *)
Definition dict_mem {V} (k : string) (d : Dict V) : bool :=
  match dict_get k d with Some _ => true | None => false end.

(** [d[k] = v]: an existing key keeps its place. *)
Fixpoint dict_set {V} (k : string) (v : V) (d : Dict V) : Dict V :=
  match d with
  | [] => [(k, v)]
  | (k', v') :: d' =>
      if String.eqb k' k then (k', v) :: d' else (k', v') :: dict_set k v d'
  end.

(** [del d[k]] on a key that is present; [d.pop(k, default)] drops it. *)
Fixpoint dict_del {V} (k : string) (d : Dict V) : Dict V :=
  match d with
  | [] => []
  | (k', v') :: d' =>
      if String.eqb k' k then dict_del k d' else (k', v') :: dict_del k d'
  end.

(** [d.setdefault(k, v)] *)
Definition dict_setdefault {V} (k : string) (v : V) (d : Dict V) : Dict V :=
  if dict_mem k d then d else dict_set k v d.

(** [d.update(e)] *)
Definition dict_update {V} (d e : Dict V) : Dict V :=
  fold_left (fun acc kv => dict_set (fst kv) (snd kv) acc) e d.

(** [d[k]] *)
Definition dict_lookup {V} (k : string) (d : Dict V) : result V :=
  match dict_get k d with
  | Some v => Ok v
  | None => Raise (KeyError k)
  end.

(** *** Orders of a list *)



End Py.

(** ** [evaluation_system/model/solr.py]: class [SolrFindFiles] *)

Module Solr.
Import Py.

(** A constraint value is a scalar or a list of scalars (an OR). *)
Inductive Value : Type :=
| VStr (s : string)
| VList (l : list string).

(** The URL handed to [self.solr.get_json], kept as the arguments of the
    format string that builds it:
    ["select?facet=true&rows=0&%s" % query] and
    ["select?start=%s&rows=%s&%s" % (offset, batch_size, query)]. *)
Inductive Request : Type :=
| SelectCount (query : string)
| SelectRows (start rows : Z) (query : string).

(** A document of the index: field name to value. *)
Definition Doc : Type := Dict string.

(** [answer["response"]] *)
Record Response : Type := mkResponse {
  numFound : Z;
  start : Z;
  docs : list Doc
}.

(** A value of a facet list: the index alternates values and counts. *)
Inductive JVal : Type :=
| JStr (s : string)
| JInt (n : Z).

(** The parsed JSON answer: [answer["response"]] and
    [answer["facet_counts"]["facet_fields"]]. *)
Record Answer : Type := mkAnswer {
  response : Response;
  facet_fields : Dict (list JVal)
}.

(** [answer["response"].copy()] with the key ["docs"] deleted. *)
Record Metadata : Type := mkMetadata {
  meta_numFound : Z;
  meta_start : Z
}.

Definition strip_docs (r : Response) : Metadata :=
  {| meta_numFound := numFound r; meta_start := start r |}.

(** What the iterator of [_search] gives: the metadata record or the
    ["file"] field of a document. *)
Inductive Item : Type :=
| Meta (m : Metadata)
| File (path : string).

Inductive Outcome : Type :=
| Finished
| Raised (e : exn)
| OutOfFuel.

(** A drained generator: what it yielded, the requests it sent, how it
    stopped. *)
Record Run : Type := mkRun {
  yielded : list Item;
  calls : list Request;
  outcome : Outcome
}.

(** The two cores the static methods [search] and [facets] connect to. *)
Inductive Core : Type := latest | files.

(** The argument [facets] of [_facets]: [None], a string or a list. *)
Inductive Facets : Type :=
| FNone
| FStr (s : string)
| FList (l : list string).

Definition special_keys : list string := ["q"; "fl"; "fq"; "facet.limit"; "sort"].

Definition is_special (key : string) : bool :=
  existsb (String.eqb key) special_keys.

(** The body of the loop of [_to_solr_query]: the pair appended to
    [params] for one item of the dictionary. *)
Definition solr_param (item : string * Value) : string * Value :=
  let '(key, value) := item in
  if is_special key then (key, value)
  else
    let key := if endswith "_not_" key then "-" ++ drop_last 5 key else key in
    let constraint :=
      match value with
      | VList l => join " OR " (map (fun v => key ++ ":" ++ v) l)
      | VStr v => key ++ ":" ++ v
      end in
    ("fq", VStr constraint).

(** The list [params] at the end of the loop. *)
Definition solr_params (partial_dict : Dict Value) : list (string * Value) :=
  map solr_param partial_dict.

(** The fields [get_solr_fields] never offers as facets. *)
Definition facet_denylist : list string :=
  [""; "_version_"; "file_no_version"; "level"; "timestamp"; "time";
   "creation_time"; "source"; "version"; "file"; "file_name"].

(** [if facets and not isinstance(facets, list): ...] *)
Definition normalize_facets (facets : Facets) : Facets :=
  match facets with
  | FStr s =>
      if String.eqb s "" then FStr s
      else if contains "," s then FList (map strip (split "," s))
      else FList [s]
  | _ => facets
  end.

(** [if facets: query += "&facet=true...&facet.field=" + "&facet.field=".join(facets)]
    for a value that is not [None].  Joining a string joins its characters. *)
Definition facet_suffix (facets : Facets) : string :=
  let fields :=
    match facets with
    | FNone => []
    | FStr s => map (fun c => String c EmptyString) (list_ascii_of_string s)
    | FList l => l
    end in
  match fields with
  | [] => ""
  | _ :: _ =>
      "&facet=true&facet.sort=index&facet.mincount=1&facet.field="
      ++ join "&facet.field=" fields
  end.

Section WithBackend.

(** [urllib.parse.urlencode] on a list of pairs, and [int]. *)
Variable urlencode : list (string * Value) -> string.
Variable py_int : Value -> result Z.

(** [self.solr.get_json(url)] and [self.solr.get_solr_fields()] for the
    instance connected to a core; [SolrCore] is not part of the sources. *)
Variable get_json : Core -> Request -> result Answer.
Variable get_solr_fields : Core -> list string.

(** The order in which Python iterates over the set made of the given
    elements.  It depends on the hashes of the strings, which change from
    one run of the interpreter to the next: all that is known of it is
    that it lists the elements given, each once. *)
Variable set_order : list string -> list string.

Definition _to_solr_query (partial_dict : Dict Value) : string :=
  urlencode (solr_params partial_dict).

(** Lines 74-79 of [_search]: the offset and the dictionary that is
    translated. *)
Definition search_offset (partial_dict : Dict Value) : result Z :=
  py_int (match dict_get "start" partial_dict with
          | Some v => v
          | None => VStr "0"
          end).

Definition search_dict (partial_dict : Dict Value) : Dict Value :=
  let partial_dict := dict_del "start" partial_dict in
  let partial_dict := dict_setdefault "q" (VStr "*:*") partial_dict in
  let partial_dict := dict_setdefault "fl" (VStr "file") partial_dict in
  let partial_dict :=
    match dict_get "text" partial_dict with
    | Some text => dict_set "q" text (dict_del "text" partial_dict)
    | None => partial_dict
    end in
  dict_set "sort" (VStr "file desc") partial_dict.

(** [for item in iter_answer: yield item["file"]; results_to_visit -= 1] *)
Fixpoint yield_docs (iter_answer : list Doc) (results_to_visit : Z)
  : list Item * Z * option exn :=
  match iter_answer with
  | [] => ([], results_to_visit, None)
  | item :: rest =>
      match dict_get "file" item with
      | None => ([], results_to_visit, Some (KeyError "file"))
      | Some path =>
          let '(ys, n, e) := yield_docs rest (results_to_visit - 1) in
          (File path :: ys, n, e)
      end
  end.

Definition run_prepend (ys : list Item) (rq : Request) (r : Run) : Run :=
  {| yielded := (ys ++ yielded r)%list; calls := rq :: calls r; outcome := outcome r |}.

(** The [while results_to_visit > 0] loop; [fuel] bounds the number of
    page requests. *)
Fixpoint search_loop (fuel : nat) (self : Core) (query : string)
    (offset batch_size results_to_visit : Z) (_retrieve_metadata : bool) : Run :=
  if (results_to_visit >? 0)%Z then
    match fuel with
    | O => {| yielded := []; calls := []; outcome := OutOfFuel |}
    | S fuel' =>
        let batch_size := Z.min batch_size results_to_visit in
        let rq := SelectRows offset batch_size query in
        match get_json self rq with
        | Raise e => {| yielded := []; calls := [rq]; outcome := Raised e |}
        | Ok answer =>
            let meta :=
              if _retrieve_metadata then [Meta (strip_docs (response answer))]
              else [] in
            let offset := start (response answer) in
            let '(ys, results_to_visit, err) :=
              yield_docs (docs (response answer)) results_to_visit in
            match err with
            | Some e =>
                {| yielded := (meta ++ ys)%list; calls := [rq]; outcome := Raised e |}
            | None =>
                run_prepend (meta ++ ys)%list rq
                  (search_loop fuel' self query (offset + batch_size)%Z
                     batch_size results_to_visit false)
            end
        end
    end
  else {| yielded := []; calls := []; outcome := Finished |}.

Definition _search (fuel : nat) (self : Core) (batch_size : Z)
    (latest_version _retrieve_metadata : bool) (partial_dict : Dict Value) : Run :=
  match search_offset partial_dict with
  | Raise e => {| yielded := []; calls := []; outcome := Raised e |}
  | Ok offset =>
      let query := _to_solr_query (search_dict partial_dict) in
      let probe := SelectCount query in
      match get_json self probe with
      | Raise e => {| yielded := []; calls := [probe]; outcome := Raised e |}
      | Ok answer =>
          let results_to_visit := numFound (response answer) in
          run_prepend [] probe
            (search_loop fuel self query offset batch_size results_to_visit
               _retrieve_metadata)
      end
  end.

(** Lines 124-127 of [_facets]. *)
Definition facets_dict (partial_dict : Dict Value) : Dict Value :=
  match dict_get "text" partial_dict with
  | Some text => dict_set "q" text (dict_del "text" partial_dict)
  | None => dict_set "q" (VStr "*:*") partial_dict
  end.

(** The field set after [if facets is None], [set(fields) - set([...])],
    in the order in which the join of the facet directive iterates over
    it. *)
Definition default_facets (self : Core) : list string :=
  set_order (filter (fun f => negb (existsb (String.eqb f) facet_denylist))
                    (get_solr_fields self)).

(** The query string [_facets] sends. *)
Definition facets_query (self : Core) (latest_version : bool)
    (facets : Facets) (partial_dict : Dict Value) : string :=
  let facets := normalize_facets facets in
  let query := _to_solr_query (facets_dict partial_dict) in
  let facets :=
    match facets with
    | FNone => FList (default_facets self)
    | _ => facets
    end in
  let query := query ++ facet_suffix facets in
  if latest_version
  then query ++ "&group=true&group.field=file_no_version&group.facet=true"
  else query.

Definition _facets (self : Core) (latest_version : bool) (facets : Facets)
    (partial_dict : Dict Value) : result (Dict (list JVal)) :=
  answer <- get_json self
              (SelectCount (facets_query self latest_version facets partial_dict)) ;;
  Ok (dict_del "language" (facet_fields answer)).

Definition facets (latest_version : bool) (facets : Facets) (facet_limit : Z)
    (partial_dict : Dict Value) : result (Dict (list JVal)) :=
  let s := if latest_version then latest else files in
  _facets s false facets partial_dict.

End WithBackend.

(** A Solr core that holds the documents [D] for every query, in the order
    it sorts them: the count request reports their number, a page request
    the slice it asks for. *)
Definition list_backend (D : list Doc) (rq : Request) : result Answer :=
  match rq with
  | SelectCount _ =>
      Ok {| response := {| numFound := Z.of_nat (List.length D); start := 0%Z; docs := [] |};
            facet_fields := [] |}
  | SelectRows s r _ =>
      Ok {| response := {| numFound := Z.of_nat (List.length D); start := s;
                           docs := firstn (Z.to_nat r) (skipn (Z.to_nat s) D) |};
            facet_fields := [] |}
  end.

(** [int] on the decimal strings the examples use. *)
Definition int_of_digits (v : Value) : result Z :=
  match v with
  | VStr s =>
      match NilEmpty.int_of_string s with
      | Some i => Ok (Z.of_int i)
      | None => Raise ValueError
      end
  | VList _ => Raise TypeError
  end.

(** The query string of a request. *)
Definition request_query (rq : Request) : string :=
  match rq with
  | SelectCount q => q
  | SelectRows _ _ q => q
  end.

(** The connection [get_json] of the instance [self] answers the query
    string [query] from the unchanging documents [D]: the count, and any
    page as the slice asked for, with the offset echoed in [start]. *)
Definition serves (get_json : Core -> Request -> result Answer) (self : Core)
    (query : string) (D : list Doc) : Prop :=
  (exists a, get_json self (SelectCount query) = Ok a
             /\ numFound (response a) = Z.of_nat (List.length D))
  /\ (forall s r, (0 <= s)%Z -> (0 <= r)%Z ->
       exists a, get_json self (SelectRows s r query) = Ok a
                 /\ numFound (response a) = Z.of_nat (List.length D)
                 /\ start (response a) = s
                 /\ docs (response a) = firstn (Z.to_nat r) (skipn (Z.to_nat s) D)).

(** The files among the items of a stream, and its metadata records. *)
Definition files_of (items : list Item) : list string :=
  flat_map (fun i => match i with File p => [p] | Meta _ => [] end) items.

Definition metas_of (items : list Item) : list Metadata :=
  flat_map (fun i => match i with Meta m => [m] | File _ => [] end) items.

(** Paths in the order a [sort] parameter names: ["file asc"] and
    ["file desc"] compare the paths as strings. *)
Fixpoint ordered (le : string -> string -> bool) (paths : list string) : bool :=
  match paths with
  | [] => true
  | p :: rest =>
      match rest with
      | [] => true
      | p' :: _ => le p p' && ordered le rest
      end
  end.

Definition ascending (paths : list string) : bool := ordered String.leb paths.
Definition descending (paths : list string) : bool :=
  ordered (fun a b => String.leb b a) paths.

(** [urlencode] without the percent escapes: the pairs as [k=v] joined by
    [&], the items of a list value by a comma.  It stands for
    [urllib.parse.urlencode] in the examples. *)
Definition plain_urlencode (params : list (string * Value)) : string :=
  join "&" (map (fun kv =>
                   fst kv ++ "=" ++ match snd kv with
                                    | VStr s => s
                                    | VList l => join "," l
                                    end) params).

(** Eight documents named by one letter, in descending order. *)
Definition docs_h_to_a : list Doc :=
  map (fun p => [("file", p)]) ["h"; "g"; "f"; "e"; "d"; "c"; "b"; "a"].

(** One order in which a set may iterate over its elements, for the
    examples, and the same backwards. *)
Definition plain_set_order (l : list string) : list string := nodup string_dec l.
Definition reverse_set_order (l : list string) : list string :=
  rev (nodup string_dec l).

End Solr.

(** ** [model/file.py]: class [BaselineFile] *)

Module File.
Import Py.

(** One entry of [BaselineFile.BASELINE].  The key
    ["parts_versioned_dataset"] is absent from baseline 1. *)
Record Baseline : Type := mkBaseline {
  root_dir : string;
  parts_dir : list string;
  parts_dataset : list string;
  parts_versioned_dataset : option (list string);
  parts_file_name : list string;
  parts_time : string;
  defaults : Dict string
}.

(** The lists [BASELINE] builds with [str.split], evaluated. *)
Definition baseline0_parts_dir : list string := Eval cbv in split "/"
  "project/product/institute/model/experiment/time_frequency/realm/cmor_table/ensemble/version/variable/file_name".
Definition baseline0_parts_dataset : list string := Eval cbv in split "/"
  "project/product/institute/model/experiment/time_frequency/realm/cmor_table/ensemble".
Definition baseline0_parts_versioned_dataset : list string := Eval cbv in split "/"
  "project/product/institute/model/experiment/time_frequency/realm/cmor_table/ensemble/version".
Definition baseline_parts_file_name : list string := Eval cbv in split "-"
  "variable-cmor_table-model-experiment-ensemble-time".
Definition baseline1_parts_dir : list string := Eval cbv in split "/"
  "project/product/institute/model/experiment/time_frequency/realm/variable/ensemble/file_name".
Definition baseline1_parts_dataset : list string := Eval cbv in split "."
  "project.product.institute.model.experiment.time_frequency.realm.variable.ensemble".

Definition BASELINE : list Baseline :=
  [ {| root_dir := "/gpfs_750/projects/CMIP5/data";
       parts_dir := baseline0_parts_dir;
       parts_dataset := baseline0_parts_dataset;
       parts_versioned_dataset := Some baseline0_parts_versioned_dataset;
       parts_file_name := baseline_parts_file_name;
       parts_time := "start_time-end_time";
       defaults := [("project", "cmip5"); ("institute", "MPI-M"); ("model", "MPI-ESM-LR")] |};
    {| root_dir := "/miklip/global/prod/archive";
       parts_dir := baseline1_parts_dir;
       parts_dataset := baseline1_parts_dataset;
       parts_versioned_dataset := None;
       parts_file_name := baseline_parts_file_name;
       parts_time := "start_time-end_time";
       defaults := [("project", "baseline1"); ("product", "output");
                    ("institute", "MPI-M"); ("model", "MPI-ESM-LR")] |} ].

(** [self.dict]: the keys ["root_dir"] and ["parts"], either of which a
    caller of [from_dict] may leave out.  A part is a string, or [None]
    for the time of a file name without one. *)
Record FileDict : Type := mkFileDict {
  fd_root_dir : option string;
  fd_parts : option (Dict (option string))
}.

Record BaselineFile : Type := mkBaselineFile {
  baseline_nr : Z;
  dict : FileDict
}.

(** [BaselineFile.__init__] with a dictionary given: a final slash of
    [root_dir] is trimmed. *)
Definition __init__ (file_dict : FileDict) (baseline_nr : Z) : result BaselineFile :=
  match fd_root_dir file_dict with
  | None => Ok {| baseline_nr := baseline_nr; dict := file_dict |}
  | Some r =>
      match last_char r with
      | None => Raise IndexError
      | Some c =>
          if Ascii.eqb c "/"
          then Ok {| baseline_nr := baseline_nr;
                     dict := {| fd_root_dir := Some (drop_last 1 r);
                                fd_parts := fd_parts file_dict |} |}
          else Ok {| baseline_nr := baseline_nr; dict := file_dict |}
      end
  end.

(** [os.path.join(a, b)] of [posixpath]. *)
Definition os_path_join (a b : string) : string :=
  if startswith "/" b then b
  else if String.eqb a "" || endswith "/" a then a ++ b
  else a ++ "/" ++ b.

Definition _get_baseline (baseline_nr : Z) : result Baseline :=
  if (baseline_nr <? 0)%Z || (baseline_nr >? Z.of_nat (List.length BASELINE) - 1)%Z
  then Raise (Exception ("Baseline " ++ str_of_Z baseline_nr ++ " not implemented yet."))
  else match nth_error BASELINE (Z.to_nat baseline_nr) with
       | Some bl => Ok bl
       | None => Raise IndexError
       end.

Definition get_baseline (self : BaselineFile) : result Baseline :=
  _get_baseline (baseline_nr self).

(** [self.dict['parts']] *)
Definition self_parts (self : BaselineFile) : result (Dict (option string)) :=
  match fd_parts (dict self) with
  | Some p => Ok p
  | None => Raise (KeyError "parts")
  end.

(** [self.dict['parts'][key]] where a string is needed ([os.path.join],
    [str.join]): [None] is a [TypeError]. *)
Definition part_str (self : BaselineFile) (key : string) : result string :=
  p <- self_parts self ;;
  v <- dict_lookup key p ;;
  match v with
  | Some s => Ok s
  | None => Raise TypeError
  end.

Definition to_path (self : BaselineFile) : result string :=
  match fd_root_dir (dict self) with
  | None => Raise (KeyError "root_dir")
  | Some root =>
      bl <- get_baseline self ;;
      fold_left
        (fun result key =>
           r <- result ;; v <- part_str self key ;; Ok (os_path_join r v))
        (parts_dir bl) (Ok root)
  end.

Definition is_versioned (self : BaselineFile) : result bool :=
  bl <- get_baseline self ;;
  Ok (match parts_versioned_dataset bl with Some _ => true | None => false end).

(** [result.append(self.dict['parts'][key])] for every key. *)
Fixpoint collect_parts (self : BaselineFile) (iter_parts : list string)
  : result (list (option string)) :=
  match iter_parts with
  | [] => Ok []
  | key :: rest =>
      p <- self_parts self ;;
      v <- dict_lookup key p ;;
      vs <- collect_parts self rest ;;
      Ok (v :: vs)
  end.

(** ['.'.join(result)]: an item that is [None] is a [TypeError]. *)
Fixpoint all_str (l : list (option string)) : result (list string) :=
  match l with
  | [] => Ok []
  | Some s :: rest => ss <- all_str rest ;; Ok (s :: ss)
  | None :: _ => Raise TypeError
  end.

Definition to_dataset (self : BaselineFile) (versioned : bool) : result string :=
  iter_parts <-
    (if versioned then
       v <- is_versioned self ;;
       if negb v
       then Raise (Exception ("baseline " ++ str_of_Z (baseline_nr self)
                              ++ " is not versioned!"))
       else bl <- get_baseline self ;;
            match parts_versioned_dataset bl with
            | Some l => Ok l
            | None => Raise (KeyError "parts_versioned_dataset")
            end
     else bl <- get_baseline self ;; Ok (parts_dataset bl)) ;;
  result <- collect_parts self iter_parts ;;
  ss <- all_str result ;;
  Ok (join "." ss).

Definition get_version (self : BaselineFile) : result (option string) :=
  p <- self_parts self ;;
  match dict_get "version" p with
  | Some v => Ok v
  | None => Ok None
  end.

(** [result['parts'][names[i]] = parts[i]] for [i] in [range(len(names))]. *)
Fixpoint assign_parts (names : list string) (parts : list (option string))
    (d : Dict (option string)) : result (Dict (option string)) :=
  match names with
  | [] => Ok d
  | name :: names' =>
      match parts with
      | [] => Raise IndexError
      | v :: parts' => assign_parts names' parts' (dict_set name v d)
      end
  end.

(** How a drained [search] generator stopped. *)
Inductive Ending : Type :=
| Done
| Failed (e : exn).

(** A drained [search]: the files yielded, the patterns given to
    [glob.iglob], what was written to [sys.stderr], how it stopped. *)
Record SearchRun : Type := mkSearchRun {
  found : list BaselineFile;
  globbed : list string;
  stderr : list string;
  ended : Ending
}.

(** The line feed of the messages. *)
Definition nl : string := String (ascii_of_nat 10) EmptyString.

(** The loop over [bl['parts_dir']] that builds the pattern and removes
    from [search_dict] the keys it uses. *)
Fixpoint build_path (parts : list string) (local_path : string)
    (search_dict : Dict string) : string * Dict string :=
  match parts with
  | [] => (local_path, search_dict)
  | key :: rest =>
      match dict_get key search_dict with
      | Some v => build_path rest (os_path_join local_path v) (dict_del key search_dict)
      | None => build_path rest (os_path_join local_path "*") search_dict
      end
  end.

(** [a < b] on versions: strings compare by code point, [None] does not
    compare. *)
Definition version_lt (a b : option string) : result bool :=
  match a, b with
  | Some x, Some y => Ok (String.ltb x y)
  | _, _ => Raise TypeError
  end.

Definition version_eq (a b : option string) : bool :=
  match a, b with
  | Some x, Some y => String.eqb x y
  | None, None => true
  | _, _ => false
  end.

(** The [else] branch of the loop over the paths: the data set of [blf]
    is started, restarted, extended or left alone. *)
Definition latest_update (datasets : Dict (list BaselineFile)) (blf : BaselineFile)
  : result (Dict (list BaselineFile)) :=
  ds <- to_dataset blf false ;;
  match dict_get ds datasets with
  | None => Ok (dict_set ds [blf] datasets)
  | Some sub =>
      match sub with
      | [] => Raise IndexError
      | first :: _ =>
          v0 <- get_version first ;;
          v <- get_version blf ;;
          newer <- version_lt v0 v ;;
          if newer then Ok (dict_set ds [blf] datasets)
          else if version_eq v0 v then Ok (dict_set ds (sub ++ [blf])%list datasets)
          else Ok datasets
      end
  end.

(** [[v for sub in datasets.values() for v in sub]] *)
Definition latest_files (datasets : Dict (list BaselineFile)) : list BaselineFile :=
  List.concat (values datasets).

(** The latest-version filter on candidates already decoded. *)
Fixpoint resolve_latest (candidates : list BaselineFile)
    (datasets : Dict (list BaselineFile)) : result (list BaselineFile) :=
  match candidates with
  | [] => Ok (latest_files datasets)
  | blf :: rest =>
      datasets <- latest_update datasets blf ;;
      resolve_latest rest datasets
  end.

(** A value that can stand as one segment of a path. *)
Definition segment_ok (v : string) : Prop := v <> "" /\ contains "/" v = false.

(** What the specification says the pattern holds for the part [key]:
    the constraint of the caller, else the default of the baseline, else
    a wildcard. *)
Definition glob_segment (bl : Baseline) (partial_dict : Dict string)
    (key : string) : string :=
  match dict_get key partial_dict with
  | Some v => v
  | None =>
      match dict_get key (defaults bl) with
      | Some v => v
      | None => "*"
      end
  end.

Section WithFileSystem.

(** [os.path.realpath] and [glob.iglob]: the file system. *)
Variable realpath : string -> string.
Variable iglob : string -> list string.

Definition from_path (path : string) (baseline_nr : Z) : result BaselineFile :=
  let path := realpath path in
  bl <- _get_baseline baseline_nr ;;
  if negb (startswith (root_dir bl ++ "/") path)
  then Raise (Exception ("This file does not correspond to baseline "
                         ++ str_of_Z baseline_nr))
  else
    let parts := split "/" (drop (String.length (root_dir bl) + 1) path) in
    if negb (List.length parts =? List.length (parts_dir bl))%nat
    then Raise (Exception ("Can't parse this path. Expected "
                           ++ str_of_Z (Z.of_nat (List.length (parts_dir bl)))
                           ++ " elements but got "
                           ++ str_of_Z (Z.of_nat (List.length parts)) ++ "."))
    else
      result_parts <- assign_parts (parts_dir bl) (map Some parts) [] ;;
      file_name <- dict_lookup "file_name" result_parts ;;
      file_name <- match file_name with Some s => Ok s | None => Raise TypeError end ;;
      let parts := split "_" (drop_last 3 file_name) in
      let parts :=
        if (List.length parts =? List.length (parts_file_name bl) - 1)%nat
           && existsb (String.eqb "r0i0p0") parts
        then (map Some parts ++ [None])%list
        else map Some parts in
      result_parts <- assign_parts (parts_file_name bl) parts result_parts ;;
      __init__ {| fd_root_dir := Some (root_dir bl); fd_parts := Some result_parts |}
               baseline_nr.

(** The loop over [glob.iglob(local_path)]: what it yields on the way and
    the data sets it ends with. *)
Fixpoint search_loop (paths : list string) (baseline_nr : Z) (latest_version : bool)
    (datasets : Dict (list BaselineFile))
  : list BaselineFile * result (Dict (list BaselineFile)) :=
  match paths with
  | [] => ([], Ok datasets)
  | path :: rest =>
      match from_path path baseline_nr with
      | Raise e => ([], Raise e)
      | Ok blf =>
          if negb latest_version then
            let '(ys, r) := search_loop rest baseline_nr latest_version datasets in
            (blf :: ys, r)
          else
            match latest_update datasets blf with
            | Raise e => ([], Raise e)
            | Ok datasets => search_loop rest baseline_nr latest_version datasets
            end
      end
  end.

Definition search (baseline_nr : Z) (latest_version : bool)
    (partial_dict : Dict string) : SearchRun :=
  match _get_baseline baseline_nr with
  | Raise e => {| found := []; globbed := []; stderr := []; ended := Failed e |}
  | Ok bl =>
      let search_dict := dict_update (defaults bl) partial_dict in
      let latest_version :=
        if latest_version && ((baseline_nr >? 0)%Z || dict_mem "version" partial_dict)
        then false else latest_version in
      let '(local_path, search_dict) :=
        build_path (parts_dir bl) (root_dir bl) search_dict in
      match search_dict with
      | _ :: _ =>
          {| found := []; globbed := [];
             stderr := ["WARNING: There where unused constraints: "
                        ++ join "," (keys search_dict) ++ nl];
             ended := Failed (Exception
               ("Unknown parameter(s) " ++ join "," (keys search_dict) ++ nl
                ++ "For Baseline " ++ str_of_Z baseline_nr ++ " try one of: "
                ++ join "," (parts_dir bl))) |}
      | [] =>
          let '(ys, r) := search_loop (iglob local_path) baseline_nr latest_version [] in
          match r with
          | Raise e =>
              {| found := ys; globbed := [local_path]; stderr := []; ended := Failed e |}
          | Ok datasets =>
              {| found := (ys ++ if latest_version then latest_files datasets else [])%list;
                 globbed := [local_path]; stderr := []; ended := Done |}
          end
      end
  end.

End WithFileSystem.

(** The candidate a CMIP5 path decodes to when the path is its own real
    path; the examples name their candidates by their paths. *)
Definition decoded (path : string) : BaselineFile :=
  match from_path (fun p => p) path 0 with
  | Ok blf => blf
  | Raise _ => {| baseline_nr := 0;
                  dict := {| fd_root_dir := None; fd_parts := None |} |}
  end.

(** The parts of a candidate that baseline 0 decodes: seven come from
    the directories of the path, five from the tokens of the file name,
    and the time is the sixth token when there is one. *)
Definition cmip5_parts (project product institute time_frequency realm version
    file_name variable cmor_table model experiment ensemble : string)
    (time : option string) : Dict (option string) :=
  [("project", Some project); ("product", Some product);
   ("institute", Some institute); ("model", Some model);
   ("experiment", Some experiment); ("time_frequency", Some time_frequency);
   ("realm", Some realm); ("cmor_table", Some cmor_table);
   ("ensemble", Some ensemble); ("version", Some version);
   ("variable", Some variable); ("file_name", Some file_name);
   ("time", time)].

(** The parts of a candidate that baseline 1 decodes. *)
Definition miklip_parts (project product institute time_frequency realm
    file_name variable cmor_table model experiment ensemble : string)
    (time : option string) : Dict (option string) :=
  [("project", Some project); ("product", Some product);
   ("institute", Some institute); ("model", Some model);
   ("experiment", Some experiment); ("time_frequency", Some time_frequency);
   ("realm", Some realm); ("variable", Some variable);
   ("ensemble", Some ensemble); ("file_name", Some file_name);
   ("cmor_table", Some cmor_table); ("time", time)].

(** The data set key and the version of a candidate that has both, and
    the candidates no other candidate of their data set is newer than. *)
Definition key_of (c : BaselineFile) : string :=
  match to_dataset c false with
  | Ok k => k
  | Raise _ => ""
  end.

Definition version_of (c : BaselineFile) : string :=
  match get_version c with
  | Ok (Some v) => v
  | _ => ""
  end.

Definition is_latest (candidates : list BaselineFile) (c : BaselineFile) : bool :=
  forallb (fun c' => negb (String.eqb (key_of c') (key_of c)
                           && String.ltb (version_of c) (version_of c')))
          candidates.

(** A candidate the resolver can file: it has a data set key and a version. *)
Definition has_dataset_and_version (c : BaselineFile) : Prop :=
  (exists k, to_dataset c false = Ok k) /\ (exists v, get_version c = Ok (Some v)).

(** The candidates of the data set [k] that are the latest among [done]. *)
Definition latest_of_dataset (done : list BaselineFile) (k : string)
  : list BaselineFile :=
  filter (fun x => String.eqb (key_of x) k && is_latest done x) done.

(** What the dictionary of the resolver holds once [done] has been seen. *)
Definition resolver_holds (datasets : Dict (list BaselineFile))
    (done : list BaselineFile) : Prop :=
  dict_wf datasets
  /\ (forall x, In x done -> dict_get (key_of x) datasets <> None)
  /\ (forall k sub, dict_get k datasets = Some sub ->
                    sub <> [] /\ sub = latest_of_dataset done k).

End File.

(** * Properties *)

(** ** Dictionaries and strings *)

Module PyFacts.
Import Py.

Section DictFacts.
Context {V : Type}.
Implicit Types (d e : Dict V) (k : string) (v : V).

Lemma dict_get_del_same k d : dict_get k (dict_del k d) = None.
Proof.
  induction d as [|[k' v'] d IH]; simpl; auto.
  destruct (String.eqb k' k) eqn:E; simpl; auto.
  now rewrite E.
Qed.

Lemma dict_get_del_other k k' d :
  k <> k' -> dict_get k (dict_del k' d) = dict_get k d.
Proof.
  intros Hne. induction d as [|[k0 v0] d IH]; simpl; auto.
  destruct (String.eqb k0 k') eqn:E; simpl.
  - apply String.eqb_eq in E. subst k0.
    destruct (String.eqb k' k) eqn:E'; auto.
    apply String.eqb_eq in E'. congruence.
  - now rewrite IH.
Qed.

Lemma dict_get_set_same k v d : dict_get k (dict_set k v d) = Some v.
Proof.
  induction d as [|[k' v'] d IH]; simpl.
  - now rewrite String.eqb_refl.
  - destruct (String.eqb k' k) eqn:E; simpl; now rewrite E.
Qed.

Lemma dict_get_set_other k k' v d :
  k <> k' -> dict_get k (dict_set k' v d) = dict_get k d.
Proof.
  intros Hne. induction d as [|[k0 v0] d IH]; simpl.
  - destruct (String.eqb k' k) eqn:E; auto.
    apply String.eqb_eq in E. congruence.
  - destruct (String.eqb k0 k') eqn:E; simpl.
    + apply String.eqb_eq in E. subst k0.
      destruct (String.eqb k' k) eqn:E'; auto.
      apply String.eqb_eq in E'. congruence.
    + now rewrite IH.
Qed.

Lemma dict_get_None_keys k d : dict_get k d = None <-> ~ In k (keys d).
Proof.
  induction d as [|[k' v'] d IH]; simpl.
  - tauto.
  - destruct (String.eqb k' k) eqn:E.
    + apply String.eqb_eq in E. split; [discriminate | intros H; exfalso; auto].
    + apply String.eqb_neq in E. rewrite IH. tauto.
Qed.

Lemma dict_get_In k v d : dict_get k d = Some v -> In (k, v) d.
Proof.
  induction d as [|[k' v'] d IH]; simpl; [discriminate|].
  destruct (String.eqb k' k) eqn:E.
  - apply String.eqb_eq in E. intros [= ->]. left. now subst.
  - auto.
Qed.

Lemma In_dict_get k v d : dict_wf d -> In (k, v) d -> dict_get k d = Some v.
Proof.
  unfold dict_wf. induction d as [|[k' v'] d IH]; simpl; [tauto|].
  intros Hnd [H|H].
  - injection H as -> ->. now rewrite String.eqb_refl.
  - inversion Hnd as [|? ? Hnotin Hnd']; subst.
    destruct (String.eqb k' k) eqn:E; auto.
    apply String.eqb_eq in E. subst k'.
    exfalso. apply Hnotin. change k with (fst (k, v)). now apply in_map.
Qed.

Lemma dict_del_absent k d : dict_get k d = None -> dict_del k d = d.
Proof.
  induction d as [|[k' v'] d IH]; simpl; auto.
  destruct (String.eqb k' k); [discriminate|].
  intros H. now rewrite IH.
Qed.

Lemma keys_dict_del k d :
  keys (dict_del k d) = filter (fun k' => negb (String.eqb k' k)) (keys d).
Proof.
  induction d as [|[k' v'] d IH]; simpl; auto.
  destruct (String.eqb k' k); simpl; now rewrite IH.
Qed.

Lemma keys_dict_set k v d :
  keys (dict_set k v d) = if dict_mem k d then keys d else (keys d ++ [k])%list.
Proof.
  unfold dict_mem. induction d as [|[k' v'] d IH]; simpl; auto.
  destruct (String.eqb k' k) eqn:E; simpl; auto.
  rewrite IH. now destruct (dict_get k d).
Qed.

Lemma In_keys_dict_set k k' v d :
  In k (keys (dict_set k' v d)) <-> k = k' \/ In k (keys d).
Proof.
  rewrite keys_dict_set. unfold dict_mem.
  destruct (dict_get k' d) eqn:E.
  - split; auto. intros [->|H]; auto.
    destruct (in_dec string_dec k' (keys d)) as [H|H]; auto.
    apply dict_get_None_keys in H. congruence.
  - rewrite in_app_iff. simpl. intuition.
Qed.

Lemma dict_wf_del k d : dict_wf d -> dict_wf (dict_del k d).
Proof.
  unfold dict_wf. rewrite keys_dict_del. apply NoDup_filter.
Qed.

Lemma dict_wf_set k v d : dict_wf d -> dict_wf (dict_set k v d).
Proof.
  unfold dict_wf. rewrite keys_dict_set. unfold dict_mem.
  destruct (dict_get k d) eqn:E; auto.
  intros H. apply dict_get_None_keys in E.
  apply NoDup_app; [assumption | repeat constructor; simpl; tauto |].
  intros x Hx [<-|[]]. contradiction.
Qed.

Lemma dict_wf_setdefault k v d : dict_wf d -> dict_wf (dict_setdefault k v d).
Proof.
  unfold dict_setdefault. destruct (dict_mem k d); auto using dict_wf_set.
Qed.

Lemma dict_get_setdefault_other k k' v d :
  k <> k' -> dict_get k (dict_setdefault k' v d) = dict_get k d.
Proof.
  intros H. unfold dict_setdefault.
  destruct (dict_mem k' d); auto using dict_get_set_other.
Qed.

Lemma dict_get_update k d e :
  dict_get k (dict_update d e) =
  match dict_get k (rev e) with
  | Some v => Some v
  | None => dict_get k d
  end.
Proof.
  unfold dict_update. revert d.
  induction e as [|[k' v'] e IH] using rev_ind; intros d; simpl; auto.
  rewrite fold_left_app, rev_app_distr. simpl.
  destruct (String.eqb k' k) eqn:E.
  - apply String.eqb_eq in E. subst. apply dict_get_set_same.
  - apply String.eqb_neq in E. rewrite dict_get_set_other by congruence. apply IH.
Qed.

Lemma In_keys_dict_update k d e :
  In k (keys (dict_update d e)) <-> In k (keys d) \/ In k (keys e).
Proof.
  unfold dict_update. revert d.
  induction e as [|[k' v'] e IH]; intros d; simpl; [tauto|].
  rewrite IH, In_keys_dict_set. intuition.
Qed.

Lemma dict_get_rev k d : dict_wf d -> dict_get k (rev d) = dict_get k d.
Proof.
  intros Hwf. destruct (dict_get k d) eqn:E.
  - apply In_dict_get.
    + unfold dict_wf, keys. rewrite map_rev. now apply NoDup_rev.
    + apply in_rev. rewrite rev_involutive. now apply dict_get_In.
  - apply dict_get_None_keys. apply dict_get_None_keys in E.
    unfold keys. rewrite map_rev. now rewrite <- in_rev.
Qed.

End DictFacts.

(** *** Strings *)

Lemma append_nil_r s : s ++ "" = s.
Proof. induction s; simpl; congruence. Qed.

Lemma append_assoc a b c : (a ++ b) ++ c = a ++ (b ++ c).
Proof. induction a; simpl; congruence. Qed.

Lemma length_append a b :
  String.length (a ++ b) = (String.length a + String.length b)%nat.
Proof. induction a; simpl; congruence. Qed.

Lemma prefix_append p s : String.prefix p (p ++ s) = true.
Proof.
  induction p as [|c p IH]; simpl.
  - now destruct s.
  - destruct (ascii_dec c c); congruence.
Qed.

Lemma drop_append p s : drop (String.length p) (p ++ s) = s.
Proof. induction p; simpl; auto. Qed.

Lemma prefix_drop p s :
  String.prefix p s = true -> s = p ++ drop (String.length p) s.
Proof.
  revert s. induction p as [|c p IH]; intros s.
  - now destruct s.
  - destruct s as [|c' s]; simpl; [discriminate|].
    destruct (ascii_dec c c') as [->|]; [|discriminate].
    intros H. f_equal. now apply IH.
Qed.

Lemma contains_append c x y :
  contains c (x ++ y) = contains c x || contains c y.
Proof.
  induction x as [|a x IH]; simpl; auto.
  rewrite IH. now rewrite orb_assoc.
Qed.

Lemma split_not_nil c s : split c s <> [].
Proof.
  destruct s as [|a s]; simpl; [discriminate|].
  destruct (Ascii.eqb a c); [discriminate|].
  destruct (split c s); discriminate.
Qed.

Lemma split_nosep c x : contains c x = false -> split c x = [x].
Proof.
  induction x as [|a x IH]; simpl; auto.
  intros H. apply orb_false_elim in H. destruct H as [Ha Hx].
  rewrite Ha, (IH Hx). reflexivity.
Qed.

Lemma split_append_sep c x s :
  contains c x = false -> split c (x ++ String c s) = x :: split c s.
Proof.
  induction x as [|a x IH]; simpl.
  - intros _. now rewrite Ascii.eqb_refl.
  - intros H. apply orb_false_elim in H. destruct H as [Ha Hx].
    rewrite Ha, (IH Hx). reflexivity.
Qed.

(** The pieces of a split are free of the separator. *)
Lemma split_pieces c s : Forall (fun x => contains c x = false) (split c s).
Proof.
  induction s as [|a s IH]; simpl.
  - repeat constructor.
  - destruct (Ascii.eqb a c) eqn:E.
    + constructor; auto.
    + destruct (split c s) as [|w ws]; [repeat constructor; simpl; now rewrite E|].
      inversion IH as [|? ? Hw Hws]; subst.
      constructor; auto. simpl. now rewrite E, Hw.
Qed.

(** Splitting what was joined gives the pieces back, when they are free
    of the separator. *)
Lemma split_join c l :
  l <> [] -> Forall (fun x => contains c x = false) l ->
  split c (join (String c "") l) = l.
Proof.
  intros Hne Hl. induction Hl as [|x l Hx Hl IH]; [congruence|].
  destruct l as [|y l].
  - simpl. now apply split_nosep.
  - change (join (String c "") (x :: y :: l))
      with (x ++ String c (join (String c "") (y :: l))).
    rewrite split_append_sep by assumption.
    f_equal. apply IH. discriminate.
Qed.

Lemma join_two_contains c x y l :
  contains c (join (String c "") (x :: y :: l)) = true.
Proof.
  change (join (String c "") (x :: y :: l))
    with (x ++ String c (join (String c "") (y :: l))).
  rewrite contains_append. simpl. rewrite Ascii.eqb_refl.
  now rewrite orb_true_r.
Qed.

Lemma last_char_append x y : y <> "" -> last_char (x ++ y) = last_char y.
Proof.
  intros Hy. induction x as [|a x IH]; simpl; auto.
  rewrite IH. destruct (x ++ y) eqn:E; auto.
  destruct x; simpl in E; congruence.
Qed.

Lemma last_char_contains c s : last_char s = Some c -> contains c s = true.
Proof.
  induction s as [|a s IH]; simpl; [discriminate|].
  destruct s as [|b s].
  - intros [= ->]. now rewrite Ascii.eqb_refl.
  - intros H. rewrite (IH H). apply orb_true_r.
Qed.

Lemma endswith_char c s :
  endswith (String c "") s = true -> last_char s = Some c.
Proof.
  unfold endswith. cbn [String.length]. intros H.
  apply andb_prop in H. destruct H as [Hlen H].
  apply Nat.leb_le in Hlen. apply String.eqb_eq in H.
  revert H Hlen. induction s as [|a s IH]; cbn [String.length]; [lia|].
  replace (S (String.length s) - 1)%nat with (String.length s) by lia.
  destruct s as [|b s].
  - simpl. now intros [= ->].
  - intros H _. cbn [String.length drop] in H.
    cbn [last_char]. apply IH; cbn [String.length]; [|lia].
    now replace (S (String.length s) - 1)%nat with (String.length s) by lia.
Qed.

Lemma contains_substring c m s :
  contains c s = false -> contains c (String.substring 0 m s) = false.
Proof.
  revert s. induction m as [|m IH]; intros [|a s]; simpl; auto.
  intros H. apply orb_false_elim in H. destruct H as [Ha Hs].
  now rewrite Ha, (IH s Hs).
Qed.

Lemma contains_drop_last c n s :
  contains c s = false -> contains c (drop_last n s) = false.
Proof. apply contains_substring. Qed.

(** The pieces of a split hold no character the string does not hold. *)
Lemma split_pieces_free c sep s :
  contains c s = false -> Forall (fun x => contains c x = false) (split sep s).
Proof.
  induction s as [|a s IH]; simpl.
  - repeat constructor.
  - intros H. apply orb_false_elim in H. destruct H as [Ha Hs].
    specialize (IH Hs).
    destruct (Ascii.eqb a sep).
    + constructor; auto.
    + destruct (split sep s) as [|w ws]; [repeat constructor; simpl; now rewrite Ha|].
      inversion IH as [|? ? Hw Hws]; subst.
      constructor; auto. simpl. now rewrite Ha, Hw.
Qed.

(** *** Orders of a list *)

Section Orders.
Context {A : Type}.
Local Open Scope list_scope.





End Orders.

End PyFacts.

(** ** The query translator *)

Module SolrFacts.
Import Py Solr PyFacts.
Local Open Scope list_scope.

Lemma solr_param_special k v : is_special k = true -> solr_param (k, v) = (k, v).
Proof. unfold solr_param. now intros ->. Qed.

Lemma solr_param_clause k v :
  is_special k = false -> fst (solr_param (k, v)) = "fq".
Proof. unfold solr_param. now intros ->. Qed.

Lemma solr_params_app d1 d2 :
  solr_params (d1 ++ d2) = (solr_params d1 ++ solr_params d2)%list.
Proof. apply map_app. Qed.

(** A parameter with a reserved name other than [fq] is in the translation
    exactly when the dictionary has it: clauses are all named [fq]. *)
Lemma In_solr_params_named k v d :
  is_special k = true -> k <> "fq" ->
  In (k, v) (solr_params d) <-> In (k, v) d.
Proof.
  intros Hs Hfq. unfold solr_params. rewrite in_map_iff. split.
  - intros ([k' v'] & E & Hin).
    destruct (is_special k') eqn:Hs'.
    + rewrite solr_param_special in E by assumption. now rewrite <- E.
    + pose proof (solr_param_clause k' v' Hs') as F. rewrite E in F.
      simpl in F. congruence.
  - intros Hin. exists (k, v). split; auto using solr_param_special.
Qed.

(** C7.  A constraint set made of reserved keys only is translated to
    itself: every entry is a parameter under its own name and nothing else
    is emitted, so no AND/OR clause is built.  Whatever the other keys, an
    entry with a reserved key contributes itself, unchanged, at its place. *)
Theorem reserved_keys_pass_through (urlencode : list (string * Value) -> string) :
  (forall d : Dict Value,
      Forall (fun kv => is_special (fst kv) = true) d ->
      solr_params d = d /\ _to_solr_query urlencode d = urlencode d)
  /\ (forall (d1 d2 : Dict Value) k v,
         is_special k = true ->
         solr_params (d1 ++ (k, v) :: d2)
         = (solr_params d1 ++ (k, v) :: solr_params d2)%list).
Proof.
  split.
  - intros d Hd.
    assert (E : solr_params d = d).
    { induction Hd as [|[k v] d Hk _ IH]; auto.
      simpl in Hk. change (solr_params ((k, v) :: d))
        with (solr_param (k, v) :: solr_params d).
      now rewrite IH, solr_param_special. }
    split; auto. unfold _to_solr_query. now rewrite E.
  - intros d1 d2 k v Hk. rewrite solr_params_app.
    change (solr_params ((k, v) :: d2)) with (solr_param (k, v) :: solr_params d2).
    now rewrite solr_param_special.
Qed.

Lemma reserved_keys_pass_through_witness :
  let d := [("q", VStr "*:*"); ("facet.limit", VStr "5"); ("sort", VStr "file desc")] in
  (solr_params d = d /\ _to_solr_query plain_urlencode d = plain_urlencode d)
  /\ solr_params ([("model", VStr "m")] ++ ("fq", VStr "x:y") :: [("t_not_", VList ["a"; "b"])])
     = [("fq", VStr "model:m"); ("fq", VStr "x:y"); ("fq", VStr "-t:a OR -t:b")].
Proof.
  destruct (reserved_keys_pass_through plain_urlencode) as [Ha Hb].
  split.
  - apply Ha. repeat constructor.
  - rewrite Hb by reflexivity. reflexivity.
Defined.

(** *** The dictionaries [_search] and [_facets] translate *)

Lemma search_dict_wf pd : dict_wf pd -> dict_wf (search_dict pd).
Proof.
  intros H. unfold search_dict.
  apply dict_wf_set.
  destruct (dict_get "text" _);
    auto 8 using dict_wf_set, dict_wf_del, dict_wf_setdefault.
Qed.

Lemma facets_dict_wf pd : dict_wf pd -> dict_wf (facets_dict pd).
Proof.
  intros H. unfold facets_dict.
  destruct (dict_get "text" _); auto using dict_wf_set, dict_wf_del.
Qed.

Lemma search_dict_text pd :
  dict_get "text"
    (dict_setdefault "fl" (VStr "file")
       (dict_setdefault "q" (VStr "*:*") (dict_del "start" pd)))
  = dict_get "text" pd.
Proof.
  rewrite !dict_get_setdefault_other by discriminate.
  now rewrite dict_get_del_other by discriminate.
Qed.

(** C9.  When the constraint set has the key [text], the dictionary that
    [_search] translates and the one [_facets] translates have no key
    [text] any more, hold its value under [q], and the translation carries
    that value as its only parameter [q]: the match-all default or a [q] of
    the caller is replaced, and no clause is built from [text]. *)
Theorem text_becomes_q (pd : Dict Value) (text : Value) :
  dict_wf pd ->
  dict_get "text" pd = Some text ->
  forall d, d = search_dict pd \/ d = facets_dict pd ->
    ~ In "text" (keys d)
    /\ dict_get "q" d = Some text
    /\ (forall v, In ("q", v) (solr_params d) <-> v = text).
Proof.
  intros Hwf Htext d Hd.
  assert (Hq : dict_get "q" d = Some text /\ dict_get "text" d = None /\ dict_wf d).
  { destruct Hd as [-> | ->].
    - split; [|split]; [| |now apply search_dict_wf].
      + unfold search_dict. rewrite search_dict_text, Htext.
        rewrite dict_get_set_other by discriminate. apply dict_get_set_same.
      + unfold search_dict. rewrite search_dict_text, Htext.
        rewrite !dict_get_set_other by discriminate. apply dict_get_del_same.
    - split; [|split]; [| |now apply facets_dict_wf].
      + unfold facets_dict. rewrite Htext. apply dict_get_set_same.
      + unfold facets_dict. rewrite Htext.
        rewrite dict_get_set_other by discriminate. apply dict_get_del_same. }
  destruct Hq as (Hq & Ht & Hwfd).
  split; [now apply dict_get_None_keys|]. split; [assumption|].
  intros v. rewrite In_solr_params_named by (reflexivity || discriminate).
  split.
  - intros Hin. apply (In_dict_get _ _ _ Hwfd) in Hin. congruence.
  - intros ->. now apply dict_get_In.
Qed.

Lemma text_becomes_q_witness :
  let pd := [("model", VStr "MPI-ESM-LR"); ("text", VStr "tas*"); ("q", VStr "old")] in
  (~ In "text" (keys (search_dict pd))
   /\ dict_get "q" (search_dict pd) = Some (VStr "tas*")
   /\ (forall v, In ("q", v) (solr_params (search_dict pd)) <-> v = VStr "tas*"))
  /\ (~ In "text" (keys (facets_dict pd))
      /\ dict_get "q" (facets_dict pd) = Some (VStr "tas*")
      /\ (forall v, In ("q", v) (solr_params (facets_dict pd)) <-> v = VStr "tas*")).
Proof.
  intros pd.
  assert (Hwf : dict_wf pd).
  { unfold dict_wf, pd. simpl. repeat constructor; simpl; intuition discriminate. }
  split.
  - apply (text_becomes_q pd (VStr "tas*") Hwf eq_refl (search_dict pd)). now left.
  - apply (text_becomes_q pd (VStr "tas*") Hwf eq_refl (facets_dict pd)). now right.
Defined.

(** *** The paginated search executor *)

Lemma files_of_app xs ys : files_of (xs ++ ys) = files_of xs ++ files_of ys.
Proof. apply flat_map_app. Qed.

Lemma metas_of_app xs ys : metas_of (xs ++ ys) = metas_of xs ++ metas_of ys.
Proof. apply flat_map_app. Qed.

Lemma files_of_File ps : files_of (map File ps) = ps.
Proof. induction ps; simpl; congruence. Qed.

Lemma metas_of_File ps : metas_of (map File ps) = [].
Proof. induction ps; simpl; congruence. Qed.

Section Executor.

Variable urlencode : list (string * Value) -> string.
Variable py_int : Value -> result Z.
Variable get_json : Core -> Request -> result Answer.

(** The inner loop yields the [file] of every document, in order, and
    counts each of them. *)
Lemma yield_docs_files iter_answer ps n :
  map (dict_get "file") iter_answer = map Some ps ->
  yield_docs iter_answer n = (map File ps, (n - Z.of_nat (List.length ps))%Z, None).
Proof.
  revert ps n. induction iter_answer as [|item rest IH]; intros [|p ps] n H;
    try discriminate.
  - simpl. f_equal. f_equal. lia.
  - simpl in H. injection H as Hp Hrest.
    cbn [yield_docs]. rewrite Hp, (IH ps (n - 1)%Z Hrest).
    cbn [map List.length]. f_equal. f_equal. lia.
Qed.

(** Whatever the documents, the inner loop yields no metadata record. *)
Lemma yield_docs_no_meta iter_answer n :
  metas_of (fst (fst (yield_docs iter_answer n))) = [].
Proof.
  revert n. induction iter_answer as [|item rest IH]; intros n; simpl; auto.
  destruct (dict_get "file" item); simpl; auto.
  specialize (IH (n - 1)%Z).
  destruct (yield_docs rest (n - 1)) as [[ys m] e]. simpl in *. assumption.
Qed.

(** Once the flag is down the loop yields no metadata record, whatever
    the core answers and however long it runs. *)
Lemma search_loop_no_meta fuel self query offset batch_size n :
  metas_of (yielded (search_loop get_json fuel self query offset batch_size n false)) = [].
Proof.
  revert offset batch_size n.
  induction fuel as [|fuel IH]; intros offset batch_size n; simpl.
  - now destruct (n >? 0)%Z.
  - destruct (n >? 0)%Z; auto.
    destruct (get_json self _) as [answer|e]; auto.
    pose proof (yield_docs_no_meta (docs (response answer)) n) as Hy.
    destruct (yield_docs (docs (response answer)) n) as [[ys m] err].
    simpl in Hy. destruct err; simpl; auto.
    rewrite metas_of_app, Hy. apply IH.
Qed.

(** Every request of the loop carries the query string it was given. *)
Lemma search_loop_calls fuel self query offset batch_size n meta rq :
  In rq (calls (search_loop get_json fuel self query offset batch_size n meta)) ->
  request_query rq = query.
Proof.
  revert offset batch_size n meta.
  induction fuel as [|fuel IH]; intros offset batch_size n meta; simpl.
  - destruct (n >? 0)%Z; simpl; tauto.
  - destruct (n >? 0)%Z; simpl; [|tauto].
    destruct (get_json self _) as [answer|e]; simpl.
    + destruct (yield_docs (docs (response answer)) n) as [[ys m] err].
      destruct err; simpl.
      * intros [<-|[]]. reflexivity.
      * intros [<-|H]; [reflexivity|]. eapply IH, H.
    + intros [<-|[]]. reflexivity.
Qed.

Section Serving.

Variables (self : Core) (query : string) (D : list Doc) (ps : list string).
Hypothesis Hserves : serves get_json self query D.
Hypothesis Hfiles : map (dict_get "file") D = map Some ps.

Lemma serving_length : List.length ps = List.length D.
Proof.
  rewrite <- (length_map Some ps), <- Hfiles. apply length_map.
Qed.

(** One turn of the loop against a core that serves [D]: a page of
    [min batch_size n] documents from [offset]. *)
Lemma search_loop_page fuel offset batch_size n meta :
  (0 <= offset)%Z -> (0 < n)%Z -> (0 < batch_size)%Z ->
  (offset + Z.min batch_size n <= Z.of_nat (List.length D))%Z ->
  search_loop get_json (S fuel) self query offset batch_size n meta
  = run_prepend
      ((if meta
        then [Meta {| meta_numFound := Z.of_nat (List.length D); meta_start := offset |}]
        else [])
       ++ map File (firstn (Z.to_nat (Z.min batch_size n)) (skipn (Z.to_nat offset) ps)))
      (SelectRows offset (Z.min batch_size n) query)
      (search_loop get_json fuel self query (offset + Z.min batch_size n)
         (Z.min batch_size n) (n - Z.min batch_size n) false).
Proof.
  intros Ho Hn Hb Hfit.
  set (r := Z.min batch_size n) in *.
  assert (Hr : (0 < r)%Z) by (unfold r; lia).
  cbn [search_loop]. fold r.
  replace (n >? 0)%Z with true by (symmetry; apply Z.gtb_lt; lia).
  destruct Hserves as [_ Hpage].
  destruct (Hpage offset r) as (a & Ea & Hnum & Hstart & Hdocs); [lia | lia |].
  rewrite Ea.
  assert (Hslice : map (dict_get "file") (docs (response a))
                   = map Some (firstn (Z.to_nat r) (skipn (Z.to_nat offset) ps))).
  { rewrite Hdocs, <- !firstn_map, <- !skipn_map. do 2 f_equal. exact Hfiles. }
  rewrite (yield_docs_files _ _ n Hslice).
  assert (Hlen : List.length (firstn (Z.to_nat r) (skipn (Z.to_nat offset) ps))
                 = Z.to_nat r).
  { rewrite length_firstn, length_skipn, serving_length. lia. }
  rewrite Hlen, Z2Nat.id by lia.
  unfold strip_docs. rewrite Hnum, Hstart.
  reflexivity.
Qed.

(** Against a core that serves [D], the loop started at [offset] with
    everything from there still to visit yields the rest of the files in
    the order of the core and ends. *)
Lemma search_loop_serves fuel :
  forall offset batch_size n meta,
    (0 <= offset)%Z -> (0 < batch_size)%Z -> (0 <= n)%Z ->
    (offset + n = Z.of_nat (List.length D))%Z ->
    (Z.to_nat n <= fuel)%nat ->
    let run := search_loop get_json fuel self query offset batch_size n meta in
    files_of (yielded run) = skipn (Z.to_nat offset) ps /\ outcome run = Finished.
Proof.
  induction fuel as [|fuel IH]; intros offset batch_size n meta Ho Hb Hn Hsum Hfuel.
  - assert (n = 0%Z) by lia. subst n. simpl. split; auto.
    symmetry. apply skipn_all2. rewrite serving_length. lia.
  - destruct (Z.eq_dec n 0) as [->|Hnz].
    + simpl. split; auto.
      symmetry. apply skipn_all2. rewrite serving_length. lia.
    + intros run. subst run.
      rewrite search_loop_page by lia.
      set (r := Z.min batch_size n) in *.
      assert (Hr : (0 < r <= n)%Z) by (unfold r; lia).
      destruct (IH (offset + r)%Z r (n - r)%Z false) as [Hy Ho']; try lia.
      cbn [run_prepend yielded outcome]. split; auto.
      rewrite !files_of_app, files_of_File, Hy.
      replace (files_of (if meta then _ else [])) with (@nil string)
        by (now destruct meta).
      cbn [app].
      replace (Z.to_nat (offset + r)) with (Z.to_nat r + Z.to_nat offset)%nat by lia.
      rewrite <- skipn_skipn. apply firstn_skipn.
Qed.

End Serving.

Lemma search_loop_done fuel self query offset batch_size n meta :
  (n <= 0)%Z ->
  search_loop get_json fuel self query offset batch_size n meta
  = {| yielded := []; calls := []; outcome := Finished |}.
Proof.
  intros Hn. assert (E : (n >? 0)%Z = false) by (rewrite Z.gtb_ltb; apply Z.ltb_ge; lia).
  destruct fuel; simpl; now rewrite E.
Qed.

Lemma three_pages_of_25 (ps : list string) :
  List.length ps = 25%nat ->
  firstn 10 (skipn 0 ps) ++ firstn 10 (skipn 10 ps) ++ firstn 5 (skipn 20 ps) = ps.
Proof.
  intros H.
  assert (E : firstn 5 (skipn 20 ps) = skipn 20 ps)
    by (apply firstn_all2; rewrite length_skipn; lia).
  rewrite E.
  replace (skipn 20 ps) with (skipn 10 (skipn 10 ps))
    by (now rewrite skipn_skipn).
  rewrite firstn_skipn. apply firstn_skipn.
Qed.

(** C1.  A core that holds exactly 25 documents for the query, asked in
    batches of 10 from the start, gets four requests: the count and the
    pages at 0, 10 and 20 (of 10, 10 and 5 rows), after which the loop
    ends.  The files yielded are the 25 of the core, each once, in its
    order: none is missing, and none comes twice unless the core itself
    holds it twice. *)
Theorem pagination_25_by_10 (fuel : nat) (self : Core) (latest_version meta : bool)
    (pd : Dict Value) (D : list Doc) (ps : list string) :
  search_offset py_int pd = Ok 0%Z ->
  serves get_json self (_to_solr_query urlencode (search_dict pd)) D ->
  map (dict_get "file") D = map Some ps ->
  List.length D = 25%nat ->
  (3 <= fuel)%nat ->
  let query := _to_solr_query urlencode (search_dict pd) in
  let run := _search urlencode py_int get_json fuel self 10 latest_version meta pd in
  files_of (yielded run) = ps
  /\ List.length (files_of (yielded run)) = 25%nat
  /\ (NoDup ps -> NoDup (files_of (yielded run)))
  /\ calls run = [SelectCount query; SelectRows 0 10 query;
                  SelectRows 10 10 query; SelectRows 20 5 query]
  /\ outcome run = Finished.
Proof.
  intros Hoff Hs Hf HD Hfuel query run.
  assert (Hps : List.length ps = 25%nat)
    by (now rewrite (serving_length D ps Hf)).
  assert (E : run = {| yielded := (if meta
                                   then [Meta {| meta_numFound := 25; meta_start := 0 |}]
                                   else [])
                                  ++ map File (firstn 10 (skipn 0 ps))
                                  ++ map File (firstn 10 (skipn 10 ps))
                                  ++ map File (firstn 5 (skipn 20 ps));
                       calls := [SelectCount query; SelectRows 0 10 query;
                                 SelectRows 10 10 query; SelectRows 20 5 query];
                       outcome := Finished |}).
  { subst run. unfold _search. rewrite Hoff. fold query.
    destruct Hs as [(a0 & E0 & N0) Hpage]. fold query in E0. rewrite E0, N0, HD.
    destruct fuel as [|[|[|fuel]]]; try lia.
    assert (Hs : serves get_json self query D).
    { split; [exists a0; split; assumption | exact Hpage]. }
    rewrite (search_loop_page self query D ps Hs Hf _ 0 10 (Z.of_nat 25) meta)
      by (rewrite ?HD; cbn; lia).
    change (Z.min 10 (Z.of_nat 25)) with 10%Z.
    change (Z.of_nat 25 - 10)%Z with 15%Z. change (0 + 10)%Z with 10%Z.
    rewrite (search_loop_page self query D ps Hs Hf _ 10 10 15 false)
      by (rewrite ?HD; cbn; lia).
    change (Z.min 10 15) with 10%Z.
    change (15 - 10)%Z with 5%Z. change (10 + 10)%Z with 20%Z.
    rewrite (search_loop_page self query D ps Hs Hf _ 20 10 5 false)
      by (rewrite ?HD; cbn; lia).
    change (Z.min 10 5) with 5%Z.
    change (5 - 5)%Z with 0%Z. change (20 + 5)%Z with 25%Z.
    rewrite search_loop_done by lia.
    rewrite HD. unfold run_prepend. cbn [yielded calls outcome].
    change (Z.to_nat 0) with 0%nat. change (Z.to_nat 10) with 10%nat.
    change (Z.to_nat 20) with 20%nat. change (Z.to_nat 5) with 5%nat.
    change (Z.of_nat 25) with 25%Z.
    rewrite app_nil_r. cbn [app]. now rewrite <- app_assoc. }
  assert (Hfiles : files_of (yielded run) = ps).
  { rewrite E. cbn [yielded].
    rewrite !files_of_app, !files_of_File.
    replace (files_of (if meta then _ else [])) with (@nil string)
      by (now destruct meta).
    now apply three_pages_of_25. }
  rewrite Hfiles. rewrite E. cbn [calls outcome]. auto.
Qed.

(** C4, as the code has it.  Whatever sort order the caller supplies, the
    dictionary that is translated asks for ["file desc"] and for nothing
    else, and every request of the search carries that translation.  A
    core that serves its documents in descending order of [file], as it
    is asked to, has them yielded in that order. *)
Theorem search_sorts_by_file_desc (fuel : nat) (self : Core) (batch_size : Z)
    (latest_version meta : bool) (pd : Dict Value) :
  dict_wf pd ->
  let params := solr_params (search_dict pd) in
  let run := _search urlencode py_int get_json fuel self batch_size latest_version meta pd in
  (forall v, In ("sort", v) params <-> v = VStr "file desc")
  /\ (forall rq, In rq (calls run) -> request_query rq = urlencode params)
  /\ (forall D ps,
         search_offset py_int pd = Ok 0%Z ->
         (0 < batch_size)%Z ->
         serves get_json self (urlencode params) D ->
         map (dict_get "file") D = map Some ps ->
         (List.length D <= fuel)%nat ->
         descending ps = true ->
         files_of (yielded run) = ps /\ descending (files_of (yielded run)) = true).
Proof.
  intros Hwf params run. split; [|split].
  - intros v. unfold params.
    rewrite In_solr_params_named by (reflexivity || discriminate).
    assert (Hget : dict_get "sort" (search_dict pd) = Some (VStr "file desc"))
      by apply dict_get_set_same.
    split.
    + intros Hin. apply (In_dict_get _ _ _ (search_dict_wf pd Hwf)) in Hin. congruence.
    + intros ->. now apply dict_get_In.
  - intros rq. subst run. unfold _search.
    destruct (search_offset py_int pd) as [offset|e]; simpl; [|tauto].
    destruct (get_json self (SelectCount _)) as [a|e]; simpl.
    + intros [<-|H]; [reflexivity|]. now apply search_loop_calls in H.
    + intros [<-|[]]. reflexivity.
  - intros D ps Hoff Hb Hs Hf Hfuel Hdesc.
    assert (E : files_of (yielded run) = ps).
    { subst run. unfold _search. rewrite Hoff.
      fold params. unfold _to_solr_query. fold params.
      destruct Hs as [(a0 & E0 & N0) Hpage]. rewrite E0.
      assert (Hs : serves get_json self (urlencode params) D)
        by (split; [now exists a0 | exact Hpage]).
      cbn [run_prepend yielded app]. rewrite N0.
      apply (search_loop_serves self (urlencode params) D ps Hs Hf); lia. }
    now rewrite E.
Qed.

(** C3, as the code has it.  When the record is requested, at least one
    document matches and the first page is answered, the stream starts
    with one metadata record, made of the answer to that first page
    without its documents, and has no other; when it is not requested the
    stream has none, whatever the core answers. *)
Theorem metadata_record_from_first_page (fuel : nat) (self : Core) (batch_size : Z)
    (latest_version : bool) (pd : Dict Value) :
  let query := _to_solr_query urlencode (search_dict pd) in
  (forall (offset : Z) (a0 a1 : Answer),
      search_offset py_int pd = Ok offset ->
      get_json self (SelectCount query) = Ok a0 ->
      (0 < numFound (response a0))%Z ->
      get_json self (SelectRows offset (Z.min batch_size (numFound (response a0))) query)
      = Ok a1 ->
      exists rest,
        yielded (_search urlencode py_int get_json (S fuel) self batch_size
                   latest_version true pd)
        = Meta (strip_docs (response a1)) :: rest
        /\ metas_of rest = [])
  /\ metas_of (yielded (_search urlencode py_int get_json fuel self batch_size
                          latest_version false pd)) = [].
Proof.
  intros query. split.
  - intros offset a0 a1 Hoff E0 Hn E1.
    unfold _search. rewrite Hoff. fold query. rewrite E0.
    cbn [search_loop run_prepend yielded app].
    replace (numFound (response a0) >? 0)%Z with true
      by (symmetry; apply Z.gtb_lt; lia).
    rewrite E1.
    pose proof (yield_docs_no_meta (docs (response a1)) (numFound (response a0))) as Hy.
    destruct (yield_docs (docs (response a1)) (numFound (response a0))) as [[ys m] err].
    simpl in Hy. destruct err; cbn [yielded app].
    + exists ys. auto.
    + eexists. split; [reflexivity|].
      now rewrite metas_of_app, Hy, search_loop_no_meta.
  - unfold _search. destruct (search_offset py_int pd) as [offset|e]; [|reflexivity].
    destruct (get_json self (SelectCount _)) as [a0|e]; [|reflexivity].
    cbn [run_prepend yielded app]. apply search_loop_no_meta.
Qed.

End Executor.

Lemma list_backend_serves (self : Core) (query : string) (D : list Doc) :
  serves (fun _ => list_backend D) self query D.
Proof.
  split.
  - eexists. split; reflexivity.
  - intros s r _ _. eexists. repeat split; reflexivity.
Qed.

Lemma pagination_25_by_10_witness :
  let D := map (fun n => [("file", str_of_Z (Z.of_nat n))]) (seq 0 25) in
  let run := _search plain_urlencode int_of_digits (fun _ => list_backend D)
               3 files 10 false false [] in
  files_of (yielded run) = map (fun n => str_of_Z (Z.of_nat n)) (seq 0 25)
  /\ calls run = [SelectCount "q=*:*&fl=file&sort=file desc";
                  SelectRows 0 10 "q=*:*&fl=file&sort=file desc";
                  SelectRows 10 10 "q=*:*&fl=file&sort=file desc";
                  SelectRows 20 5 "q=*:*&fl=file&sort=file desc"]
  /\ outcome run = Finished.
Proof.
  intros D run.
  destruct (pagination_25_by_10 plain_urlencode int_of_digits (fun _ => list_backend D)
              3 files false false [] D (map (fun n => str_of_Z (Z.of_nat n)) (seq 0 25)))
    as (Hf & _ & _ & Hc & Ho).
  - reflexivity.
  - apply list_backend_serves.
  - reflexivity.
  - reflexivity.
  - lia.
  - split; [exact Hf|]. split; [exact Hc | exact Ho].
Defined.

(** C1 as worded fails: with a start offset among the constraints the
    same core of 25 documents, asked in batches of 10, gives 20 files
    only, and the loop does not end: whatever the fuel, it is used up,
    one request for each unit. *)
Lemma pagination_with_start_never_ends :
  let D := map (fun n => [("file", str_of_Z (Z.of_nat n))]) (seq 0 25) in
  let run := fun fuel =>
    _search plain_urlencode int_of_digits (fun _ => list_backend D)
      fuel files 10 false false [("start", VStr "5")] in
  List.length (files_of (yielded (run 50%nat))) = 20%nat
  /\ outcome (run 50%nat) = OutOfFuel
  /\ List.length (calls (run 50%nat)) = 51%nat
  /\ List.length (files_of (yielded (run 400%nat))) = 20%nat
  /\ outcome (run 400%nat) = OutOfFuel
  /\ List.length (calls (run 400%nat)) = 401%nat.
Proof.
  vm_compute. repeat split.
Qed.

Lemma search_sorts_by_file_desc_witness :
  let pd := [("sort", VStr "file asc"); ("variable", VStr "tas")] in
  let run := _search plain_urlencode int_of_digits (fun _ => list_backend docs_h_to_a)
               8 files 3 false false pd in
  (forall v, In ("sort", v) (solr_params (search_dict pd)) <-> v = VStr "file desc")
  /\ files_of (yielded run) = ["h"; "g"; "f"; "e"; "d"; "c"; "b"; "a"].
Proof.
  intros pd run.
  destruct (search_sorts_by_file_desc plain_urlencode int_of_digits
              (fun _ => list_backend docs_h_to_a) 8 files 3 false false pd)
    as (Hsort & _ & Horder).
  - unfold dict_wf, pd. simpl. repeat constructor; simpl; intuition discriminate.
  - split; [exact Hsort|].
    apply (Horder docs_h_to_a ["h"; "g"; "f"; "e"; "d"; "c"; "b"; "a"]).
    + reflexivity.
    + lia.
    + apply list_backend_serves.
    + reflexivity.
    + simpl. lia.
    + reflexivity.
Defined.

(** C4 as worded fails: the caller asks for ascending order, the core is
    asked for ["file desc"] all the same and answers in that order, and the
    files come out descending. *)
Lemma caller_sort_not_honoured :
  let pd := [("sort", VStr "file asc")] in
  let run := _search plain_urlencode int_of_digits (fun _ => list_backend docs_h_to_a)
               8 files 10 false false pd in
  dict_get "sort" pd = Some (VStr "file asc")
  /\ calls run = [SelectCount "sort=file desc&q=*:*&fl=file";
                  SelectRows 0 8 "sort=file desc&q=*:*&fl=file"]
  /\ files_of (yielded run) = ["h"; "g"; "f"; "e"; "d"; "c"; "b"; "a"]
  /\ ascending (files_of (yielded run)) = false.
Proof. repeat split. Qed.

Lemma metadata_record_from_first_page_witness :
  let core := fun _ : Core => list_backend docs_h_to_a in
  (exists rest,
      yielded (_search plain_urlencode int_of_digits core 1 files 3 false true
                 [("start", VStr "5")])
      = Meta {| meta_numFound := 8; meta_start := 5 |} :: rest
      /\ metas_of rest = [])
  /\ metas_of (yielded (_search plain_urlencode int_of_digits core 0 files 3
                          false false [("start", VStr "5")])) = [].
Proof.
  intros core.
  destruct (metadata_record_from_first_page plain_urlencode int_of_digits core
              0 files 3 false [("start", VStr "5")]) as [Hmeta Hnone].
  split; [|exact Hnone].
  apply (Hmeta 5%Z
           {| response := {| numFound := 8; start := 0; docs := [] |};
              facet_fields := [] |}
           {| response := {| numFound := 8; start := 5;
                             docs := firstn 3 (skipn 5 docs_h_to_a) |};
              facet_fields := [] |}).
  - reflexivity.
  - reflexivity.
  - simpl. lia.
  - reflexivity.
Defined.

(** C3 as worded fails twice.  When no document matches, the record is
    requested and the stream is empty all the same.  When the caller
    gives a start offset, the record is the summary of the first page,
    which names that offset, and not the summary of the count request. *)
Lemma metadata_record_not_from_probe :
  (let run := _search plain_urlencode int_of_digits (fun _ => list_backend [])
                3 files 10 false true [] in
   yielded run = [] /\ outcome run = Finished)
  /\ (let core := fun _ : Core => list_backend docs_h_to_a in
      let pd := [("start", VStr "5")] in
      let run := _search plain_urlencode int_of_digits core 1 files 10 false true pd in
      exists probe m,
        core files (SelectCount (_to_solr_query plain_urlencode (search_dict pd)))
        = Ok probe
        /\ hd_error (yielded run) = Some (Meta m)
        /\ m <> strip_docs (response probe)).
Proof.
  split.
  - split; reflexivity.
  - do 2 eexists. split; [reflexivity|]. split; [reflexivity|].
    discriminate.
Qed.

(** *** The facet aggregator *)

Lemma map_strip_fixed (l : list string) :
  Forall (fun f => contains "," f = false /\ strip f = f) l -> map strip l = l.
Proof.
  induction 1 as [|f l [_ Hf] _ IH]; simpl; congruence.
Qed.

(** A comma-joined string of field names is normalised to the list of
    the names, when no name holds a comma or has white space at an end and
    the list is neither empty nor the one empty name. *)
Lemma normalize_facets_joined (l : list string) :
  Forall (fun f => contains "," f = false /\ strip f = f) l ->
  l <> [] -> l <> [""%string] ->
  normalize_facets (FStr (join "," l)) = FList l.
Proof.
  intros Hl Hne Hne'. unfold normalize_facets.
  destruct l as [|x [|y l]]; [congruence | |].
  - cbn [join String.concat].
    destruct (String.eqb x "") eqn:E.
    + apply String.eqb_eq in E. congruence.
    + inversion Hl as [|? ? [Hc _] _]; subst. now rewrite Hc.
  - pose proof (join_two_contains "," x y l) as Hc.
    destruct (String.eqb (join "," (x :: y :: l)) "") eqn:E.
    + apply String.eqb_eq in E. rewrite E in Hc. discriminate.
    + rewrite Hc. rewrite split_join.
      * now rewrite map_strip_fixed.
      * discriminate.
      * eapply Forall_impl; [|exact Hl]. now intros f [Hf _].
Qed.

(** C8, as the code has it.  For field names without a comma and without
    white space at either end, other than the list of the one empty
    name, the comma-joined string and the list are normalised to the same
    list (a non-empty one) and give the same query string and the same
    facet result. *)
Theorem facets_string_same_as_list
    (urlencode : list (string * Value) -> string)
    (get_json : Core -> Request -> result Answer)
    (get_solr_fields : Core -> list string)
    (set_order : list string -> list string)
    (self : Core) (latest_version : bool) (pd : Dict Value) (l : list string) :
  Forall (fun f => contains "," f = false /\ strip f = f) l ->
  l <> [""%string] ->
  (l <> [] -> normalize_facets (FStr (join "," l)) = normalize_facets (FList l))
  /\ facets_query urlencode get_solr_fields set_order self latest_version (FStr (join "," l)) pd
     = facets_query urlencode get_solr_fields set_order self latest_version (FList l) pd
  /\ _facets urlencode get_json get_solr_fields set_order self latest_version (FStr (join "," l)) pd
     = _facets urlencode get_json get_solr_fields set_order self latest_version (FList l) pd.
Proof.
  intros Hl Hne.
  assert (Hn : l <> [] ->
               normalize_facets (FStr (join "," l)) = normalize_facets (FList l))
    by (intros H; now apply normalize_facets_joined).
  assert (Hq : facets_query urlencode get_solr_fields set_order self latest_version
                 (FStr (join "," l)) pd
               = facets_query urlencode get_solr_fields set_order self latest_version (FList l) pd).
  { unfold facets_query. destruct l as [|x l].
    - reflexivity.
    - now rewrite Hn by discriminate. }
  split; [exact Hn|]. split; [exact Hq|].
  unfold _facets. now rewrite Hq.
Qed.

Lemma facets_string_same_as_list_witness :
  let l := ["variable"; "model"; "experiment"] in
  normalize_facets (FStr "variable,model,experiment") = FList l
  /\ facets_query plain_urlencode (fun _ => []) plain_set_order files false
       (FStr "variable,model,experiment") [("project", VStr "cmip5")]
     = "fq=project:cmip5&q=*:*&facet=true&facet.sort=index&facet.mincount=1&facet.field=variable&facet.field=model&facet.field=experiment".
Proof.
  intros l.
  destruct (facets_string_same_as_list plain_urlencode (fun _ => list_backend [])
              (fun _ => []) plain_set_order files false [("project", VStr "cmip5")] l)
    as (Hn & Hq & _).
  - repeat constructor.
  - discriminate.
  - split.
    + apply Hn. discriminate.
    + etransitivity; [exact Hq | reflexivity].
Defined.

(** C8 as worded fails: a name with a leading blank is kept by the list
    and trimmed out of the string, and the two queries differ. *)
Lemma facets_string_differs_from_list :
  let l := [" a"; "b"] in
  normalize_facets (FStr (join "," l)) = FList ["a"; "b"]
  /\ normalize_facets (FList l) = FList [" a"; "b"]
  /\ facets_query plain_urlencode (fun _ => []) plain_set_order files false (FStr (join "," l)) []
     <> facets_query plain_urlencode (fun _ => []) plain_set_order files false (FList l) [].
Proof.
  split; [reflexivity|]. split; [reflexivity|]. discriminate.
Qed.

End SolrFacts.

(** ** The naming-convention codec and the file-system search *)

Module FileFacts.
Import Py File PyFacts.

(** Only the two baselines of [BASELINE] exist. *)
Lemma get_baseline_cases nr bl :
  _get_baseline nr = Ok bl ->
  (nr = 0%Z /\ nth_error BASELINE 0 = Some bl)
  \/ (nr = 1%Z /\ nth_error BASELINE 1 = Some bl).
Proof.
  unfold _get_baseline. cbn [List.length BASELINE].
  destruct (nr <? 0)%Z eqn:E1; [discriminate|].
  destruct (nr >? Z.of_nat 2 - 1)%Z eqn:E2; [discriminate|].
  apply Z.ltb_ge in E1. rewrite Z.gtb_ltb in E2. apply Z.ltb_ge in E2.
  assert (nr = 0 \/ nr = 1)%Z as [-> | ->] by lia; cbn.
  - intros [= <-]. now left.
  - intros [= <-]. now right.
Qed.

Lemma baseline_parts_dir_NoDup nr bl :
  _get_baseline nr = Ok bl -> NoDup (parts_dir bl).
Proof.
  intros H. apply get_baseline_cases in H.
  destruct H as [[_ [= <-]] | [_ [= <-]]]; cbn;
    repeat (constructor; [simpl; intuition discriminate|]); constructor.
Qed.

Lemma baseline_defaults_in_parts_dir nr bl k :
  _get_baseline nr = Ok bl -> In k (keys (defaults bl)) -> In k (parts_dir bl).
Proof.
  intros H. apply get_baseline_cases in H.
  destruct H as [[_ [= <-]] | [_ [= <-]]]; cbn; intuition (subst; auto 15).
Qed.

(** *** The pattern *)

Lemma build_path_snd parts local_path search_dict :
  snd (build_path parts local_path search_dict)
  = fold_left (fun d k => dict_del k d) parts search_dict.
Proof.
  revert local_path search_dict.
  induction parts as [|key rest IH]; intros lp sd; simpl; auto.
  destruct (dict_get key sd) eqn:E.
  - apply IH.
  - rewrite IH. now rewrite (dict_del_absent _ _ E).
Qed.

Lemma keys_fold_dict_del parts (search_dict : Dict string) :
  keys (fold_left (fun d k => dict_del k d) parts search_dict)
  = filter (fun k => negb (existsb (String.eqb k) parts)) (keys search_dict).
Proof.
  revert search_dict. induction parts as [|key rest IH]; intros sd; simpl.
  - induction (keys sd); simpl; congruence.
  - rewrite IH, keys_dict_del. induction (keys sd) as [|k ks IHk]; simpl; auto.
    destruct (String.eqb k key); simpl; rewrite IHk; reflexivity.
Qed.

(** The keys that are left after the loop are those no part is named
    after, in the order of the dictionary. *)
Lemma build_path_leftover parts local_path search_dict :
  keys (snd (build_path parts local_path search_dict))
  = filter (fun k => negb (existsb (String.eqb k) parts)) (keys search_dict).
Proof. rewrite build_path_snd. apply keys_fold_dict_del. Qed.

Lemma existsb_eqb_In k parts : existsb (String.eqb k) parts = true <-> In k parts.
Proof.
  rewrite existsb_exists. split.
  - intros (x & Hx & E). apply String.eqb_eq in E. now subst.
  - intros H. exists k. split; auto. apply String.eqb_refl.
Qed.

(** The pattern joins, for every part in turn, the value the dictionary
    has for it or the wildcard. *)
Lemma build_path_fst parts local_path search_dict :
  NoDup parts ->
  fst (build_path parts local_path search_dict)
  = fold_left os_path_join
      (map (fun key => match dict_get key search_dict with
                       | Some v => v
                       | None => "*"
                       end) parts)
      local_path.
Proof.
  intros Hnd. revert local_path search_dict.
  induction Hnd as [|key rest Hnotin Hnd IH]; intros lp sd; simpl; auto.
  destruct (dict_get key sd) eqn:E.
  - rewrite IH. f_equal. apply map_ext_in. intros k Hk.
    rewrite dict_get_del_other; auto. intros ->. contradiction.
  - apply IH.
Qed.

Lemma filter_known parts (l : list string) :
  (forall k, In k l -> In k parts) ->
  filter (fun k => negb (existsb (String.eqb k) parts)) l = [].
Proof.
  induction l as [|k l IH]; intros H; simpl; auto.
  rewrite (proj2 (existsb_eqb_In k parts)) by (apply H; now left).
  apply IH. intros k' Hk'. apply H. now right.
Qed.

Lemma keys_nil {V} (d : Dict V) : keys d = [] -> d = [].
Proof. destruct d; [auto | discriminate]. Qed.

Lemma glob_segment_update bl (pd : Dict string) key :
  dict_wf pd ->
  match dict_get key (dict_update (defaults bl) pd) with
  | Some v => v
  | None => "*"
  end = glob_segment bl pd key.
Proof.
  intros Hwf. unfold glob_segment.
  rewrite dict_get_update, (dict_get_rev _ _ Hwf).
  now destruct (dict_get key pd).
Qed.

Section Search.

Variable realpath : string -> string.
Variable iglob : string -> list string.

(** The pattern that [search] builds joins to the root with
    [os.path.join], for every part of the path in the order of the
    baseline, the constraint of the caller when there is one, else the
    default of the baseline when there is one, else the wildcard; and
    that pattern is the only one given to [glob.iglob] when every
    constraint names a part. *)
Lemma search_pattern_fold (baseline_nr : Z) (latest_version : bool)
    (partial_dict : Dict string) (bl : Baseline) :
  _get_baseline baseline_nr = Ok bl ->
  dict_wf partial_dict ->
  let pattern :=
    fold_left os_path_join (map (glob_segment bl partial_dict) (parts_dir bl))
              (root_dir bl) in
  fst (build_path (parts_dir bl) (root_dir bl)
         (dict_update (defaults bl) partial_dict)) = pattern
  /\ ((forall k, In k (keys partial_dict) -> In k (parts_dir bl)) ->
      globbed (search realpath iglob baseline_nr latest_version partial_dict)
      = [pattern]).
Proof.
  intros Hbl Hwf pattern.
  assert (Hfst : fst (build_path (parts_dir bl) (root_dir bl)
                        (dict_update (defaults bl) partial_dict)) = pattern).
  { rewrite build_path_fst by (eapply baseline_parts_dir_NoDup; eauto).
    unfold pattern. f_equal. apply map_ext. intros key.
    now apply glob_segment_update. }
  split; [exact Hfst|].
  intros Hknown. unfold search. rewrite Hbl.
  pose proof (build_path_leftover (parts_dir bl) (root_dir bl)
                (dict_update (defaults bl) partial_dict)) as Hleft.
  destruct (build_path (parts_dir bl) (root_dir bl)
              (dict_update (defaults bl) partial_dict)) as [local_path search_dict].
  cbn [fst snd] in *. subst local_path.
  assert (Hnil : search_dict = []).
  { apply keys_nil. rewrite Hleft. apply filter_known.
    intros k Hk. apply In_keys_dict_update in Hk. destruct Hk as [Hk|Hk]; auto.
    eapply baseline_defaults_in_parts_dir; eauto. }
  rewrite Hnil.
  destruct (search_loop realpath (iglob pattern) baseline_nr _ []) as [ys [d|e]];
    reflexivity.
Qed.

(** C6.  When a constraint names no part of the path of the baseline, the
    search stops with the exception whose message lists the unknown keys
    and then the parts of the baseline; nothing has been yielded and
    [glob.iglob] has not been called. *)
Theorem unknown_constraint_rejected (baseline_nr : Z) (latest_version : bool)
    (partial_dict : Dict string) (bl : Baseline) :
  _get_baseline baseline_nr = Ok bl ->
  (exists k, In k (keys partial_dict) /\ ~ In k (parts_dir bl)) ->
  exists unknown,
    unknown <> []
    /\ (forall k, In k unknown <-> In k (keys partial_dict) /\ ~ In k (parts_dir bl))
    /\ search realpath iglob baseline_nr latest_version partial_dict
       = {| found := [];
            globbed := [];
            stderr := ["WARNING: There where unused constraints: "
                       ++ join "," unknown ++ nl]%string;
            ended := Failed (Exception
              ("Unknown parameter(s) " ++ join "," unknown ++ nl
               ++ "For Baseline " ++ str_of_Z baseline_nr ++ " try one of: "
               ++ join "," (parts_dir bl))%string) |}.
Proof.
  intros Hbl (k0 & Hk0 & Hk0').
  pose proof (build_path_leftover (parts_dir bl) (root_dir bl)
                (dict_update (defaults bl) partial_dict)) as Hleft.
  assert (Hin : forall k,
             In k (keys (snd (build_path (parts_dir bl) (root_dir bl)
                                (dict_update (defaults bl) partial_dict))))
             <-> In k (keys partial_dict) /\ ~ In k (parts_dir bl)).
  { intros k. rewrite Hleft, filter_In, In_keys_dict_update, negb_true_iff.
    assert (Hf : existsb (String.eqb k) (parts_dir bl) = false <-> ~ In k (parts_dir bl)).
    { rewrite <- existsb_eqb_In. destruct (existsb _ _); intuition congruence. }
    rewrite Hf. split.
    - intros [[Hd|Hp] Hn]; [|tauto].
      exfalso. apply Hn. eapply baseline_defaults_in_parts_dir; eauto.
    - tauto. }
  unfold search. rewrite Hbl.
  destruct (build_path (parts_dir bl) (root_dir bl)
              (dict_update (defaults bl) partial_dict)) as [local_path search_dict].
  cbn [snd] in Hin.
  destruct search_dict as [|kv search_dict].
  - exfalso. apply (proj2 (Hin k0)); auto.
  - exists (keys (kv :: search_dict)). split; [discriminate|]. split; [exact Hin|].
    reflexivity.
Qed.

End Search.

Lemma unknown_constraint_rejected_witness :
  exists unknown,
    unknown <> []
    /\ (forall k, In k unknown <->
                  In k ["variable"; "colour"; "shape"]%string /\ ~ In k baseline1_parts_dir)
    /\ search (fun p => p) (fun _ => ["/never/looked/at"%string]) 1 true
         [("variable", "tas"); ("colour", "blue"); ("shape", "round")]
       = {| found := [];
            globbed := [];
            stderr := ["WARNING: There where unused constraints: "
                       ++ join "," unknown ++ nl]%string;
            ended := Failed (Exception
              ("Unknown parameter(s) " ++ join "," unknown ++ nl
               ++ "For Baseline 1 try one of: "
               ++ join "," baseline1_parts_dir)%string) |}.
Proof.
  apply (unknown_constraint_rejected (fun p => p) (fun _ => ["/never/looked/at"%string])
           1 true [("variable", "tas"); ("colour", "blue"); ("shape", "round")]
           (nth 1 BASELINE (mkBaseline "" [] [] None [] "" []))).
  - reflexivity.
  - exists "colour"%string. split; [simpl; auto|].
    simpl. intuition discriminate.
Defined.

(** *** The latest-version resolver *)

Lemma ltb_irrefl (v : string) : String.ltb v v = false.
Proof.
  unfold String.ltb. pose proof (String.compare_antisym v v) as H.
  destruct (String.compare v v); simpl in *; congruence.
Qed.



(** In the buffered mode the loop of [search] over the paths is the
    resolver run on the candidates the paths decode to. *)
Lemma search_loop_resolve (realpath : string -> string) (baseline_nr : Z)
    (paths : list string) (candidates : list BaselineFile) :
  Forall2 (fun p c => from_path realpath p baseline_nr = Ok c) paths candidates ->
  forall datasets,
    fst (search_loop realpath paths baseline_nr true datasets) = []
    /\ (d <- snd (search_loop realpath paths baseline_nr true datasets) ;;
        Ok (latest_files d))
       = resolve_latest candidates datasets.
Proof.
  induction 1 as [|p c paths candidates Hp _ IH]; intros datasets; simpl.
  - auto.
  - rewrite Hp. destruct (latest_update datasets c) as [d|e]; simpl; auto.
Qed.


(** *** The codec *)

Lemma endswith_slash_segment a v :
  segment_ok v -> endswith "/" (a ++ "/" ++ v) = false.
Proof.
  intros [Hne Hv]. destruct (endswith "/" (a ++ "/" ++ v)) eqn:E; auto.
  apply endswith_char in E.
  rewrite last_char_append in E by discriminate.
  change ("/" ++ v)%string with (String "/" v) in E.
  change (String "/" v) with ("/" ++ v)%string in E.
  rewrite last_char_append in E by assumption.
  apply last_char_contains in E. congruence.
Qed.

Lemma os_path_join_segment a v :
  a <> "" -> endswith "/" a = false -> segment_ok v ->
  os_path_join a v = (a ++ "/" ++ v)%string.
Proof.
  intros Ha He [Hne Hv]. unfold os_path_join, startswith.
  destruct v as [|c v]; [congruence|].
  simpl in Hv. apply orb_false_elim in Hv. destruct Hv as [Hc _].
  cbn [String.prefix].
  destruct (ascii_dec "/" c) as [<-|_]; [discriminate|].
  rewrite He. apply String.eqb_neq in Ha. now rewrite Ha.
Qed.

Lemma append_not_empty a b : a <> "" -> (a ++ b)%string <> "".
Proof. destruct a; simpl; congruence. Qed.

(** Joining good segments to a root is the root, a slash, and the
    segments separated by slashes. *)
Lemma fold_os_path_join root vs :
  root <> "" -> endswith "/" root = false ->
  Forall segment_ok vs -> vs <> [] ->
  fold_left os_path_join vs root = ((root ++ "/") ++ join "/" vs)%string.
Proof.
  intros Hr He Hvs. revert root Hr He.
  induction Hvs as [|v vs Hv Hvs IH]; intros root Hr He Hne; [congruence|].
  cbn [fold_left]. rewrite os_path_join_segment by assumption.
  destruct vs as [|w vs].
  - cbn [fold_left join String.concat]. now rewrite append_assoc.
  - rewrite IH.
    + change (join "/" (v :: w :: vs)) with (v ++ "/" ++ join "/" (w :: vs))%string.
      now rewrite !append_assoc.
    + now apply append_not_empty.
    + now apply endswith_slash_segment.
    + discriminate.
Qed.

(** [to_path] folds [os.path.join] over the values of the parts. *)
Lemma to_path_fold self keys vs r :
  Forall2 (fun key v => part_str self key = Ok v) keys vs ->
  fold_left (fun result key =>
               r <- result ;; v <- part_str self key ;; Ok (os_path_join r v))
            keys (Ok r)
  = Ok (fold_left os_path_join vs r).
Proof.
  intros H. revert r. induction H as [|key v keys vs Hk _ IH]; intros r; simpl; auto.
  rewrite Hk. simpl. apply IH.
Qed.

Lemma nonempty_values self keys vs :
  Forall2 (fun key v => part_str self key = Ok v) keys vs ->
  (forall key, In key keys -> part_str self key <> Ok "") ->
  Forall (fun v => v <> "") vs.
Proof.
  induction 1 as [|key v keys vs Hk _ IH]; intros Hne; constructor.
  - intros ->. apply (Hne key); simpl; auto.
  - apply IH. intros k Hk'. apply Hne. now right.
Qed.

Lemma to_path_segments self root bl vs :
  fd_root_dir (dict self) = Some root ->
  get_baseline self = Ok bl ->
  Forall2 (fun key v => part_str self key = Ok v) (parts_dir bl) vs ->
  to_path self = Ok (fold_left os_path_join vs root).
Proof.
  intros Hr Hb Hvs. unfold to_path. rewrite Hr, Hb. cbn [bind].
  now apply to_path_fold.
Qed.

(** Proof steps shared by the two baselines: a [Forall] over an explicit
    list is taken apart, and a call on explicit arguments is replaced by
    its value. *)
Ltac split_Forall :=
  repeat match goal with
         | H : Forall _ (_ :: _) |- _ =>
             let H' := fresh "Hfree" in
             pose proof (Forall_inv H) as H'; cbv beta in H';
             apply Forall_inv_tail in H
         | H : Forall _ [] |- _ => clear H
         end.

Ltac eval_assign_in H :=
  match type of H with
  | context [assign_parts ?n ?v ?d] =>
      let r := eval cbv in (assign_parts n v d) in
      change (assign_parts n v d) with r in H
  end.

Ltac eval_lookup_in H :=
  match type of H with
  | context [dict_lookup ?k ?d] =>
      let r := eval cbv in (dict_lookup k d) in
      change (dict_lookup k d) with r in H
  end.

Ltac eval_init_in H :=
  match type of H with
  | context [__init__ ?d ?n] =>
      let r := eval cbv in (__init__ d n) in
      change (__init__ d n) with r in H
  end.

Ltac eval_assign :=
  match goal with
  | |- context [assign_parts ?n ?v ?d] =>
      let r := eval cbv in (assign_parts n v d) in
      change (assign_parts n v d) with r
  end.

Ltac eval_lookup :=
  match goal with
  | |- context [dict_lookup ?k ?d] =>
      let r := eval cbv in (dict_lookup k d) in
      change (dict_lookup k d) with r
  end.

Ltac eval_init :=
  match goal with
  | |- context [__init__ ?d ?n] =>
      let r := eval cbv in (__init__ d n) in
      change (__init__ d n) with r
  end.

(** The second half of the round trip, once the candidate [c] is known
    part by part: its path is the root and its segments, and decoding
    that path assigns the same parts again. *)
Ltac encode_and_decode_at c Hne Hreal Htoks root bl nr :=
  split_Forall;
  let vs := fresh "vs" in
  evar (vs : list string);
  assert (HF2 : Forall2 (fun key v => part_str c key = Ok v) (parts_dir bl) vs)
    by (subst vs; cbv [parts_dir nth BASELINE baseline0_parts_dir baseline1_parts_dir];
        repeat (apply Forall2_cons; [reflexivity|]); apply Forall2_nil);
  assert (Hok : Forall segment_ok vs)
    by (change (Forall (fun v => v <> "" /\ contains "/" v = false) vs);
        apply Forall_and;
        [ exact (nonempty_values _ _ _ HF2 Hne)
        | subst vs; repeat (apply Forall_cons; [assumption|]); apply Forall_nil ]);
  assert (Hvs : vs <> []) by (subst vs; discriminate);
  assert (Hpath : to_path c = Ok ((root ++ "/") ++ join "/" vs)%string)
    by (rewrite (to_path_segments c root bl vs);
        [ rewrite fold_os_path_join;
          [ reflexivity | discriminate | reflexivity | assumption | assumption ]
        | reflexivity
        | reflexivity
        | exact HF2 ]);
  exists ((root ++ "/") ++ join "/" vs)%string;
  split; [exact Hpath|];
  unfold from_path; rewrite (Hreal _ Hpath);
  change (_get_baseline nr) with (Ok bl);
  cbn [bind nth BASELINE root_dir parts_dir parts_file_name];
  unfold startswith; rewrite prefix_append; cbn [negb];
  change (String.length root + 1)%nat with (String.length (root ++ "/"));
  rewrite drop_append;
  rewrite split_join;
    [ | assumption | eapply Forall_impl; [|exact Hok]; now intros ? [_ ?] ];
  subst vs;
  cbn [List.length Nat.eqb negb baseline0_parts_dir baseline1_parts_dir];
  eval_assign; cbn [bind]; eval_lookup; cbn [bind];
  rewrite <- Htoks;
  cbn [List.length Nat.eqb Nat.sub baseline_parts_file_name andb];
  repeat match goal with
         | H : existsb _ _ = _ |- _ => rewrite H
         end;
  eval_assign; cbn [bind]; eval_init; reflexivity.

Ltac encode_and_decode Hne Hreal Htoks root bl nr :=
  match goal with
  | |- exists _, to_path ?c = _ /\ _ =>
      encode_and_decode_at c Hne Hreal Htoks root bl nr
  end.

(** The first half: the file name [fn] is split, the candidate is read
    off the successful decoding [Hdec], with or without a time. *)
Ltac decode_file_name Hdec Hne Hreal fn root bl nr :=
  match goal with
  | H : contains "/" fn = false |- _ =>
      pose proof (split_pieces_free "/" "_" (drop_last 3 fn)
                    (contains_drop_last "/" 3 fn H)) as Htfree
  end;
  let toks := fresh "toks" in
  let Htoks := fresh "Htoks" in
  remember (split "_" (drop_last 3 fn)) as toks eqn:Htoks;
  destruct toks as [|t1 [|t2 [|t3 [|t4 [|t5 [|t6 toks]]]]]];
    cbn [List.length Nat.eqb Nat.sub baseline_parts_file_name andb] in Hdec;
    try (eval_assign_in Hdec; discriminate Hdec);
    [ destruct (existsb _ _) eqn:Hr0; [|eval_assign_in Hdec; discriminate Hdec] | ];
    eval_assign_in Hdec; cbn [bind] in Hdec; eval_init_in Hdec;
    injection Hdec as <-;
    encode_and_decode Hne Hreal Htoks root bl nr.

Section Codec.

Variable realpath : string -> string.

Lemma decode_encode_decode_cmip5 (path : string) (c : BaselineFile) :
  from_path realpath path 0 = Ok c ->
  (forall key, In key baseline0_parts_dir -> part_str c key <> Ok "") ->
  (forall path', to_path c = Ok path' -> realpath path' = path') ->
  exists path', to_path c = Ok path' /\ from_path realpath path' 0 = Ok c.
Proof.
  intros Hdec Hne Hreal.
  unfold from_path in Hdec.
  change (_get_baseline 0) with (Ok (nth 0 BASELINE (mkBaseline "" [] [] None [] "" [])))
    in Hdec.
  cbn [bind nth BASELINE root_dir parts_dir parts_file_name] in Hdec.
  set (p1 := realpath path) in *.
  destruct (startswith _ p1); cbn [negb] in Hdec; [|discriminate].
  pose proof (split_pieces "/" (drop (String.length "/gpfs_750/projects/CMIP5/data" + 1) p1))
    as Hfree.
  destruct (split "/" (drop (String.length "/gpfs_750/projects/CMIP5/data" + 1) p1))
    as [|s1 [|s2 [|s3 [|s4 [|s5 [|s6 [|s7 [|s8 [|s9 [|s10 [|s11 [|s12 [|s13 more]]]]]]]]]]]]];
    try discriminate Hdec.
  cbn [List.length Nat.eqb negb baseline0_parts_dir] in Hdec.
  eval_assign_in Hdec. cbn [bind] in Hdec.
  eval_lookup_in Hdec. cbn [bind] in Hdec.
  split_Forall.
  decode_file_name Hdec Hne Hreal s12 "/gpfs_750/projects/CMIP5/data"
    (nth 0 BASELINE (mkBaseline "" [] [] None [] "" [])) 0%Z.
Qed.

Lemma decode_encode_decode_miklip (path : string) (c : BaselineFile) :
  from_path realpath path 1 = Ok c ->
  (forall key, In key baseline1_parts_dir -> part_str c key <> Ok "") ->
  (forall path', to_path c = Ok path' -> realpath path' = path') ->
  exists path', to_path c = Ok path' /\ from_path realpath path' 1 = Ok c.
Proof.
  intros Hdec Hne Hreal.
  unfold from_path in Hdec.
  change (_get_baseline 1) with (Ok (nth 1 BASELINE (mkBaseline "" [] [] None [] "" [])))
    in Hdec.
  cbn [bind nth BASELINE root_dir parts_dir parts_file_name] in Hdec.
  set (p1 := realpath path) in *.
  destruct (startswith _ p1); cbn [negb] in Hdec; [|discriminate].
  pose proof (split_pieces "/" (drop (String.length "/miklip/global/prod/archive" + 1) p1))
    as Hfree.
  destruct (split "/" (drop (String.length "/miklip/global/prod/archive" + 1) p1))
    as [|s1 [|s2 [|s3 [|s4 [|s5 [|s6 [|s7 [|s8 [|s9 [|s10 [|s11 more]]]]]]]]]]];
    try discriminate Hdec.
  cbn [List.length Nat.eqb negb baseline1_parts_dir] in Hdec.
  eval_assign_in Hdec. cbn [bind] in Hdec.
  eval_lookup_in Hdec. cbn [bind] in Hdec.
  split_Forall.
  decode_file_name Hdec Hne Hreal s10 "/miklip/global/prod/archive"
    (nth 1 BASELINE (mkBaseline "" [] [] None [] "" [])) 1%Z.
Qed.

(** C5, as the code has it.  A candidate [c] decoded from a path under a
    baseline, none of whose path parts is the empty string, is encoded to
    a path; when that path is its own real path, decoding it under the
    same baseline gives [c] back: the same attribute map, hence the same
    data set key and the same version. *)
Theorem decode_encode_decode (path : string) (baseline_nr : Z) (bl : Baseline)
    (c : BaselineFile) :
  from_path realpath path baseline_nr = Ok c ->
  _get_baseline baseline_nr = Ok bl ->
  (forall key, In key (parts_dir bl) -> part_str c key <> Ok "") ->
  (forall path', to_path c = Ok path' -> realpath path' = path') ->
  exists path' c',
    to_path c = Ok path'
    /\ from_path realpath path' baseline_nr = Ok c'
    /\ c' = c
    /\ to_dataset c' false = to_dataset c false
    /\ get_version c' = get_version c.
Proof.
  intros Hdec Hbl Hne Hreal.
  assert (H : exists path', to_path c = Ok path'
                            /\ from_path realpath path' baseline_nr = Ok c).
  { destruct (get_baseline_cases _ _ Hbl) as [[-> Hb] | [-> Hb]];
      injection Hb as <-.
    - exact (decode_encode_decode_cmip5 path c Hdec Hne Hreal).
    - exact (decode_encode_decode_miklip path c Hdec Hne Hreal). }
  destruct H as (path' & Hp & Hd).
  exists path', c. auto.
Qed.

End Codec.

Lemma decode_encode_decode_witness :
  let p := "/gpfs_750/projects/CMIP5/data/cmip5/output1/MPI-M/MPI-ESM-LR/historical/mon/atmos/Amon/r1i1p1/v20110502/tas/tas_Amon_MPI-ESM-LR_historical_r1i1p1_185001-200512.nc" in
  exists path' c',
    to_path (decoded p) = Ok path'
    /\ from_path (fun q => q) path' 0 = Ok c'
    /\ c' = decoded p
    /\ to_dataset c' false = to_dataset (decoded p) false
    /\ get_version c' = get_version (decoded p).
Proof.
  intros p.
  apply (decode_encode_decode (fun q => q) p 0
           (nth 0 BASELINE (mkBaseline "" [] [] None [] "" [])) (decoded p)).
  - reflexivity.
  - reflexivity.
  - intros key Hin. cbn in Hin.
    repeat (destruct Hin as [<-|Hin]; [vm_compute; discriminate|]).
    contradiction.
  - intros path' _. reflexivity.
Defined.

(** C5 as worded fails: a file name that starts with the separator has an
    empty first token, which becomes the part [variable]; [os.path.join]
    adds nothing for an empty part, the encoded path is one segment short
    and does not decode. *)
Lemma empty_token_breaks_round_trip :
  let p := "/gpfs_750/projects/CMIP5/data/cmip5/output1/MPI-M/MPI-ESM-LR/historical/mon/atmos/Amon/r1i1p1/v20110502/tas/_Amon_MPI-ESM-LR_historical_r1i1p1_185001-200512.nc" in
  exists c,
    from_path (fun q => q) p 0 = Ok c
    /\ to_path c
       = Ok "/gpfs_750/projects/CMIP5/data/cmip5/output1/MPI-M/MPI-ESM-LR/historical/mon/atmos/Amon/r1i1p1/v20110502/_Amon_MPI-ESM-LR_historical_r1i1p1_185001-200512.nc"
    /\ from_path (fun q => q)
         "/gpfs_750/projects/CMIP5/data/cmip5/output1/MPI-M/MPI-ESM-LR/historical/mon/atmos/Amon/r1i1p1/v20110502/_Amon_MPI-ESM-LR_historical_r1i1p1_185001-200512.nc"
         0
       = Raise (Exception "Can't parse this path. Expected 12 elements but got 11.").
Proof.
  eexists. split; [reflexivity|]. split; reflexivity.
Qed.

(** The resolver inside [search]: on baseline 0, with the latest version
    asked for and no version pinned, what [search] yields is what the
    resolver makes of the candidates the matched paths decode to. *)
Lemma search_yields_resolved (realpath : string -> string)
    (iglob : string -> list string) (pd : Dict string)
    (candidates out : list BaselineFile) :
  dict_mem "version" pd = false ->
  (forall k, In k (keys pd) -> In k baseline0_parts_dir) ->
  Forall2 (fun p c => from_path realpath p 0 = Ok c)
          (iglob (fst (build_path baseline0_parts_dir "/gpfs_750/projects/CMIP5/data"
                         (dict_update [("project", "cmip5"); ("institute", "MPI-M");
                                       ("model", "MPI-ESM-LR")] pd))))
          candidates ->
  resolve_latest candidates [] = Ok out ->
  found (search realpath iglob 0 true pd) = out
  /\ ended (search realpath iglob 0 true pd) = Done.
Proof.
  intros Hver Hknown Hdec Hres. unfold search.
  change (_get_baseline 0) with (Ok (nth 0 BASELINE (mkBaseline "" [] [] None [] "" []))).
  cbn [nth BASELINE root_dir parts_dir defaults].
  rewrite Hver. cbn [Z.gtb Z.compare orb andb].
  pose proof (build_path_leftover baseline0_parts_dir "/gpfs_750/projects/CMIP5/data"
                (dict_update [("project", "cmip5"); ("institute", "MPI-M");
                              ("model", "MPI-ESM-LR")] pd)) as Hleft.
  destruct (build_path baseline0_parts_dir "/gpfs_750/projects/CMIP5/data" _)
    as [local_path search_dict].
  cbn [fst snd] in *.
  assert (Hnil : search_dict = []).
  { apply keys_nil. rewrite Hleft. apply filter_known.
    intros k Hk. apply In_keys_dict_update in Hk. destruct Hk as [Hk|Hk]; auto.
    cbn in Hk. cbv [baseline0_parts_dir]. simpl. intuition. }
  rewrite Hnil.
  destruct (search_loop_resolve realpath 0 _ _ Hdec []) as [Hys Hd].
  destruct (search_loop realpath (iglob local_path) 0 true []) as [ys [d|e]];
    cbn [fst snd bind] in *; subst ys.
  - rewrite Hres in Hd. injection Hd as ->. auto.
  - rewrite Hres in Hd. discriminate.
Qed.



(** The defaults of the baselines can stand as segments. *)
Lemma baseline_defaults_segment_ok nr bl k v :
  _get_baseline nr = Ok bl -> dict_get k (defaults bl) = Some v -> segment_ok v.
Proof.
  intros H Hget. apply get_baseline_cases in H. apply dict_get_In in Hget.
  destruct H as [[_ [= <-]] | [_ [= <-]]]; cbn in Hget;
    repeat (destruct Hget as [[= <- <-]|Hget]; [split; [discriminate | reflexivity]|]);
    contradiction.
Qed.

Lemma baseline_root_dir nr bl :
  _get_baseline nr = Ok bl ->
  root_dir bl <> ""%string /\ endswith "/" (root_dir bl) = false /\ parts_dir bl <> [].
Proof.
  intros H. apply get_baseline_cases in H.
  destruct H as [[_ [= <-]] | [_ [= <-]]];
    (split; [discriminate | split; [reflexivity | discriminate]]).
Qed.

(** C10, as the code has it.  When no value of the caller is empty or
    holds a slash, the pattern that [search] builds is the root and one
    segment for every part of the path in the order of the baseline,
    separated by slashes: the constraint of the caller when there is one,
    whether the baseline has a default for the part or not, else the
    default of the baseline when there is one, else the wildcard; and
    that pattern is the only one given to [glob.iglob] when every
    constraint names a part. *)
Theorem defaults_fill_the_pattern (realpath : string -> string)
    (iglob : string -> list string) (baseline_nr : Z) (latest_version : bool)
    (partial_dict : Dict string) (bl : Baseline) :
  _get_baseline baseline_nr = Ok bl ->
  dict_wf partial_dict ->
  (forall k v, dict_get k partial_dict = Some v ->
               v <> ""%string /\ contains "/" v = false) ->
  let segment := fun key =>
    match dict_get key partial_dict with
    | Some v => v
    | None => match dict_get key (defaults bl) with
              | Some v => v
              | None => "*"%string
              end
    end in
  let pattern := ((root_dir bl ++ "/") ++ join "/" (map segment (parts_dir bl)))%string in
  fst (build_path (parts_dir bl) (root_dir bl)
         (dict_update (defaults bl) partial_dict)) = pattern
  /\ ((forall k, In k (keys partial_dict) -> In k (parts_dir bl)) ->
      globbed (search realpath iglob baseline_nr latest_version partial_dict)
      = [pattern]).
Proof.
  intros Hbl Hwf Hvalues segment pattern.
  destruct (search_pattern_fold realpath iglob baseline_nr latest_version
              partial_dict bl Hbl Hwf) as [Hfst Hglob].
  destruct (baseline_root_dir _ _ Hbl) as (Hroot & Hend & Hparts).
  assert (Hfold : fold_left os_path_join
                    (map (glob_segment bl partial_dict) (parts_dir bl)) (root_dir bl)
                  = pattern).
  { apply fold_os_path_join; auto.
    - apply Forall_forall. intros v Hv. apply in_map_iff in Hv.
      destruct Hv as (key & <- & _). unfold glob_segment.
      destruct (dict_get key partial_dict) as [v|] eqn:Hc;
        [exact (Hvalues key v Hc)|].
      destruct (dict_get key (defaults bl)) as [v|] eqn:Hd.
      + exact (baseline_defaults_segment_ok _ _ _ _ Hbl Hd).
      + split; [discriminate | reflexivity].
    - destruct (parts_dir bl); [congruence | discriminate]. }
  rewrite Hfold in Hfst, Hglob. auto.
Qed.

Lemma defaults_fill_the_pattern_witness :
  let pd := [("variable", "tas"); ("model", "CanCM4")]%string in
  fst (build_path baseline0_parts_dir "/gpfs_750/projects/CMIP5/data"
         (dict_update [("project", "cmip5"); ("institute", "MPI-M");
                       ("model", "MPI-ESM-LR")]%string
            pd))
  = "/gpfs_750/projects/CMIP5/data/cmip5/*/MPI-M/CanCM4/*/*/*/*/*/*/tas/*"%string
  /\ globbed (search (fun p => p) (fun _ => []) 0 true pd)
     = ["/gpfs_750/projects/CMIP5/data/cmip5/*/MPI-M/CanCM4/*/*/*/*/*/*/tas/*"%string].
Proof.
  intros pd.
  destruct (defaults_fill_the_pattern (fun p => p) (fun _ => []) 0 true pd
              (nth 0 BASELINE (mkBaseline "" [] [] None [] "" [])))
    as [Hp Hg].
  - reflexivity.
  - unfold dict_wf, pd. simpl. repeat constructor; simpl; intuition discriminate.
  - intros k v H. apply dict_get_In in H.
    destruct H as [[= <- <-]|[[= <- <-]|[]]]; split; (discriminate || reflexivity).
  - split.
    + exact Hp.
    + apply Hg. unfold pd. simpl. intuition (subst; simpl; auto 15).
Defined.

(** C10 as worded fails: a value of the caller that starts with a slash
    takes the place of the root and of every part before it, so the
    defaults of the earlier parts are not in the pattern, nor are the
    wildcards. *)
Lemma absolute_value_drops_the_defaults :
  globbed (search (fun p => p) (fun _ => []) 0 true
             [("institute", "/scratch/MPI-M")]%string)
  = ["/scratch/MPI-M/MPI-ESM-LR/*/*/*/*/*/*/*/*"%string]
  /\ globbed (search (fun p => p) (fun _ => []) 0 true [("variable", "/x")]%string)
     = ["/x/*"%string].
Proof.
  split; reflexivity.
Qed.

End FileFacts.

(** ** More on the search executor and the facets *)

Module SolrMore.
Import Py Solr PyFacts SolrFacts.
Local Open Scope list_scope.

Section Loop.

Variable urlencode : list (string * Value) -> string.
Variable py_int : Value -> result Z.
Variable get_json : Core -> Request -> result Answer.

Variables (self : Core) (query : string) (D : list Doc) (ps : list string).
Hypothesis Hserves : serves get_json self query D.
Hypothesis Hfiles : map (dict_get "file") D = map Some ps.

(** One turn of the loop against a core that serves [D], wherever the
    offset stands: the page is what is left of the slice asked for, and
    the count goes down by the number of documents that came. *)
Lemma search_loop_turn fuel offset batch_size n meta :
  (0 <= offset)%Z -> (0 < n)%Z -> (0 < batch_size)%Z ->
  search_loop get_json (S fuel) self query offset batch_size n meta
  = run_prepend
      ((if meta
        then [Meta {| meta_numFound := Z.of_nat (List.length D); meta_start := offset |}]
        else [])
       ++ map File (firstn (Z.to_nat (Z.min batch_size n)) (skipn (Z.to_nat offset) ps)))
      (SelectRows offset (Z.min batch_size n) query)
      (search_loop get_json fuel self query (offset + Z.min batch_size n)
         (Z.min batch_size n)
         (n - Z.of_nat (List.length
                          (firstn (Z.to_nat (Z.min batch_size n))
                                  (skipn (Z.to_nat offset) ps))))
         false).
Proof.
  intros Ho Hn Hb.
  set (r := Z.min batch_size n) in *.
  assert (Hr : (0 < r)%Z) by (unfold r; lia).
  cbn [search_loop]. fold r.
  replace (n >? 0)%Z with true by (symmetry; apply Z.gtb_lt; lia).
  destruct Hserves as [_ Hpage].
  destruct (Hpage offset r) as (a & Ea & Hnum & Hstart & Hdocs); [lia | lia |].
  rewrite Ea.
  assert (Hslice : map (dict_get "file") (docs (response a))
                   = map Some (firstn (Z.to_nat r) (skipn (Z.to_nat offset) ps))).
  { rewrite Hdocs, <- !firstn_map, <- !skipn_map. do 2 f_equal. exact Hfiles. }
  rewrite (yield_docs_files _ _ n Hslice).
  unfold strip_docs. rewrite Hnum, Hstart.
  reflexivity.
Qed.

(** The number of page requests for [n] documents in batches of [b]. *)
Lemma pages_step (n b : Z) :
  (0 < b)%Z -> (b < n)%Z ->
  ((n + b - 1) / b = 1 + (n - b + b - 1) / b)%Z.
Proof.
  intros Hb Hn.
  replace (n + b - 1)%Z with ((n - b + b - 1) + 1 * b)%Z by lia.
  rewrite Z.div_add by lia. lia.
Qed.

Lemma pages_last (n b : Z) :
  (0 < n)%Z -> (n <= b)%Z -> ((n + b - 1) / b = 1)%Z.
Proof.
  intros Hn Hb. symmetry. apply (Z.div_unique (n + b - 1) b 1 (n - 1)); lia.
Qed.

(** From any offset with the rest of the documents to visit, the loop
    yields the rest in order, ends, and has sent one request for every
    [batch_size] documents, the last page being the short one. *)
Lemma search_loop_requests fuel :
  forall offset batch_size n meta,
    (0 <= offset)%Z -> (0 < batch_size)%Z -> (0 <= n)%Z ->
    (offset + n = Z.of_nat (List.length D))%Z ->
    (Z.to_nat n <= fuel)%nat ->
    let run := search_loop get_json fuel self query offset batch_size n meta in
    files_of (yielded run) = skipn (Z.to_nat offset) ps
    /\ outcome run = Finished
    /\ Z.of_nat (List.length (calls run)) = ((n + batch_size - 1) / batch_size)%Z.
Proof.
  induction fuel as [|fuel IH]; intros offset batch_size n meta Ho Hb Hn Hsum Hfuel.
  - assert (n = 0%Z) by lia. subst n. simpl. split; [|split]; auto.
    + symmetry. apply skipn_all2. rewrite (serving_length D ps Hfiles). lia.
    + rewrite Z.div_small; lia.
  - destruct (Z.eq_dec n 0) as [->|Hnz].
    + simpl. split; [|split]; auto.
      * symmetry. apply skipn_all2. rewrite (serving_length D ps Hfiles). lia.
      * rewrite Z.div_small; lia.
    + intros run. subst run.
      rewrite search_loop_turn by lia.
      set (r := Z.min batch_size n) in *.
      assert (Hr : (0 < r <= n)%Z) by (unfold r; lia).
      assert (Hlen : List.length (firstn (Z.to_nat r) (skipn (Z.to_nat offset) ps))
                     = Z.to_nat r).
      { rewrite length_firstn, length_skipn, (serving_length D ps Hfiles). lia. }
      rewrite Hlen, Z2Nat.id by lia.
      destruct (IH (offset + r)%Z r (n - r)%Z false) as (Hy & Ho' & Hc); try lia.
      cbn [run_prepend yielded outcome calls List.length].
      split; [|split]; auto.
      * rewrite !files_of_app, files_of_File, Hy.
        replace (files_of (if meta then _ else [])) with (@nil string)
          by (now destruct meta).
        cbn [app].
        replace (Z.to_nat (offset + r)) with (Z.to_nat r + Z.to_nat offset)%nat by lia.
        rewrite <- skipn_skipn. apply firstn_skipn.
      * rewrite Nat2Z.inj_succ, Hc.
        destruct (Z_lt_le_dec batch_size n) as [Hlt|Hle].
        -- replace r with batch_size by (unfold r; lia).
           rewrite (pages_step n batch_size) by lia. lia.
        -- replace r with n by (unfold r; lia).
           replace (n - n)%Z with 0%Z by lia.
           rewrite (pages_last n batch_size) by lia.
           rewrite Z.div_small by lia. lia.
Qed.

(** When more is left to visit than the core has from the offset on, the
    loop never ends: every turn it asks for one more page. *)
Lemma search_loop_overrun fuel :
  forall offset batch_size n meta,
    (0 <= offset)%Z -> (0 < batch_size)%Z ->
    (Z.max 0 (Z.of_nat (List.length D) - offset) < n)%Z ->
    let run := search_loop get_json fuel self query offset batch_size n meta in
    outcome run = OutOfFuel /\ List.length (calls run) = fuel.
Proof.
  induction fuel as [|fuel IH]; intros offset batch_size n meta Ho Hb Hn.
  - simpl. replace (n >? 0)%Z with true by (symmetry; apply Z.gtb_lt; lia). auto.
  - intros run. subst run.
    rewrite search_loop_turn by lia.
    set (r := Z.min batch_size n) in *.
    assert (Hr : (0 < r)%Z) by (unfold r; lia).
    cbn [run_prepend outcome calls List.length].
    destruct (IH (offset + r)%Z r
                (n - Z.of_nat (List.length (firstn (Z.to_nat r)
                                              (skipn (Z.to_nat offset) ps))))%Z
                false)
      as [Ho' Hc]; try lia.
    + rewrite length_firstn, length_skipn, (serving_length D ps Hfiles). lia.
    + split; [assumption | now rewrite Hc].
Qed.

End Loop.

Section Searches.

Variable urlencode : list (string * Value) -> string.
Variable py_int : Value -> result Z.
Variable get_json : Core -> Request -> result Answer.

(** X1.  Whatever the number of documents and the batch size, a search
    from the start against a core that serves its documents yields all
    their files in the order of the core and ends, after the count
    request and one page request for every [batch_size] documents (the
    last page may be short). *)
Theorem search_pages_through (fuel : nat) (self : Core) (batch_size : Z)
    (latest_version meta : bool) (pd : Dict Value) (D : list Doc) (ps : list string) :
  search_offset py_int pd = Ok 0%Z ->
  (0 < batch_size)%Z ->
  serves get_json self (_to_solr_query urlencode (search_dict pd)) D ->
  map (dict_get "file") D = map Some ps ->
  (List.length D <= fuel)%nat ->
  let run := _search urlencode py_int get_json fuel self batch_size latest_version meta pd in
  files_of (yielded run) = ps
  /\ outcome run = Finished
  /\ Z.of_nat (List.length (calls run))
     = (1 + (Z.of_nat (List.length D) + batch_size - 1) / batch_size)%Z.
Proof.
  intros Hoff Hb Hs Hf Hfuel run. subst run. unfold _search. rewrite Hoff.
  destruct Hs as [(a0 & E0 & N0) Hpage]. rewrite E0.
  assert (Hs : serves get_json self (_to_solr_query urlencode (search_dict pd)) D)
    by (split; [now exists a0 | exact Hpage]).
  rewrite N0.
  destruct (search_loop_requests get_json self _ D ps Hs Hf fuel 0%Z batch_size
              (Z.of_nat (List.length D)) meta) as (Hy & Ho & Hc); try lia.
  cbn [run_prepend yielded outcome calls List.length app].
  split; [exact Hy|]. split; [exact Ho|].
  rewrite Nat2Z.inj_succ, Hc. lia.
Qed.

(** X2.  With a start offset above zero the count of documents to visit
    is still the total, which the pages from the offset on can never
    bring to zero: against a core that serves a non-empty result the
    search does not end, it sends a request for every unit of fuel. *)
Theorem search_with_start_never_ends (fuel : nat) (self : Core) (batch_size offset : Z)
    (latest_version meta : bool) (pd : Dict Value) (D : list Doc) (ps : list string) :
  search_offset py_int pd = Ok offset ->
  (0 < offset)%Z ->
  (0 < batch_size)%Z ->
  D <> [] ->
  serves get_json self (_to_solr_query urlencode (search_dict pd)) D ->
  map (dict_get "file") D = map Some ps ->
  let run := _search urlencode py_int get_json fuel self batch_size latest_version meta pd in
  outcome run = OutOfFuel /\ List.length (calls run) = S fuel.
Proof.
  intros Hoff Ho Hb HD Hs Hf run. subst run. unfold _search. rewrite Hoff.
  destruct Hs as [(a0 & E0 & N0) Hpage]. rewrite E0.
  assert (Hs : serves get_json self (_to_solr_query urlencode (search_dict pd)) D)
    by (split; [now exists a0 | exact Hpage]).
  rewrite N0.
  assert (HN : (0 < Z.of_nat (List.length D))%Z) by (destruct D; [congruence | simpl; lia]).
  destruct (search_loop_overrun get_json self _ D ps Hs Hf fuel offset batch_size
              (Z.of_nat (List.length D)) meta) as (Hout & Hc); try lia.
  cbn [run_prepend outcome calls List.length]. now rewrite Hc.
Qed.

(** X3.  When the count request reports no match, the search sends no
    other request and yields nothing, the metadata record included. *)
Theorem search_without_match (fuel : nat) (self : Core) (batch_size offset : Z)
    (latest_version meta : bool) (pd : Dict Value) (a0 : Answer) :
  search_offset py_int pd = Ok offset ->
  get_json self (SelectCount (_to_solr_query urlencode (search_dict pd))) = Ok a0 ->
  (numFound (response a0) <= 0)%Z ->
  _search urlencode py_int get_json fuel self batch_size latest_version meta pd
  = {| yielded := [];
       calls := [SelectCount (_to_solr_query urlencode (search_dict pd))];
       outcome := Finished |}.
Proof.
  intros Hoff E0 Hn. unfold _search. rewrite Hoff, E0.
  now rewrite search_loop_done.
Qed.

(** The inner loop stops at the first document without a [file]. *)
Lemma yield_docs_missing_file pre bad post ps n :
  map (dict_get "file") pre = map Some ps ->
  dict_get "file" bad = None ->
  yield_docs (pre ++ bad :: post) n
  = (map File ps, (n - Z.of_nat (List.length ps))%Z, Some (KeyError "file")).
Proof.
  revert ps n. induction pre as [|item pre IH]; intros [|p ps] n H Hbad;
    try discriminate.
  - simpl. rewrite Hbad. do 2 f_equal. lia.
  - simpl in H. injection H as Hp Hrest.
    cbn [app yield_docs]. rewrite Hp, (IH ps (n - 1)%Z Hrest Hbad).
    cbn [map List.length]. do 2 f_equal. lia.
Qed.

(** X4.  A document without the field [file] (the caller may have asked
    for other fields with [fl]) ends the search with a [KeyError]: the
    files of the documents before it in the page have been yielded, and
    no further request is sent. *)
Theorem search_document_without_file (fuel : nat) (self : Core) (batch_size offset : Z)
    (latest_version meta : bool) (pd : Dict Value) (a0 a1 : Answer)
    (pre post : list Doc) (bad : Doc) (ps : list string) :
  let query := _to_solr_query urlencode (search_dict pd) in
  let page := SelectRows offset (Z.min batch_size (numFound (response a0))) query in
  search_offset py_int pd = Ok offset ->
  get_json self (SelectCount query) = Ok a0 ->
  (0 < numFound (response a0))%Z ->
  get_json self page = Ok a1 ->
  docs (response a1) = pre ++ bad :: post ->
  map (dict_get "file") pre = map Some ps ->
  dict_get "file" bad = None ->
  _search urlencode py_int get_json (S fuel) self batch_size latest_version meta pd
  = {| yielded := (if meta then [Meta (strip_docs (response a1))] else [])
                  ++ map File ps;
       calls := [SelectCount query; page];
       outcome := Raised (KeyError "file") |}.
Proof.
  intros query page Hoff E0 Hn E1 Hdocs Hpre Hbad.
  unfold _search. rewrite Hoff. fold query. rewrite E0.
  cbn [search_loop].
  replace (numFound (response a0) >? 0)%Z with true
    by (symmetry; apply Z.gtb_lt; lia).
  fold page. rewrite E1, Hdocs.
  rewrite (yield_docs_missing_file pre bad post ps _ Hpre Hbad).
  reflexivity.
Qed.

End Searches.

(** *** Translation *)

Lemma substring_append (s p : string) :
  String.substring 0 (String.length s) (s ++ p)%string = s.
Proof.
  induction s as [|c s IH]; simpl.
  - now destruct p.
  - now rewrite IH.
Qed.

Lemma drop_last_append (s p : string) :
  drop_last (String.length p) (s ++ p)%string = s.
Proof.
  unfold drop_last. rewrite length_append.
  replace (String.length s + String.length p - String.length p)%nat
    with (String.length s) by lia.
  apply substring_append.
Qed.

Lemma endswith_append (s p : string) : endswith p (s ++ p)%string = true.
Proof.
  unfold endswith. rewrite length_append.
  replace (String.length s + String.length p - String.length p)%nat
    with (String.length s) by lia.
  rewrite drop_append, String.eqb_refl.
  replace (String.length p <=? String.length s + String.length p)%nat with true
    by (symmetry; apply Nat.leb_le; lia).
  reflexivity.
Qed.

Lemma negated_key_not_special (name : string) :
  is_special (name ++ "_not_")%string = false.
Proof.
  assert (H : forall k, last_char k <> Some "_"%char ->
                        String.eqb (name ++ "_not_")%string k = false).
  { intros k Hk. apply String.eqb_neq. intros E. apply Hk. rewrite <- E.
    now rewrite last_char_append by discriminate. }
  unfold is_special, special_keys. cbn [existsb].
  rewrite !H by (cbn; discriminate). reflexivity.
Qed.

(** X5.  A key that ends in [_not_] is never a reserved key, and is
    translated to a clause on the name before the marker with a minus
    sign in front; for a list of values every alternative of the OR
    carries the minus sign. *)
Theorem negated_key_clause (name v : string) (l : list string) :
  solr_param ((name ++ "_not_")%string, VStr v)
  = ("fq", VStr ("-" ++ name ++ ":" ++ v)%string)
  /\ solr_param ((name ++ "_not_")%string, VList l)
     = ("fq", VStr (join " OR " (map (fun x => ("-" ++ name ++ ":" ++ x)%string) l))).
Proof.
  unfold solr_param. rewrite negated_key_not_special, endswith_append.
  change 5%nat with (String.length "_not_"). rewrite drop_last_append.
  split; reflexivity.
Qed.

(** *** The dictionaries *)

Lemma dict_get_setdefault_same {V} k (v : V) d :
  dict_get k (dict_setdefault k v d)
  = Some (match dict_get k d with Some x => x | None => v end).
Proof.
  unfold dict_setdefault, dict_mem.
  destruct (dict_get k d) eqn:E; [assumption | apply dict_get_set_same].
Qed.

(** X6.  Without a [text] constraint, [_facets] asks with the match-all
    query whatever [q] the caller gave, while [_search] keeps the [q] and
    the [fl] of the caller and falls back on the match-all query and on
    the field [file]; [start] is never part of what [_search] translates. *)
Theorem query_without_text (pd : Dict Value) :
  dict_get "text" pd = None ->
  dict_get "q" (facets_dict pd) = Some (VStr "*:*")
  /\ dict_get "q" (search_dict pd)
     = Some (match dict_get "q" pd with Some q => q | None => VStr "*:*" end)
  /\ dict_get "fl" (search_dict pd)
     = Some (match dict_get "fl" pd with Some fl => fl | None => VStr "file" end)
  /\ dict_get "start" (search_dict pd) = None.
Proof.
  intros Htext.
  split; [unfold facets_dict; rewrite Htext; apply dict_get_set_same|].
  unfold search_dict. rewrite search_dict_text, Htext.
  rewrite !dict_get_set_other by discriminate.
  split; [|split].
  - rewrite dict_get_setdefault_other by discriminate.
    rewrite dict_get_setdefault_same.
    now rewrite dict_get_del_other by discriminate.
  - rewrite dict_get_setdefault_same.
    rewrite dict_get_setdefault_other by discriminate.
    now rewrite dict_get_del_other by discriminate.
  - rewrite !dict_get_setdefault_other by discriminate.
    apply dict_get_del_same.
Qed.

(** *** Facets *)

(** X7.  The facet result is the facet fields of the answer without the
    field [language]: that field is never in the result, every other
    field is as the core gave it, and an answer without [language] is no
    error. *)
Theorem facets_without_language
    (urlencode : list (string * Value) -> string)
    (get_json : Core -> Request -> result Answer)
    (get_solr_fields : Core -> list string)
    (set_order : list string -> list string)
    (self : Core) (latest_version : bool) (facets : Facets) (pd : Dict Value)
    (answer : Answer) :
  get_json self
    (SelectCount (facets_query urlencode get_solr_fields set_order self latest_version facets pd))
  = Ok answer ->
  exists result,
    _facets urlencode get_json get_solr_fields set_order self latest_version facets pd = Ok result
    /\ dict_get "language" result = None
    /\ (forall k, k <> "language"%string ->
                  dict_get k result = dict_get k (facet_fields answer))
    /\ (dict_get "language" (facet_fields answer) = None ->
        result = facet_fields answer).
Proof.
  intros E. unfold _facets. rewrite E. cbn [bind].
  eexists. split; [reflexivity|]. split; [apply dict_get_del_same|].
  split.
  - intros k Hk. now apply dict_get_del_other.
  - apply dict_del_absent.
Qed.

(** X8.  When no facet field is given, the request asks for the fields of
    the core that are not on the list of the left-out fields, each once,
    in whatever order the set iterates; the request has no facet
    directive when none is left. *)
Theorem default_facets_fields
    (urlencode : list (string * Value) -> string)
    (get_solr_fields : Core -> list string)
    (set_order : list string -> list string)
    (self : Core) (pd : Dict Value) :
  (forall l, NoDup (set_order l) /\ forall f, In f (set_order l) <-> In f l) ->
  exists fields,
    NoDup fields
    /\ (forall f, In f fields
                  <-> In f (get_solr_fields self) /\ ~ In f facet_denylist)
    /\ facets_query urlencode get_solr_fields set_order self false FNone pd
       = (_to_solr_query urlencode (facets_dict pd)
          ++ match fields with
             | [] => ""
             | _ :: _ =>
                 "&facet=true&facet.sort=index&facet.mincount=1&facet.field="
                 ++ join "&facet.field=" fields
             end)%string.
Proof.
  intros Hset. exists (default_facets get_solr_fields set_order self).
  split; [apply Hset|]. split; [|reflexivity].
  intros f. unfold default_facets.
  rewrite (proj2 (Hset _)), filter_In, negb_true_iff.
  assert (H : existsb (String.eqb f) facet_denylist = false <-> ~ In f facet_denylist).
  { rewrite <- not_true_iff_false, existsb_exists. split.
    - intros Hn Hin. apply Hn. exists f. split; auto. apply String.eqb_refl.
    - intros Hn (x & Hx & Ex). apply String.eqb_eq in Ex. subst. auto. }
  now rewrite H.
Qed.

(** *** Examples *)

Lemma search_pages_through_witness :
  let run := _search plain_urlencode int_of_digits (fun _ => list_backend docs_h_to_a)
               8 files 3 false true [("variable", VStr "tas")] in
  files_of (yielded run) = ["h"; "g"; "f"; "e"; "d"; "c"; "b"; "a"]
  /\ outcome run = Finished
  /\ Z.of_nat (List.length (calls run)) = 4%Z.
Proof.
  intros run.
  apply (search_pages_through plain_urlencode int_of_digits
           (fun _ => list_backend docs_h_to_a) 8 files 3 false true
           [("variable", VStr "tas")] docs_h_to_a
           ["h"; "g"; "f"; "e"; "d"; "c"; "b"; "a"]).
  - reflexivity.
  - lia.
  - apply list_backend_serves.
  - reflexivity.
  - simpl. lia.
Defined.

Lemma search_with_start_never_ends_witness :
  let run := _search plain_urlencode int_of_digits (fun _ => list_backend docs_h_to_a)
               20 files 3 false false [("start", VStr "5")] in
  outcome run = OutOfFuel /\ List.length (calls run) = 21%nat.
Proof.
  intros run.
  apply (search_with_start_never_ends plain_urlencode int_of_digits
           (fun _ => list_backend docs_h_to_a) 20 files 3 5 false false
           [("start", VStr "5")] docs_h_to_a
           ["h"; "g"; "f"; "e"; "d"; "c"; "b"; "a"]).
  - reflexivity.
  - lia.
  - lia.
  - discriminate.
  - apply list_backend_serves.
  - reflexivity.
Defined.

Lemma search_without_match_witness :
  _search plain_urlencode int_of_digits (fun _ => list_backend []) 5 latest 10 false true
    [("variable", VStr "none")]
  = {| yielded := [];
       calls := [SelectCount "fq=variable:none&q=*:*&fl=file&sort=file desc"];
       outcome := Finished |}.
Proof.
  apply (search_without_match plain_urlencode int_of_digits (fun _ => list_backend [])
           5 latest 10 0 false true [("variable", VStr "none")]
           {| response := {| numFound := 0; start := 0; docs := [] |};
              facet_fields := [] |}).
  - reflexivity.
  - reflexivity.
  - simpl. lia.
Defined.

Lemma search_document_without_file_witness :
  let D := [[("file", "b")]; [("variable", "tas")]; [("file", "a")]] in
  _search plain_urlencode int_of_digits (fun _ => list_backend D) 4 files 10 false true
    [("fl", VStr "file,variable")]
  = {| yielded := [Meta {| meta_numFound := 3; meta_start := 0 |}; File "b"];
       calls := [SelectCount "fl=file,variable&q=*:*&sort=file desc";
                 SelectRows 0 3 "fl=file,variable&q=*:*&sort=file desc"];
       outcome := Raised (KeyError "file") |}.
Proof.
  intros D.
  apply (search_document_without_file plain_urlencode int_of_digits
           (fun _ => list_backend D) 3 files 10 0 false true
           [("fl", VStr "file,variable")]
           {| response := {| numFound := 3; start := 0; docs := [] |};
              facet_fields := [] |}
           {| response := {| numFound := 3; start := 0; docs := D |};
              facet_fields := [] |}
           [[("file", "b")]] [[("file", "a")]] [("variable", "tas")] ["b"]).
  - reflexivity.
  - reflexivity.
  - simpl. lia.
  - reflexivity.
  - reflexivity.
  - reflexivity.
  - reflexivity.
Defined.

Lemma query_without_text_witness :
  let pd := [("q", VStr "tas"); ("start", VStr "20")] in
  dict_get "q" (facets_dict pd) = Some (VStr "*:*")
  /\ dict_get "q" (search_dict pd) = Some (VStr "tas")
  /\ dict_get "fl" (search_dict pd) = Some (VStr "file")
  /\ dict_get "start" (search_dict pd) = None.
Proof.
  intros pd. apply (query_without_text pd). reflexivity.
Defined.

Lemma facets_without_language_witness :
  let core := fun (_ : Core) (_ : Request) =>
    Ok {| response := {| numFound := 2; start := 0; docs := [] |};
          facet_fields := [("model", [JStr "m"; JInt 2]); ("language", []);
                           ("variable", [JStr "tas"; JInt 2])] |} in
  exists result,
    _facets plain_urlencode core (fun _ => []) plain_set_order latest false
      (FStr "model,variable") []
    = Ok result
    /\ dict_get "language" result = None
    /\ dict_get "model" result = Some [JStr "m"; JInt 2].
Proof.
  intros core.
  destruct (facets_without_language plain_urlencode core (fun _ => [])
              plain_set_order latest false (FStr "model,variable") []
              {| response := {| numFound := 2; start := 0; docs := [] |};
                 facet_fields := [("model", [JStr "m"; JInt 2]); ("language", []);
                                  ("variable", [JStr "tas"; JInt 2])] |})
    as (result & Hr & Hl & Hk & _).
  - reflexivity.
  - exists result. split; [exact Hr|]. split; [exact Hl|].
    rewrite Hk by discriminate. reflexivity.
Defined.

Lemma default_facets_fields_witness :
  let core_fields := fun _ : Core =>
    ["model"; "file"; "variable"; "version"; "model"; "timestamp"] in
  exists fields,
    NoDup fields
    /\ (forall f, In f fields
                  <-> In f (core_fields latest) /\ ~ In f facet_denylist)
    /\ facets_query plain_urlencode core_fields reverse_set_order latest false FNone
         [("model", VStr "m")]
       = ("fq=model:m&q=*:*"
          ++ match fields with
             | [] => ""
             | _ :: _ =>
                 "&facet=true&facet.sort=index&facet.mincount=1&facet.field="
                 ++ join "&facet.field=" fields
             end)%string.
Proof.
  intros core_fields.
  apply (default_facets_fields plain_urlencode core_fields reverse_set_order latest
           [("model", VStr "m")]).
  intros l. unfold reverse_set_order. split.
  - apply NoDup_rev, NoDup_nodup.
  - intros f. now rewrite <- in_rev, nodup_In.
Defined.

End SolrMore.

(** ** More on the codec, the search and the resolver *)

Module FileMore.
Import Py File PyFacts FileFacts SolrMore.
Local Open Scope list_scope.

(** *** Strings *)

Lemma join_split (c : ascii) (s : string) :
  join (String c "") (split c s) = s.
Proof.
  induction s as [|a s IH]; simpl; auto.
  pose proof (split_not_nil c s) as Hne.
  destruct (Ascii.eqb a c) eqn:E.
  - apply Ascii.eqb_eq in E. subst a.
    destruct (split c s) as [|w ws]; [congruence|].
    change (join (String c "") ("" :: w :: ws)%string)
      with ("" ++ String c "" ++ join (String c "") (w :: ws))%string.
    now rewrite IH.
  - destruct (split c s) as [|w ws]; [congruence|].
    destruct ws as [|w' ws].
    + simpl in *. now rewrite IH.
    + change (join (String c "") (String a w :: w' :: ws))
        with (String a (w ++ String c "" ++ join (String c "") (w' :: ws)))%string.
      f_equal. exact IH.
Qed.

(** *** The baselines *)

(** X9.  Only the numbers 0 and 1 name a baseline; with any other number
    decoding fails and a search fails before it has looked at the file
    system, both with the message that names the number. *)
Theorem unknown_baseline_rejected (realpath : string -> string)
    (iglob : string -> list string) (baseline_nr : Z) (latest_version : bool)
    (pd : Dict string) (path : string) :
  ((exists bl, _get_baseline baseline_nr = Ok bl)
   <-> baseline_nr = 0%Z \/ baseline_nr = 1%Z)
  /\ ((baseline_nr < 0 \/ 1 < baseline_nr)%Z ->
      let e := Exception ("Baseline " ++ str_of_Z baseline_nr
                          ++ " not implemented yet.")%string in
      from_path realpath path baseline_nr = Raise e
      /\ search realpath iglob baseline_nr latest_version pd
         = {| found := []; globbed := []; stderr := []; ended := Failed e |}).
Proof.
  split.
  - split.
    + intros [bl H]. destruct (get_baseline_cases _ _ H) as [[-> _]|[-> _]]; auto.
    + intros [-> | ->]; eexists; reflexivity.
  - intros Hr e.
    assert (H : _get_baseline baseline_nr = Raise e).
    { unfold _get_baseline. cbn [List.length BASELINE].
      replace ((baseline_nr <? 0)%Z || (baseline_nr >? Z.of_nat 2 - 1)%Z) with true;
        [reflexivity|].
      symmetry. apply orb_true_iff. rewrite Z.ltb_lt, Z.gtb_lt. lia. }
    unfold from_path, search. rewrite H. auto.
Qed.

(** *** Decoding *)

Section Decoding.

Variable realpath : string -> string.

(** X10.  Under a baseline, a path whose real path is not below the root
    directory is refused with the message that names the baseline, and a
    real path below the root with another number of segments than the
    baseline has parts is refused with the message that gives both
    numbers. *)
Theorem from_path_rejects (path : string) (baseline_nr : Z) (bl : Baseline) :
  _get_baseline baseline_nr = Ok bl ->
  (startswith (root_dir bl ++ "/") (realpath path) = false ->
   from_path realpath path baseline_nr
   = Raise (Exception ("This file does not correspond to baseline "
                       ++ str_of_Z baseline_nr)%string))
  /\ (forall segs,
         realpath path = ((root_dir bl ++ "/") ++ join "/" segs)%string ->
         segs <> [] ->
         Forall (fun v => contains "/" v = false) segs ->
         List.length segs <> List.length (parts_dir bl) ->
         from_path realpath path baseline_nr
         = Raise (Exception
                    ("Can't parse this path. Expected "
                     ++ str_of_Z (Z.of_nat (List.length (parts_dir bl)))
                     ++ " elements but got "
                     ++ str_of_Z (Z.of_nat (List.length segs)) ++ ".")%string)).
Proof.
  intros Hbl. split.
  - intros Hpre. unfold from_path. rewrite Hbl. cbn [bind]. now rewrite Hpre.
  - intros segs Hpath Hne Hfree Hlen.
    unfold from_path. rewrite Hbl. cbn [bind]. rewrite Hpath.
    unfold startswith. rewrite prefix_append. cbn [negb].
    replace (String.length (root_dir bl) + 1)%nat
      with (String.length (root_dir bl ++ "/")%string)
      by (rewrite length_append; reflexivity).
    rewrite drop_append, split_join by assumption.
    apply Nat.eqb_neq in Hlen. now rewrite Hlen.
Qed.

(** The shape of a candidate decoded under baseline 0, with the segments
    of the real path and the tokens of the file name it is made of. *)
Lemma from_path_cmip5_shape (path : string) (c : BaselineFile) :
  from_path realpath path 0 = Ok c ->
  exists s1 s2 s3 s4 s5 s6 s7 s8 s9 s10 s11 s12 t1 t2 t3 t4 t5 time rest,
    realpath path
    = ("/gpfs_750/projects/CMIP5/data/"
       ++ join "/" [s1; s2; s3; s4; s5; s6; s7; s8; s9; s10; s11; s12])%string
    /\ Forall (fun v => contains "/" v = false)
              [s1; s2; s3; s4; s5; s6; s7; s8; s9; s10; s11; s12]
    /\ split "_" (drop_last 3 s12) = t1 :: t2 :: t3 :: t4 :: t5 :: rest
    /\ ((rest = [] /\ In "r0i0p0"%string [t1; t2; t3; t4; t5] /\ time = None)
        \/ (exists t6 more, rest = t6 :: more /\ time = Some t6))
    /\ c = {| baseline_nr := 0;
              dict := {| fd_root_dir := Some "/gpfs_750/projects/CMIP5/data"%string;
                         fd_parts := Some (cmip5_parts s1 s2 s3 s6 s7 s10 s12
                                             t1 t2 t3 t4 t5 time) |} |}.
Proof.
  intros Hdec.
  unfold from_path in Hdec.
  change (_get_baseline 0) with (Ok (nth 0 BASELINE (mkBaseline "" [] [] None [] "" [])))
    in Hdec.
  cbn [bind nth BASELINE root_dir parts_dir parts_file_name] in Hdec.
  set (p1 := realpath path) in *.
  destruct (startswith _ p1) eqn:Hpre; cbn [negb] in Hdec; [|discriminate].
  apply prefix_drop in Hpre.
  change (String.length ("/gpfs_750/projects/CMIP5/data" ++ "/"))
    with (String.length "/gpfs_750/projects/CMIP5/data" + 1)%nat in Hpre.
  rewrite <- (join_split "/" (drop _ p1)) in Hpre.
  pose proof (split_pieces "/" (drop (String.length "/gpfs_750/projects/CMIP5/data" + 1) p1))
    as Hfree.
  change ("/gpfs_750/projects/CMIP5/data" ++ "/")%string
    with "/gpfs_750/projects/CMIP5/data/"%string in Hpre.
  destruct (split "/" (drop (String.length "/gpfs_750/projects/CMIP5/data" + 1) p1))
    as [|s1 [|s2 [|s3 [|s4 [|s5 [|s6 [|s7 [|s8 [|s9 [|s10 [|s11 [|s12 [|s13 more]]]]]]]]]]]]];
    try discriminate Hdec.
  cbn [List.length Nat.eqb negb baseline0_parts_dir] in Hdec.
  eval_assign_in Hdec. cbn [bind] in Hdec.
  eval_lookup_in Hdec. cbn [bind] in Hdec.
  remember (split "_" (drop_last 3 s12)) as toks eqn:Htoks.
  destruct toks as [|t1 [|t2 [|t3 [|t4 [|t5 [|t6 toks]]]]]];
    cbn [List.length Nat.eqb Nat.sub baseline_parts_file_name andb] in Hdec;
    try (eval_assign_in Hdec; discriminate Hdec).
  - destruct (existsb _ _) eqn:Hr0; [|eval_assign_in Hdec; discriminate Hdec].
    eval_assign_in Hdec. cbn [bind] in Hdec. eval_init_in Hdec.
    injection Hdec as <-.
    exists s1, s2, s3, s4, s5, s6, s7, s8, s9, s10, s11, s12, t1, t2, t3, t4, t5,
      None, [].
    split; [exact Hpre|]. split; [exact Hfree|].
    split; [now rewrite <- Htoks|]. split; [|reflexivity].
    left. split; [reflexivity|]. split; [|reflexivity].
    apply existsb_exists in Hr0. destruct Hr0 as (x & Hx & E).
    apply String.eqb_eq in E. now subst x.
  - eval_assign_in Hdec. cbn [bind] in Hdec. eval_init_in Hdec.
    injection Hdec as <-.
    exists s1, s2, s3, s4, s5, s6, s7, s8, s9, s10, s11, s12, t1, t2, t3, t4, t5,
      (Some t6), (t6 :: toks).
    split; [exact Hpre|]. split; [exact Hfree|].
    split; [now rewrite <- Htoks|]. split; [|reflexivity].
    right. now exists t6, toks.
Qed.

(** The same for baseline 1, whose paths have ten segments. *)
Lemma from_path_miklip_shape (path : string) (c : BaselineFile) :
  from_path realpath path 1 = Ok c ->
  exists s1 s2 s3 s4 s5 s6 s7 s8 s9 s10 t1 t2 t3 t4 t5 time rest,
    realpath path
    = ("/miklip/global/prod/archive/"
       ++ join "/" [s1; s2; s3; s4; s5; s6; s7; s8; s9; s10])%string
    /\ Forall (fun v => contains "/" v = false)
              [s1; s2; s3; s4; s5; s6; s7; s8; s9; s10]
    /\ split "_" (drop_last 3 s10) = t1 :: t2 :: t3 :: t4 :: t5 :: rest
    /\ ((rest = [] /\ In "r0i0p0"%string [t1; t2; t3; t4; t5] /\ time = None)
        \/ (exists t6 more, rest = t6 :: more /\ time = Some t6))
    /\ c = {| baseline_nr := 1;
              dict := {| fd_root_dir := Some "/miklip/global/prod/archive"%string;
                         fd_parts := Some (miklip_parts s1 s2 s3 s6 s7 s10
                                             t1 t2 t3 t4 t5 time) |} |}.
Proof.
  intros Hdec.
  unfold from_path in Hdec.
  change (_get_baseline 1) with (Ok (nth 1 BASELINE (mkBaseline "" [] [] None [] "" [])))
    in Hdec.
  cbn [bind nth BASELINE root_dir parts_dir parts_file_name] in Hdec.
  set (p1 := realpath path) in *.
  destruct (startswith _ p1) eqn:Hpre; cbn [negb] in Hdec; [|discriminate].
  apply prefix_drop in Hpre.
  change (String.length ("/miklip/global/prod/archive" ++ "/"))
    with (String.length "/miklip/global/prod/archive" + 1)%nat in Hpre.
  rewrite <- (join_split "/" (drop _ p1)) in Hpre.
  pose proof (split_pieces "/" (drop (String.length "/miklip/global/prod/archive" + 1) p1))
    as Hfree.
  change ("/miklip/global/prod/archive" ++ "/")%string
    with "/miklip/global/prod/archive/"%string in Hpre.
  destruct (split "/" (drop (String.length "/miklip/global/prod/archive" + 1) p1))
    as [|s1 [|s2 [|s3 [|s4 [|s5 [|s6 [|s7 [|s8 [|s9 [|s10 [|s11 more]]]]]]]]]]];
    try discriminate Hdec.
  cbn [List.length Nat.eqb negb baseline1_parts_dir] in Hdec.
  eval_assign_in Hdec. cbn [bind] in Hdec.
  eval_lookup_in Hdec. cbn [bind] in Hdec.
  remember (split "_" (drop_last 3 s10)) as toks eqn:Htoks.
  destruct toks as [|t1 [|t2 [|t3 [|t4 [|t5 [|t6 toks]]]]]];
    cbn [List.length Nat.eqb Nat.sub baseline_parts_file_name andb] in Hdec;
    try (eval_assign_in Hdec; discriminate Hdec).
  - destruct (existsb _ _) eqn:Hr0; [|eval_assign_in Hdec; discriminate Hdec].
    eval_assign_in Hdec. cbn [bind] in Hdec. eval_init_in Hdec.
    injection Hdec as <-.
    exists s1, s2, s3, s4, s5, s6, s7, s8, s9, s10, t1, t2, t3, t4, t5, None, [].
    split; [exact Hpre|]. split; [exact Hfree|].
    split; [now rewrite <- Htoks|]. split; [|reflexivity].
    left. split; [reflexivity|]. split; [|reflexivity].
    apply existsb_exists in Hr0. destruct Hr0 as (x & Hx & E).
    apply String.eqb_eq in E. now subst x.
  - eval_assign_in Hdec. cbn [bind] in Hdec. eval_init_in Hdec.
    injection Hdec as <-.
    exists s1, s2, s3, s4, s5, s6, s7, s8, s9, s10, t1, t2, t3, t4, t5,
      (Some t6), (t6 :: toks).
    split; [exact Hpre|]. split; [exact Hfree|].
    split; [now rewrite <- Htoks|]. split; [|reflexivity].
    right. now exists t6, toks.
Qed.

(** X11.  What a successful decoding under baseline 0 tells: the real
    path is the root and exactly twelve segments; the candidate has
    project, product, institute, time_frequency, realm, version and
    file_name from the segments and variable, cmor_table, model,
    experiment and ensemble from the first five tokens of the file name
    without its last three characters, so the directories of those five
    names are not looked at; the time is the sixth token, or [None] when
    there are five tokens and [r0i0p0] is one of them. *)
Theorem from_path_cmip5 (path : string) (c : BaselineFile) :
  from_path realpath path 0 = Ok c ->
  exists s1 s2 s3 s4 s5 s6 s7 s8 s9 s10 s11 s12 t1 t2 t3 t4 t5 time rest,
    realpath path
    = ("/gpfs_750/projects/CMIP5/data/"
       ++ join "/" [s1; s2; s3; s4; s5; s6; s7; s8; s9; s10; s11; s12])%string
    /\ Forall (fun v => contains "/" v = false)
              [s1; s2; s3; s4; s5; s6; s7; s8; s9; s10; s11; s12]
    /\ split "_" (drop_last 3 s12) = t1 :: t2 :: t3 :: t4 :: t5 :: rest
    /\ ((rest = [] /\ In "r0i0p0"%string [t1; t2; t3; t4; t5] /\ time = None)
        \/ (exists t6 more, rest = t6 :: more /\ time = Some t6))
    /\ c = {| baseline_nr := 0;
              dict := {| fd_root_dir := Some "/gpfs_750/projects/CMIP5/data"%string;
                         fd_parts := Some (cmip5_parts s1 s2 s3 s6 s7 s10 s12
                                             t1 t2 t3 t4 t5 time) |} |}.
Proof.
  intros Hdec.
  destruct (from_path_cmip5_shape path c Hdec)
    as (s1 & s2 & s3 & s4 & s5 & s6 & s7 & s8 & s9 & s10 & s11 & s12
        & t1 & t2 & t3 & t4 & t5 & time & rest & Hp & Hfree & Ht & Hr & Hc).
  exists s1, s2, s3, s4, s5, s6, s7, s8, s9, s10, s11, s12, t1, t2, t3, t4, t5,
    time, rest.
  auto.
Qed.

(** X12.  Whatever path decodes, the candidate is complete: it carries
    the number of the baseline, it has a data set key and it encodes to a
    path; under baseline 0 it has a version, under baseline 1 it has
    none. *)
Theorem decoded_candidate_complete (path : string) (baseline_nr : Z)
    (c : BaselineFile) :
  from_path realpath path baseline_nr = Ok c ->
  File.baseline_nr c = baseline_nr
  /\ (exists k, to_dataset c false = Ok k)
  /\ (exists p, to_path c = Ok p)
  /\ ((baseline_nr = 0%Z /\ exists v, get_version c = Ok (Some v))
      \/ (baseline_nr = 1%Z /\ get_version c = Ok None)).
Proof.
  intros Hdec.
  assert (Hbl : exists bl, _get_baseline baseline_nr = Ok bl).
  { unfold from_path in Hdec. destruct (_get_baseline baseline_nr) as [bl|e];
      [now exists bl | discriminate]. }
  destruct Hbl as [bl Hbl].
  destruct (get_baseline_cases _ _ Hbl) as [[-> _] | [-> _]].
  - destruct (from_path_cmip5_shape path c Hdec)
      as (s1 & s2 & s3 & s4 & s5 & s6 & s7 & s8 & s9 & s10 & s11 & s12
          & t1 & t2 & t3 & t4 & t5 & time & rest & _ & _ & _ & _ & ->).
    split; [reflexivity|]. split; [eexists; reflexivity|].
    split; [eexists; reflexivity|].
    left. split; [reflexivity|]. eexists. reflexivity.
  - destruct (from_path_miklip_shape path c Hdec)
      as (s1 & s2 & s3 & s4 & s5 & s6 & s7 & s8 & s9 & s10
          & t1 & t2 & t3 & t4 & t5 & time & rest & _ & _ & _ & _ & ->).
    split; [reflexivity|]. split; [eexists; reflexivity|].
    split; [eexists; reflexivity|].
    right. split; reflexivity.
Qed.

(** X13.  Encoding what was decoded under baseline 0 does not give the
    path back in general: the directories named model, experiment,
    cmor_table, ensemble and variable are written from the tokens of the
    file name.  When no part is empty, the encoded path is the root and
    the twelve parts; it is the real path that was decoded when those
    five directories agree with the tokens. *)
Theorem encode_after_decode_cmip5 (path : string) (c : BaselineFile) :
  from_path realpath path 0 = Ok c ->
  (forall key, In key baseline0_parts_dir -> part_str c key <> Ok ""%string) ->
  exists s1 s2 s3 s4 s5 s6 s7 s8 s9 s10 s11 s12 t1 t2 t3 t4 t5 rest,
    realpath path
    = ("/gpfs_750/projects/CMIP5/data/"
       ++ join "/" [s1; s2; s3; s4; s5; s6; s7; s8; s9; s10; s11; s12])%string
    /\ split "_" (drop_last 3 s12) = t1 :: t2 :: t3 :: t4 :: t5 :: rest
    /\ to_path c
       = Ok ("/gpfs_750/projects/CMIP5/data/"
             ++ join "/" [s1; s2; s3; t3; t4; s6; s7; t2; t5; s10; t1; s12])%string
    /\ (s4 = t3 -> s5 = t4 -> s8 = t2 -> s9 = t5 -> s11 = t1 ->
        to_path c = Ok (realpath path)).
Proof.
  intros Hdec Hne.
  destruct (from_path_cmip5_shape path c Hdec)
    as (s1 & s2 & s3 & s4 & s5 & s6 & s7 & s8 & s9 & s10 & s11 & s12
        & t1 & t2 & t3 & t4 & t5 & time & rest & Hp & Hfree & Ht & _ & ->).
  exists s1, s2, s3, s4, s5, s6, s7, s8, s9, s10, s11, s12, t1, t2, t3, t4, t5, rest.
  split; [exact Hp|]. split; [exact Ht|].
  set (c := {| baseline_nr := 0; dict := _ |}) in *.
  set (vs := [s1; s2; s3; t3; t4; s6; s7; t2; t5; s10; t1; s12]).
  assert (HF2 : Forall2 (fun key v => part_str c key = Ok v) baseline0_parts_dir vs)
    by (unfold vs, baseline0_parts_dir;
        repeat (apply Forall2_cons; [reflexivity|]); apply Forall2_nil).
  assert (Hok : Forall segment_ok vs).
  { change (Forall (fun v => v <> ""%string /\ contains "/" v = false) vs).
    apply Forall_and; [exact (nonempty_values _ _ _ HF2 Hne)|].
    assert (Htok : Forall (fun v => contains "/" v = false)
                     (t1 :: t2 :: t3 :: t4 :: t5 :: rest)).
    { rewrite <- Ht. apply split_pieces_free, contains_drop_last.
      split_Forall. assumption. }
    split_Forall. unfold vs.
    repeat (apply Forall_cons; [assumption|]). apply Forall_nil. }
  assert (Hpath : to_path c
                  = Ok ("/gpfs_750/projects/CMIP5/data/" ++ join "/" vs)%string).
  { rewrite (to_path_segments c "/gpfs_750/projects/CMIP5/data"
               (nth 0 BASELINE (mkBaseline "" [] [] None [] "" [])) vs);
      [ rewrite fold_os_path_join;
        [ reflexivity | discriminate | reflexivity | assumption | discriminate ]
      | reflexivity | reflexivity | exact HF2 ]. }
  split; [exact Hpath|].
  intros -> -> -> -> ->. now rewrite Hpath, Hp.
Qed.

(** X14.  A file name with fewer than six tokens, unless it has five of
    which one is [r0i0p0], does not decode under baseline 0: the failure
    is the [IndexError] of the token that is not there. *)
Theorem short_file_name_fails (path : string) (segs : list string) :
  realpath path = ("/gpfs_750/projects/CMIP5/data/" ++ join "/" segs)%string ->
  List.length segs = 12%nat ->
  Forall (fun v => contains "/" v = false) segs ->
  let tokens := split "_" (drop_last 3 (last segs ""%string)) in
  (List.length tokens < 6)%nat ->
  ~ (List.length tokens = 5%nat /\ In "r0i0p0"%string tokens) ->
  from_path realpath path 0 = Raise IndexError.
Proof.
  intros Hpath Hlen Hfree tokens Hshort Hnot.
  destruct segs
    as [|s1 [|s2 [|s3 [|s4 [|s5 [|s6 [|s7 [|s8 [|s9 [|s10 [|s11 [|s12 [|s13 more]]]]]]]]]]]]];
    try discriminate Hlen.
  cbn [last] in tokens.
  unfold from_path. rewrite Hpath.
  change (_get_baseline 0) with (Ok (nth 0 BASELINE (mkBaseline "" [] [] None [] "" []))).
  cbn [bind nth BASELINE root_dir parts_dir parts_file_name].
  change "/gpfs_750/projects/CMIP5/data/"%string
    with ("/gpfs_750/projects/CMIP5/data" ++ "/")%string.
  unfold startswith. rewrite prefix_append. cbn [negb].
  change (String.length "/gpfs_750/projects/CMIP5/data" + 1)%nat
    with (String.length ("/gpfs_750/projects/CMIP5/data" ++ "/")).
  rewrite drop_append, split_join by (assumption || discriminate).
  cbn [List.length Nat.eqb negb baseline0_parts_dir].
  eval_assign. cbn [bind]. eval_lookup. cbn [bind].
  fold tokens.
  assert (Hex : List.length tokens = 5%nat ->
                existsb (String.eqb "r0i0p0") tokens = false).
  { intros H5. destruct (existsb _ tokens) eqn:E; auto.
    exfalso. apply Hnot. split; auto.
    apply existsb_exists in E. destruct E as (x & Hx & E).
    apply String.eqb_eq in E. now subst x. }
  clearbody tokens.
  destruct tokens as [|t1 [|t2 [|t3 [|t4 [|t5 [|t6 tokens]]]]]];
    cbn [List.length] in Hshort; try lia;
    cbn [List.length Nat.eqb Nat.sub baseline_parts_file_name andb];
    try rewrite (Hex eq_refl);
    eval_assign; reflexivity.
Qed.

End Decoding.

(** *** Data set keys *)

Lemma collect_parts_app self a b :
  collect_parts self (a ++ b)
  = (xs <- collect_parts self a ;; ys <- collect_parts self b ;; Ok (xs ++ ys)).
Proof.
  induction a as [|key a IH]; simpl.
  - now destruct (collect_parts self b).
  - destruct (self_parts self) as [p|e]; simpl; auto.
    destruct (dict_lookup key p) as [v|e]; simpl; auto.
    rewrite IH. destruct (collect_parts self a) as [xs|e]; simpl; auto.
    now destruct (collect_parts self b).
Qed.

Lemma all_str_app a b :
  all_str (a ++ b) = (xs <- all_str a ;; ys <- all_str b ;; Ok (xs ++ ys)).
Proof.
  induction a as [|[x|] a IH]; simpl; auto.
  - now destruct (all_str b).
  - rewrite IH. destruct (all_str a) as [xs|e]; simpl; auto.
    now destruct (all_str b).
Qed.

Lemma all_str_length l ss : all_str l = Ok ss -> List.length ss = List.length l.
Proof.
  revert ss. induction l as [|[x|] l IH]; simpl; intros ss H; try discriminate.
  - now injection H as <-.
  - destruct (all_str l) as [xs|e]; simpl in H; [|discriminate].
    injection H as <-. simpl. f_equal. now apply IH.
Qed.

Lemma collect_parts_length self keys r :
  collect_parts self keys = Ok r -> List.length r = List.length keys.
Proof.
  revert r. induction keys as [|key keys IH]; simpl; intros r H.
  - now injection H as <-.
  - destruct (self_parts self) as [p|e]; simpl in H; [|discriminate].
    destruct (dict_lookup key p) as [v|e]; simpl in H; [|discriminate].
    destruct (collect_parts self keys) as [xs|e]; simpl in H; [|discriminate].
    injection H as <-. simpl. f_equal. now apply IH.
Qed.

Lemma join_snoc sep ss v :
  ss <> [] -> join sep (ss ++ [v]) = (join sep ss ++ sep ++ v)%string.
Proof.
  induction ss as [|x ss IH]; [congruence|]. intros _.
  destruct ss as [|y ss].
  - reflexivity.
  - change (join sep ((x :: y :: ss) ++ [v]))
      with (x ++ sep ++ join sep ((y :: ss) ++ [v]))%string.
    rewrite IH by discriminate.
    change (join sep (x :: y :: ss)) with (x ++ sep ++ join sep (y :: ss))%string.
    now rewrite !append_assoc.
Qed.

(** X15.  The versioned data set key exists for baseline 0 only: a
    candidate of baseline 1 gets the exception that says so, and for a
    candidate of baseline 0 with a data set key and a version the
    versioned key is the key, a dot and the version. *)
Theorem versioned_dataset_key (self : BaselineFile) :
  (File.baseline_nr self = 1%Z ->
   to_dataset self true = Raise (Exception "baseline 1 is not versioned!"))
  /\ (forall kv, to_dataset self true = Ok kv -> File.baseline_nr self = 0%Z)
  /\ (forall k v,
         File.baseline_nr self = 0%Z ->
         to_dataset self false = Ok k ->
         get_version self = Ok (Some v) ->
         to_dataset self true = Ok (k ++ "." ++ v)%string).
Proof.
  split; [|split].
  - intros H1. unfold to_dataset, is_versioned, get_baseline. rewrite H1. reflexivity.
  - intros kv H. unfold to_dataset, is_versioned, get_baseline in H.
    destruct (_get_baseline (File.baseline_nr self)) as [bl|e] eqn:Hbl;
      [|discriminate].
    destruct (get_baseline_cases _ _ Hbl) as [[E _] | [E Hb]]; [exact E|].
    injection Hb as <-. discriminate.
  - intros k v H0 Hk Hv.
    unfold to_dataset, is_versioned, get_baseline in *. rewrite H0 in *.
    change (_get_baseline 0)
      with (Ok (nth 0 BASELINE (mkBaseline "" [] [] None [] "" []))) in *.
    cbn [bind nth BASELINE parts_versioned_dataset parts_dataset negb] in *.
    change baseline0_parts_versioned_dataset
      with (baseline0_parts_dataset ++ ["version"%string]).
    rewrite collect_parts_app.
    destruct (collect_parts self baseline0_parts_dataset) as [r|e] eqn:Hr;
      [|discriminate].
    cbn [bind] in *.
    destruct (all_str r) as [ss|e] eqn:Hss; [|discriminate].
    cbn [bind] in Hk. injection Hk as <-.
    unfold get_version in Hv. cbn [collect_parts].
    destruct (self_parts self) as [p|e]; [|discriminate].
    cbn [bind] in *. unfold dict_lookup.
    destruct (dict_get "version" p) as [[v'|]|]; try discriminate.
    injection Hv as ->.
    cbn [bind]. rewrite all_str_app, Hss. cbn [bind all_str].
    rewrite join_snoc; [reflexivity|].
    apply all_str_length in Hss. apply collect_parts_length in Hr.
    intros ->. simpl in Hss. rewrite Hr in Hss. discriminate.
Qed.

(** *** Construction *)

(** X16.  The constructor takes one final slash off [root_dir] and no
    more; an empty [root_dir] is an [IndexError], and a dictionary
    without [root_dir] is kept as it is. *)
Theorem init_trims_one_slash (r : string) (parts : option (Dict (option string)))
    (nr : Z) :
  __init__ {| fd_root_dir := Some (r ++ "/")%string; fd_parts := parts |} nr
  = Ok {| baseline_nr := nr;
          dict := {| fd_root_dir := Some r; fd_parts := parts |} |}
  /\ __init__ {| fd_root_dir := Some ""%string; fd_parts := parts |} nr
     = Raise IndexError
  /\ __init__ {| fd_root_dir := None; fd_parts := parts |} nr
     = Ok {| baseline_nr := nr;
             dict := {| fd_root_dir := None; fd_parts := parts |} |}.
Proof.
  split; [|split; reflexivity].
  unfold __init__. cbn [fd_root_dir fd_parts].
  rewrite last_char_append by discriminate. cbn [last_char].
  rewrite Ascii.eqb_refl.
  change 1%nat with (String.length "/"). now rewrite drop_last_append.
Qed.

(** *** The search *)

Section Searching.

Variable realpath : string -> string.
Variable iglob : string -> list string.

(** X17.  Asking for the latest version has no effect on baseline 1 and
    when the caller constrains the version: the search is the one that
    yields every match. *)
Theorem pinned_version_disables_resolution (baseline_nr : Z) (pd : Dict string) :
  (0 < baseline_nr)%Z \/ dict_mem "version" pd = true ->
  search realpath iglob baseline_nr true pd
  = search realpath iglob baseline_nr false pd.
Proof.
  intros H. unfold search.
  destruct (_get_baseline baseline_nr) as [bl|e]; [|reflexivity].
  replace ((baseline_nr >? 0)%Z || dict_mem "version" pd) with true;
    [reflexivity|].
  symmetry. apply orb_true_iff. rewrite Z.gtb_lt. tauto.
Qed.

(** A search whose constraints all name parts of the path globs the
    pattern and runs the loop over the matches. *)
Lemma search_known_constraints (baseline_nr : Z) (latest_version : bool)
    (pd : Dict string) (bl : Baseline) :
  _get_baseline baseline_nr = Ok bl ->
  (forall k, In k (keys pd) -> In k (parts_dir bl)) ->
  let pattern := fst (build_path (parts_dir bl) (root_dir bl)
                        (dict_update (defaults bl) pd)) in
  let lv := if latest_version && ((baseline_nr >? 0)%Z || dict_mem "version" pd)
            then false else latest_version in
  search realpath iglob baseline_nr latest_version pd
  = match search_loop realpath (iglob pattern) baseline_nr lv [] with
    | (ys, Raise e) =>
        {| found := ys; globbed := [pattern]; stderr := []; ended := Failed e |}
    | (ys, Ok datasets) =>
        {| found := ys ++ (if lv then latest_files datasets else []);
           globbed := [pattern]; stderr := []; ended := Done |}
    end.
Proof.
  intros Hbl Hknown pattern lv. unfold search. rewrite Hbl. fold lv.
  pose proof (build_path_leftover (parts_dir bl) (root_dir bl)
                (dict_update (defaults bl) pd)) as Hleft.
  subst pattern.
  destruct (build_path (parts_dir bl) (root_dir bl) (dict_update (defaults bl) pd))
    as [local_path search_dict].
  cbn [fst snd] in *.
  assert (Hnil : search_dict = []).
  { apply keys_nil. rewrite Hleft. apply filter_known.
    intros k Hk. apply In_keys_dict_update in Hk. destruct Hk as [Hk|Hk]; auto.
    eapply baseline_defaults_in_parts_dir; eauto. }
  rewrite Hnil.
  destruct (search_loop realpath (iglob local_path) baseline_nr lv []) as [ys [d|e]];
    reflexivity.
Qed.

(** Without resolution the loop yields the candidates as the paths come,
    up to the first path that does not decode. *)
Lemma search_loop_streaming (baseline_nr : Z) (good : list string)
    (candidates : list BaselineFile) datasets :
  Forall2 (fun p c => from_path realpath p baseline_nr = Ok c) good candidates ->
  search_loop realpath good baseline_nr false datasets = (candidates, Ok datasets)
  /\ (forall bad rest e,
         from_path realpath bad baseline_nr = Raise e ->
         search_loop realpath (good ++ bad :: rest) baseline_nr false datasets
         = (candidates, Raise e)).
Proof.
  induction 1 as [|p c good candidates Hp _ [IH1 IH2]]; split.
  - reflexivity.
  - intros bad rest e He. simpl. now rewrite He.
  - simpl. rewrite Hp. cbn [negb]. now rewrite IH1.
  - intros bad rest e He. simpl. rewrite Hp. cbn [negb].
    now rewrite (IH2 bad rest e He).
Qed.

(** With resolution the loop yields nothing on the way, and fails when a
    path does not decode. *)
Lemma search_loop_buffered (baseline_nr : Z) (paths : list string) datasets :
  fst (search_loop realpath paths baseline_nr true datasets) = []
  /\ (forall bad e, In bad paths ->
         from_path realpath bad baseline_nr = Raise e ->
         exists e', snd (search_loop realpath paths baseline_nr true datasets)
                    = Raise e').
Proof.
  revert datasets. induction paths as [|p paths IH]; intros datasets; split.
  - reflexivity.
  - intros bad e [].
  - simpl. destruct (from_path realpath p baseline_nr) as [c|e]; [|reflexivity].
    cbn [negb]. destruct (latest_update datasets c) as [d|e]; [|reflexivity].
    apply IH.
  - intros bad e Hin He. simpl.
    destruct (from_path realpath p baseline_nr) as [c|e0] eqn:Hp;
      [|now exists e0].
    cbn [negb]. destruct (latest_update datasets c) as [d|e1]; [|now exists e1].
    destruct Hin as [->|Hin]; [congruence|].
    destruct (IH d) as [_ H]. eapply H; eauto.
Qed.

(** X18.  A search for every version yields the candidates of the
    matched paths in the order of the glob, one glob call being made; a
    path that does not decode ends it with the error of that path, after
    the candidates of the paths before it have been yielded. *)
Theorem streaming_search (baseline_nr : Z) (pd : Dict string) (bl : Baseline)
    (good : list string) (candidates : list BaselineFile) :
  _get_baseline baseline_nr = Ok bl ->
  (forall k, In k (keys pd) -> In k (parts_dir bl)) ->
  Forall2 (fun p c => from_path realpath p baseline_nr = Ok c) good candidates ->
  let pattern := fst (build_path (parts_dir bl) (root_dir bl)
                        (dict_update (defaults bl) pd)) in
  (iglob pattern = good ->
   search realpath iglob baseline_nr false pd
   = {| found := candidates; globbed := [pattern]; stderr := []; ended := Done |})
  /\ (forall bad rest e,
         iglob pattern = good ++ bad :: rest ->
         from_path realpath bad baseline_nr = Raise e ->
         search realpath iglob baseline_nr false pd
         = {| found := candidates; globbed := [pattern]; stderr := [];
              ended := Failed e |}).
Proof.
  intros Hbl Hknown Hdec pattern.
  pose proof (search_known_constraints baseline_nr false pd bl Hbl Hknown) as Hs.
  cbn zeta in Hs. fold pattern in Hs. cbn [andb] in Hs.
  destruct (search_loop_streaming baseline_nr good candidates [] Hdec) as [H1 H2].
  split.
  - intros Hglob. rewrite Hs, Hglob, H1. now rewrite app_nil_r.
  - intros bad rest e Hglob He. now rewrite Hs, Hglob, (H2 bad rest e He).
Qed.

(** X19.  A search for the latest version on baseline 0, no version
    being constrained, keeps everything back until the last path: when
    one of the matched paths does not decode, the search fails and has
    yielded nothing. *)
Theorem buffered_search_failure (pd : Dict string) (bad : string) (e : exn) :
  dict_mem "version" pd = false ->
  (forall k, In k (keys pd) -> In k baseline0_parts_dir) ->
  let pattern := fst (build_path baseline0_parts_dir "/gpfs_750/projects/CMIP5/data"
                        (dict_update [("project", "cmip5"); ("institute", "MPI-M");
                                      ("model", "MPI-ESM-LR")]%string pd)) in
  In bad (iglob pattern) ->
  from_path realpath bad 0 = Raise e ->
  exists e',
    search realpath iglob 0 true pd
    = {| found := []; globbed := [pattern]; stderr := []; ended := Failed e' |}.
Proof.
  intros Hver Hknown pattern Hin He.
  pose proof (search_known_constraints 0 true pd
                (nth 0 BASELINE (mkBaseline "" [] [] None [] "" []))
                eq_refl Hknown) as Hs.
  cbn zeta in Hs. cbn [nth BASELINE root_dir parts_dir defaults] in Hs.
  fold pattern in Hs. rewrite Hver in Hs. cbn [Z.gtb Z.compare orb andb] in Hs.
  destruct (search_loop_buffered 0 (iglob pattern) []) as [Hfst Hsnd].
  destruct (Hsnd bad e Hin He) as [e' He'].
  exists e'. rewrite Hs.
  destruct (search_loop realpath (iglob pattern) 0 true []) as [ys r].
  cbn [fst snd] in *. now subst.
Qed.

(** X20.  A constraint value that starts with a slash takes the place of
    the root and of every part before it: the pattern is that value
    followed by the later parts. *)
Theorem absolute_constraint_replaces_root (baseline_nr : Z) (pd : Dict string)
    (bl : Baseline) (before after : list string) (key v : string) :
  _get_baseline baseline_nr = Ok bl ->
  dict_wf pd ->
  parts_dir bl = before ++ key :: after ->
  dict_get key pd = Some v ->
  startswith "/" v = true ->
  fst (build_path (parts_dir bl) (root_dir bl) (dict_update (defaults bl) pd))
  = fold_left os_path_join (map (glob_segment bl pd) after) v.
Proof.
  intros Hbl Hwf Hparts Hkey Hv.
  rewrite build_path_fst by (eapply baseline_parts_dir_NoDup; eauto).
  rewrite (map_ext _ (glob_segment bl pd))
    by (intros k; now apply glob_segment_update).
  rewrite Hparts, map_app, fold_left_app. cbn [map fold_left].
  f_equal. unfold glob_segment at 2. rewrite Hkey.
  unfold os_path_join. now rewrite Hv.
Qed.

End Searching.

(** *** The resolver *)

Lemma ltb_trans (a b c : string) :
  String.ltb a b = true -> String.ltb b c = true -> String.ltb a c = true.
Proof.
  unfold String.ltb. intros Hab Hbc.
  assert (Lab : String.compare a b = Lt) by (destruct (String.compare a b); congruence).
  assert (Lbc : String.compare b c = Lt) by (destruct (String.compare b c); congruence).
  apply OrderedTypeEx.String_as_OT.cmp_lt in Lab, Lbc.
  pose proof (OrderedTypeEx.String_as_OT.lt_trans _ _ _ Lab Lbc) as Lac.
  apply OrderedTypeEx.String_as_OT.cmp_lt in Lac.
  unfold OrderedTypeEx.String_as_OT.cmp in Lac. now rewrite Lac.
Qed.

Lemma ltb_total (a b : string) :
  String.ltb a b = false -> String.ltb b a = false -> a = b.
Proof.
  unfold String.ltb. rewrite (String.compare_antisym b a).
  destruct (String.compare a b) eqn:E; simpl; try discriminate.
  intros _ _. now apply String.compare_eq_iff.
Qed.

Section Resolver.

Implicit Types (c x : BaselineFile) (ds : Dict (list BaselineFile)).

Lemma good_key c : has_dataset_and_version c -> to_dataset c false = Ok (key_of c).
Proof. intros [[k Hk] _]. unfold key_of. now rewrite Hk. Qed.

Lemma good_version c : has_dataset_and_version c -> get_version c = Ok (Some (version_of c)).
Proof. intros [_ [v Hv]]. unfold version_of. now rewrite Hv. Qed.

Lemma is_latest_snoc done c x :
  is_latest (done ++ [c]) x
  = is_latest done x
    && negb (String.eqb (key_of c) (key_of x)
             && String.ltb (version_of x) (version_of c)).
Proof.
  unfold is_latest. rewrite forallb_app. simpl. now rewrite andb_true_r.
Qed.

Lemma is_latest_spec done x :
  is_latest done x = true
  <-> forall y, In y done -> key_of y = key_of x ->
                String.ltb (version_of x) (version_of y) = false.
Proof.
  unfold is_latest. rewrite forallb_forall. split.
  - intros H y Hy Hk. specialize (H y Hy). rewrite Hk, String.eqb_refl in H.
    simpl in H. now apply negb_true_iff in H.
  - intros H y Hy. destruct (String.eqb (key_of y) (key_of x)) eqn:E; auto.
    apply String.eqb_eq in E. simpl. now rewrite (H y Hy E).
Qed.

Lemma group_snoc done c k :
  latest_of_dataset (done ++ [c]) k
  = filter (fun x => String.eqb (key_of x) k && is_latest (done ++ [c]) x) done
    ++ (if String.eqb (key_of c) k && is_latest (done ++ [c]) c then [c] else []).
Proof. unfold latest_of_dataset. rewrite filter_app. reflexivity. Qed.

Lemma group_other_key done c k :
  key_of c <> k -> latest_of_dataset (done ++ [c]) k = latest_of_dataset done k.
Proof.
  intros Hk. rewrite group_snoc.
  apply String.eqb_neq in Hk. rewrite Hk. cbn [andb]. rewrite app_nil_r.
  unfold latest_of_dataset. apply filter_ext. intros x.
  destruct (String.eqb (key_of x) k) eqn:E; auto. cbn [andb].
  rewrite is_latest_snoc. apply String.eqb_eq in E. rewrite E, Hk.
  cbn [andb negb]. now rewrite andb_true_r.
Qed.

Lemma filter_nothing {A} (f : A -> bool) (l : list A) :
  (forall a : A, In a l -> f a = false) -> filter f l = [].
Proof.
  induction l as [|a l IH]; intros H; simpl; auto.
  rewrite (H a) by now left. apply IH. intros b Hb. apply H. now right.
Qed.

(** One candidate more: the loop keeps what it resolver_holds. *)
Lemma latest_update_holds ds done c :
  resolver_holds ds done ->
  (forall x, In x done -> has_dataset_and_version x) ->
  has_dataset_and_version c ->
  exists ds', latest_update ds c = Ok ds' /\ resolver_holds ds' (done ++ [c]).
Proof.
  intros (Hwf & Hcov & Hgrp) Hdone Hc.
  set (k := key_of c). set (v := version_of c).
  assert (Hself : is_latest (done ++ [c]) c = is_latest done c).
  { rewrite is_latest_snoc, String.eqb_refl, ltb_irrefl. cbn [andb negb].
    apply andb_true_r. }
  (* what remains to show for the keys other than [k] *)
  assert (Hother : forall ds' sub0,
             dict_wf ds' ->
             (forall k', k' <> k -> dict_get k' ds' = dict_get k' ds) ->
             dict_get k ds' = Some sub0 ->
             sub0 <> [] -> sub0 = latest_of_dataset (done ++ [c]) k ->
             resolver_holds ds' (done ++ [c])).
  { intros ds' sub0 Hwf' Hsame Hk Hne Heq. split; [exact Hwf'|]. split.
    - intros x Hx. destruct (String.eqb_spec (key_of x) k) as [E|E].
      + rewrite E, Hk. discriminate.
      + rewrite (Hsame _ E). apply in_app_iff in Hx.
        destruct Hx as [Hx|[<-|[]]]; [now apply Hcov | now contradiction E].
    - intros k' sub Hget. destruct (String.eqb_spec k' k) as [->|E].
      + rewrite Hk in Hget. injection Hget as <-. auto.
      + rewrite (Hsame _ E) in Hget. destruct (Hgrp _ _ Hget) as [Hn Hs].
        split; [exact Hn|]. rewrite group_other_key; [exact Hs|].
        fold k. congruence. }
  unfold latest_update. rewrite (good_key c Hc). cbn [bind]. fold k.
  destruct (dict_get k ds) as [sub|] eqn:Hget.
  - destruct (Hgrp _ _ Hget) as [Hne Hsub].
    destruct sub as [|first sub']; [congruence|].
    assert (Hfirst : In first done /\ key_of first = k /\ is_latest done first = true).
    { assert (Hin : In first (latest_of_dataset done k)) by (rewrite <- Hsub; now left).
      unfold latest_of_dataset in Hin. apply filter_In in Hin. destruct Hin as [Hin Hb].
      apply andb_prop in Hb. destruct Hb as [Hb1 Hb2].
      apply String.eqb_eq in Hb1. auto. }
    destruct Hfirst as (Hfin & Hfk & Hfl).
    set (v0 := version_of first).
    rewrite (good_version first (Hdone _ Hfin)), (good_version c Hc).
    cbn [bind version_lt version_eq]. fold v0 v.
    (* the versions of the data set seen so far *)
    assert (HL : forall x, In x done -> key_of x = k ->
                           String.ltb v0 (version_of x) = false).
    { intros x Hx Hk. apply (proj1 (is_latest_spec done first) Hfl x Hx). congruence. }
    assert (HE : forall x, In x done -> key_of x = k -> is_latest done x = true ->
                           version_of x = v0).
    { intros x Hx Hk Hl. apply ltb_total; [|now apply HL].
      apply (proj1 (is_latest_spec done x) Hl first Hfin). congruence. }
    assert (Hkeep : forall keep,
               (forall x, In x done -> key_of x = k -> is_latest done x = true ->
                          String.ltb (version_of x) v = negb keep) ->
               filter (fun x => String.eqb (key_of x) k && is_latest (done ++ [c]) x) done
               = if keep then first :: sub' else []).
    { intros keep Hk. destruct keep.
      - rewrite Hsub. unfold latest_of_dataset. apply filter_ext_in. intros x Hx.
        destruct (String.eqb (key_of x) k) eqn:E; auto. cbn [andb].
        rewrite is_latest_snoc. destruct (is_latest done x) eqn:El; auto.
        apply String.eqb_eq in E. fold v.
        rewrite (Hk x Hx E El). cbn [negb andb]. now rewrite andb_false_r.
      - apply filter_nothing. intros x Hx.
        destruct (String.eqb (key_of x) k) eqn:E; auto. cbn [andb].
        rewrite is_latest_snoc. destruct (is_latest done x) eqn:El; auto.
        apply String.eqb_eq in E. fold v. rewrite (Hk x Hx E El).
        unfold k in E. rewrite E, String.eqb_refl. reflexivity. }
    destruct (String.ltb v0 v) eqn:Hlt.
    + (* a newer version: the data set starts again *)
      assert (Hcl : is_latest done c = true).
      { apply is_latest_spec. intros y Hy Hyk. fold v.
        destruct (String.ltb v (version_of y)) eqn:E; auto.
        pose proof (HL y Hy Hyk) as Hy0.
        rewrite (ltb_trans _ _ _ Hlt E) in Hy0. discriminate Hy0. }
      eexists. split; [reflexivity|].
      apply (Hother _ [c]).
      * now apply dict_wf_set.
      * intros k' E. now apply dict_get_set_other.
      * apply dict_get_set_same.
      * discriminate.
      * rewrite group_snoc, (Hkeep false), Hself, Hcl, String.eqb_refl; [reflexivity|].
        intros x Hx Hk Hl. now rewrite (HE x Hx Hk Hl).
    + destruct (String.eqb v0 v) eqn:Heq.
      * (* the same version: one more file of the data set *)
        apply String.eqb_eq in Heq.
        assert (Hcl : is_latest done c = true).
        { apply is_latest_spec. intros y Hy Hyk. fold v. rewrite <- Heq.
          now apply HL. }
        eexists. split; [reflexivity|].
        apply (Hother _ ((first :: sub') ++ [c])).
        -- now apply dict_wf_set.
        -- intros k' E. now apply dict_get_set_other.
        -- apply dict_get_set_same.
        -- discriminate.
        -- rewrite group_snoc, (Hkeep true), Hself, Hcl, String.eqb_refl;
             [reflexivity|].
           intros x Hx Hk Hl. rewrite (HE x Hx Hk Hl), Heq. apply ltb_irrefl.
      * (* an older version: left out *)
        assert (Hgt : String.ltb v v0 = true).
        { destruct (String.ltb v v0) eqn:E; auto.
          rewrite (ltb_total _ _ Hlt E), String.eqb_refl in Heq. discriminate. }
        assert (Hcl : is_latest done c = false).
        { destruct (is_latest done c) eqn:E; auto.
          pose proof (proj1 (is_latest_spec done c) E first Hfin Hfk) as H.
          fold v v0 in H. congruence. }
        eexists. split; [reflexivity|].
        apply (Hother _ (first :: sub')).
        -- exact Hwf.
        -- reflexivity.
        -- exact Hget.
        -- discriminate.
        -- rewrite group_snoc, (Hkeep true), Hself, Hcl, String.eqb_refl.
           ++ cbn [andb]. now rewrite app_nil_r.
           ++ intros x Hx Hk Hl. now rewrite (HE x Hx Hk Hl).
  - (* a new data set *)
    assert (Hnone : forall x, In x done -> String.eqb (key_of x) k = false).
    { intros x Hx. apply String.eqb_neq. intros E. apply (Hcov x Hx). now rewrite E. }
    assert (Hcl : is_latest done c = true).
    { apply is_latest_spec. intros y Hy Hyk. fold k in Hyk.
      pose proof (Hnone y Hy) as Hy0.
      rewrite Hyk, String.eqb_refl in Hy0. discriminate Hy0. }
    eexists. split; [reflexivity|].
    apply (Hother _ [c]).
    + now apply dict_wf_set.
    + intros k' E. now apply dict_get_set_other.
    + apply dict_get_set_same.
    + discriminate.
    + rewrite group_snoc, Hself, Hcl, String.eqb_refl. cbn [andb].
      rewrite filter_nothing; [reflexivity|].
      intros x Hx. now rewrite (Hnone x Hx).
Qed.

Lemma resolve_latest_holds rest :
  forall done ds,
    resolver_holds ds done ->
    (forall x, In x (done ++ rest) -> has_dataset_and_version x) ->
    exists ds', resolve_latest rest ds = Ok (latest_files ds')
                /\ resolver_holds ds' (done ++ rest).
Proof.
  induction rest as [|c rest IH]; intros done ds Hh Hgood.
  - exists ds. rewrite app_nil_r. auto.
  - destruct (latest_update_holds ds done c Hh) as (ds1 & E1 & H1).
    + intros x Hx. apply Hgood, in_or_app. now left.
    + apply Hgood, in_or_app. right. now left.
    + destruct (IH (done ++ [c]) ds1 H1) as (ds' & E' & H').
      * intros x Hx. apply Hgood. now rewrite <- app_assoc in Hx.
      * exists ds'. cbn [resolve_latest]. rewrite E1. cbn [bind].
        rewrite <- app_assoc in H'. auto.
Qed.

Lemma concat_map_nil {A B} (ks : list A) :
  List.concat (map (fun _ => @nil B) ks) = [].
Proof. induction ks; simpl; auto. Qed.

Lemma insert_in_group {A} (ks : list string) (kx : string) (x : A)
    (g : string -> list A) :
  NoDup ks -> In kx ks ->
  Permutation
    (List.concat (map (fun k => if String.eqb kx k then x :: g k else g k) ks))
    (x :: List.concat (map g ks)).
Proof.
  induction 1 as [|k0 ks Hnotin Hnd IH]; intros Hin; [destruct Hin|].
  cbn [map List.concat]. destruct (String.eqb_spec kx k0) as [->|E].
  - cbn [app]. apply perm_skip. apply Permutation_app_head.
    apply Permutation_refl'. f_equal. apply map_ext_in. intros k Hk.
    destruct (String.eqb_spec k0 k) as [->|]; [contradiction | reflexivity].
  - destruct Hin as [Hin|Hin]; [congruence|].
    etransitivity; [apply Permutation_app_head, IH, Hin|].
    symmetry. apply Permutation_middle.
Qed.

(** A list filtered data set by data set is the list filtered at once. *)
Lemma groups_partition (P : BaselineFile -> bool) (ks : list string) l :
  NoDup ks ->
  (forall x, In x l -> P x = true -> In (key_of x) ks) ->
  Permutation
    (List.concat (map (fun k => filter (fun x => String.eqb (key_of x) k && P x) l) ks))
    (filter P l).
Proof.
  intros Hnd. induction l as [|x l IH]; intros Hcov.
  - cbn [filter]. now rewrite concat_map_nil.
  - change (filter P (x :: l)) with (if P x then x :: filter P l else filter P l).
    destruct (P x) eqn:Px.
    + rewrite (map_ext _
                 (fun k => if String.eqb (key_of x) k
                           then x :: filter (fun y => String.eqb (key_of y) k && P y) l
                           else filter (fun y => String.eqb (key_of y) k && P y) l)).
      * etransitivity; [apply insert_in_group; [exact Hnd | apply Hcov; auto; now left]|].
        apply perm_skip, IH. intros y Hy. apply Hcov. now right.
      * intros k. cbn [filter]. now rewrite Px, andb_true_r.
    + rewrite (map_ext _ (fun k => filter (fun y => String.eqb (key_of y) k && P y) l)).
      * apply IH. intros y Hy. apply Hcov. now right.
      * intros k. cbn [filter]. now rewrite Px, andb_false_r.
Qed.

Lemma holds_values ds done :
  resolver_holds ds done -> values ds = map (latest_of_dataset done) (keys ds).
Proof.
  intros (Hwf & _ & Hgrp). unfold values, keys. rewrite map_map.
  apply map_ext_in. intros [k sub] Hin. cbn [fst snd].
  apply (In_dict_get _ _ _ Hwf) in Hin. now destruct (Hgrp _ _ Hin).
Qed.

(** What the resolver gives for candidates that all have a data set key
    and a version. *)
Lemma resolve_latest_spec (candidates : list BaselineFile) :
  (forall c, In c candidates -> has_dataset_and_version c) ->
  exists out,
    resolve_latest candidates [] = Ok out
    /\ Permutation out (filter (is_latest candidates) candidates)
    /\ (forall c, In c candidates -> exists c', In c' out /\ key_of c' = key_of c).
Proof.
  intros Hgood.
  destruct (resolve_latest_holds candidates [] []) as (ds & E & Hh).
  - split; [constructor|]. split; [intros x []|]. intros k sub H. discriminate.
  - exact Hgood.
  - cbn [app] in Hh. exists (latest_files ds). split; [exact E|].
    pose proof Hh as (Hwf & Hcov & Hgrp).
    split.
    + unfold latest_files. rewrite (holds_values ds candidates Hh).
      apply groups_partition; [exact Hwf|].
      intros x Hx _. destruct (dict_get (key_of x) ds) as [sub|] eqn:G.
      * apply dict_get_In in G. apply (in_map fst) in G. exact G.
      * now apply Hcov in Hx.
    + intros c Hc. destruct (dict_get (key_of c) ds) as [sub|] eqn:Hget;
        [|now apply Hcov in Hc].
      destruct (Hgrp _ _ Hget) as [Hne Hsub].
      destruct sub as [|c' sub']; [congruence|].
      exists c'. split.
      * unfold latest_files, values. apply in_concat.
        exists (c' :: sub'). split; [|now left].
        apply in_map_iff. exists (key_of c, c' :: sub'). split; auto.
        now apply dict_get_In.
      * assert (Hin : In c' (latest_of_dataset candidates (key_of c))) by (rewrite <- Hsub; now left).
        unfold latest_of_dataset in Hin. apply filter_In in Hin. destruct Hin as [_ Hb].
        apply andb_prop in Hb. destruct Hb as [Hb _]. now apply String.eqb_eq in Hb.
Qed.

End Resolver.

Lemma Forall2_In_r {A B} (R : A -> B -> Prop) (l : list A) (l' : list B) (b : B) :
  Forall2 R l l' -> In b l' -> exists a, In a l /\ R a b.
Proof.
  induction 1 as [|a0 b0 l l' H0 _ IH]; [intros []|].
  intros [<-|Hin].
  - exists a0. split; [now left | exact H0].
  - destruct (IH Hin) as (a & Ha & HR). exists a. split; [now right | exact HR].
Qed.

(** A candidate decoded under baseline 0 has a data set key and a
    version. *)
Lemma decoded_has_dataset_and_version (realpath : string -> string)
    (path : string) (c : BaselineFile) :
  from_path realpath path 0 = Ok c -> has_dataset_and_version c.
Proof.
  intros Hp.
  destruct (from_path_cmip5_shape realpath path c Hp)
    as (s1 & s2 & s3 & s4 & s5 & s6 & s7 & s8 & s9 & s10 & s11 & s12
        & t1 & t2 & t3 & t4 & t5 & time & rest & _ & _ & _ & _ & ->).
  split; eexists; reflexivity.
Qed.

(** The loop of [search] in the latest mode, over paths that decode to
    candidates with a data set key and a version: nothing is yielded on
    the way and the dictionary keeps what it holds. *)
Lemma search_loop_holds (realpath : string -> string) (baseline_nr : Z)
    (paths : list string) (candidates : list BaselineFile) :
  Forall2 (fun p c => from_path realpath p baseline_nr = Ok c) paths candidates ->
  forall done datasets,
    resolver_holds datasets done ->
    (forall x, In x (done ++ candidates) -> has_dataset_and_version x) ->
    exists datasets',
      search_loop realpath paths baseline_nr true datasets = ([], Ok datasets')
      /\ resolver_holds datasets' (done ++ candidates).
Proof.
  induction 1 as [|p c paths candidates Hp _ IH]; intros done datasets Hh Hgood.
  - exists datasets. rewrite app_nil_r. auto.
  - destruct (latest_update_holds datasets done c Hh) as (ds1 & E1 & H1).
    + intros x Hx. apply Hgood, in_or_app. now left.
    + apply Hgood, in_or_app. right. now left.
    + destruct (IH (done ++ [c]) ds1 H1) as (ds' & E' & H').
      * intros x Hx. apply Hgood. now rewrite <- app_assoc in Hx.
      * exists ds'. cbn [search_loop]. rewrite Hp. cbn [negb]. rewrite E1.
        rewrite <- app_assoc in H'. auto.
Qed.

(** X21.  The loop of [search] in the latest mode on baseline 0, over
    matched paths that all decode: it yields nothing on the way and ends
    with a dictionary that has one entry for every data set that was
    matched and no other, each entry holding the candidates of its data
    set that no candidate of the data set exceeds in version, in the
    order in which they were matched. *)
Theorem latest_loop_keeps_the_latest (realpath : string -> string)
    (paths : list string) (candidates : list BaselineFile) :
  Forall2 (fun p c => from_path realpath p 0 = Ok c) paths candidates ->
  exists datasets,
    search_loop realpath paths 0 true [] = ([], Ok datasets)
    /\ NoDup (keys datasets)
    /\ (forall k, In k (keys datasets)
                  <-> exists c, In c candidates /\ to_dataset c false = Ok k)
    /\ (forall k sub,
           dict_get k datasets = Some sub ->
           sub <> []
           /\ sub = filter (fun c => String.eqb (key_of c) k && is_latest candidates c)
                           candidates).
Proof.
  intros Hdec.
  assert (Hgood : forall c, In c candidates -> has_dataset_and_version c).
  { intros c Hc. destruct (Forall2_In_r _ _ _ _ Hdec Hc) as (path & _ & Hp).
    exact (decoded_has_dataset_and_version realpath path c Hp). }
  destruct (search_loop_holds realpath 0 paths candidates Hdec [] [])
    as (datasets & Hrun & Hwf & Hcov & Hgrp).
  - split; [constructor|]. split; [intros x []|]. intros k sub H. discriminate.
  - exact Hgood.
  - cbn [app] in Hcov, Hgrp. exists datasets.
    split; [exact Hrun|]. split; [exact Hwf|]. split; [|exact Hgrp].
    intros k. split.
    + intros Hk. destruct (dict_get k datasets) as [sub|] eqn:Hget;
        [|now apply dict_get_None_keys in Hget].
      destruct (Hgrp k sub Hget) as [Hne Hsub].
      destruct sub as [|c sub']; [congruence|].
      assert (Hin : In c (latest_of_dataset candidates k))
        by (rewrite <- Hsub; now left).
      unfold latest_of_dataset in Hin. apply filter_In in Hin.
      destruct Hin as [Hin Hb]. apply andb_prop in Hb. destruct Hb as [Hb _].
      apply String.eqb_eq in Hb. exists c. split; [exact Hin|].
      now rewrite (good_key c (Hgood c Hin)), Hb.
    + intros (c & Hc & Hk).
      pose proof (good_key c (Hgood c Hc)) as Hkey. rewrite Hk in Hkey.
      injection Hkey as ->.
      destruct (in_dec string_dec (key_of c) (keys datasets)) as [H|H]; [exact H|].
      apply dict_get_None_keys in H. now apply Hcov in Hc.
Qed.

(** X22.  A search for the latest version on baseline 0, no version being
    constrained and every matched path decoding, ends normally and yields
    exactly the candidates that no candidate of the same data set exceeds
    in version, each as often as it was matched; every data set that was
    matched is among the results. *)
Theorem latest_search_yields_the_latest (realpath : string -> string)
    (iglob : string -> list string) (pd : Dict string)
    (candidates : list BaselineFile) :
  dict_mem "version" pd = false ->
  (forall k, In k (keys pd) -> In k baseline0_parts_dir) ->
  Forall2 (fun p c => from_path realpath p 0 = Ok c)
          (iglob (fst (build_path baseline0_parts_dir "/gpfs_750/projects/CMIP5/data"
                         (dict_update [("project", "cmip5"); ("institute", "MPI-M");
                                       ("model", "MPI-ESM-LR")]%string pd))))
          candidates ->
  ended (search realpath iglob 0 true pd) = Done
  /\ Permutation (found (search realpath iglob 0 true pd))
                 (filter (is_latest candidates) candidates)
  /\ (forall c, In c candidates ->
                exists c', In c' (found (search realpath iglob 0 true pd))
                           /\ to_dataset c' false = to_dataset c false).
Proof.
  intros Hver Hknown Hdec.
  assert (Hgood : forall c, In c candidates -> has_dataset_and_version c).
  { intros c Hc. destruct (Forall2_In_r _ _ _ _ Hdec Hc) as (path & _ & Hp).
    destruct (from_path_cmip5_shape realpath path c Hp)
      as (s1 & s2 & s3 & s4 & s5 & s6 & s7 & s8 & s9 & s10 & s11 & s12
          & t1 & t2 & t3 & t4 & t5 & time & rest & _ & _ & _ & _ & ->).
    split; eexists; reflexivity. }
  destruct (resolve_latest_spec candidates Hgood) as (out & Hout & Hperm & Hcov).
  destruct (search_yields_resolved realpath iglob pd candidates out
              Hver Hknown Hdec Hout) as [Hfound Hended].
  rewrite Hfound. split; [exact Hended|]. split; [exact Hperm|].
  intros c Hc. destruct (Hcov c Hc) as (c' & Hc' & Hk).
  exists c'. split; [exact Hc'|].
  assert (Hin' : In c' candidates).
  { apply (Permutation_in _ Hperm) in Hc'. now apply filter_In in Hc'. }
  rewrite (good_key c (Hgood c Hc)), (good_key c' (Hgood c' Hin')).
  now rewrite Hk.
Qed.

(** *** Examples *)

Lemma unknown_baseline_rejected_witness :
  from_path (fun p => p) "/gpfs_750/projects/CMIP5/data/x" 2
  = Raise (Exception "Baseline 2 not implemented yet.")
  /\ search (fun p => p) (fun _ => []) 2 true []
     = {| found := []; globbed := []; stderr := [];
          ended := Failed (Exception "Baseline 2 not implemented yet.") |}.
Proof.
  apply (proj2 (unknown_baseline_rejected (fun p => p) (fun _ => []) 2 true []
                  "/gpfs_750/projects/CMIP5/data/x")).
  right. lia.
Defined.

Lemma from_path_rejects_witness :
  from_path (fun p => p) "/tmp/tas.nc" 0
  = Raise (Exception "This file does not correspond to baseline 0")
  /\ from_path (fun p => p) "/gpfs_750/projects/CMIP5/data/cmip5/tas.nc" 0
     = Raise (Exception "Can't parse this path. Expected 12 elements but got 2.").
Proof.
  split.
  - apply (proj1 (from_path_rejects (fun p => p) "/tmp/tas.nc" 0 (nth 0 BASELINE (mkBaseline "" [] [] None [] "" [])) eq_refl)).
    reflexivity.
  - apply (proj2 (from_path_rejects (fun p => p)
                    "/gpfs_750/projects/CMIP5/data/cmip5/tas.nc" 0 (nth 0 BASELINE (mkBaseline "" [] [] None [] "" [])) eq_refl)
             ["cmip5"; "tas.nc"]%string).
    + reflexivity.
    + discriminate.
    + repeat constructor.
    + simpl. lia.
Defined.

Lemma from_path_cmip5_witness :
  let p := "/gpfs_750/projects/CMIP5/data/cmip5/output1/MPI-M/MPI-ESM-LR/historical/mon/atmos/Amon/r1i1p1/v20110502/tas/tas_Amon_MPI-ESM-LR_historical_r1i1p1_185001-200512.nc"%string in
  exists s1 s2 s3 s4 s5 s6 s7 s8 s9 s10 s11 s12 t1 t2 t3 t4 t5 time rest,
    p = ("/gpfs_750/projects/CMIP5/data/"
         ++ join "/" [s1; s2; s3; s4; s5; s6; s7; s8; s9; s10; s11; s12])%string
    /\ Forall (fun v => contains "/" v = false)
              [s1; s2; s3; s4; s5; s6; s7; s8; s9; s10; s11; s12]
    /\ split "_" (drop_last 3 s12) = t1 :: t2 :: t3 :: t4 :: t5 :: rest
    /\ ((rest = [] /\ In "r0i0p0"%string [t1; t2; t3; t4; t5] /\ time = None)
        \/ (exists t6 more, rest = t6 :: more /\ time = Some t6))
    /\ decoded p
       = {| baseline_nr := 0;
            dict := {| fd_root_dir := Some "/gpfs_750/projects/CMIP5/data"%string;
                       fd_parts := Some (cmip5_parts s1 s2 s3 s6 s7 s10 s12
                                           t1 t2 t3 t4 t5 time) |} |}.
Proof.
  intros p. apply (from_path_cmip5 (fun q => q) p (decoded p)). reflexivity.
Defined.

Lemma decoded_candidate_complete_witness :
  let c := decoded "/gpfs_750/projects/CMIP5/data/cmip5/output1/MPI-M/MPI-ESM-LR/historical/mon/atmos/Amon/r1i1p1/v20110502/tas/tas_Amon_MPI-ESM-LR_historical_r1i1p1_185001-200512.nc" in
  File.baseline_nr c = 0%Z
  /\ (exists k, to_dataset c false = Ok k)
  /\ (exists p, to_path c = Ok p)
  /\ ((0%Z = 0%Z /\ exists v, get_version c = Ok (Some v))
      \/ (0%Z = 1%Z /\ get_version c = Ok None)).
Proof.
  intros c.
  apply (decoded_candidate_complete (fun q => q) "/gpfs_750/projects/CMIP5/data/cmip5/output1/MPI-M/MPI-ESM-LR/historical/mon/atmos/Amon/r1i1p1/v20110502/tas/tas_Amon_MPI-ESM-LR_historical_r1i1p1_185001-200512.nc" 0 c).
  reflexivity.
Defined.

Lemma encode_after_decode_cmip5_witness :
  let p := "/gpfs_750/projects/CMIP5/data/cmip5/output1/MPI-M/MPI-ESM-LR/historical/mon/atmos/Amon/r1i1p1/v20110502/tas/tas_Amon_MPI-ESM-LR_historical_r1i1p1_185001-200512.nc"%string in
  exists s1 s2 s3 s4 s5 s6 s7 s8 s9 s10 s11 s12 t1 t2 t3 t4 t5 rest,
    p = ("/gpfs_750/projects/CMIP5/data/"
         ++ join "/" [s1; s2; s3; s4; s5; s6; s7; s8; s9; s10; s11; s12])%string
    /\ split "_" (drop_last 3 s12) = t1 :: t2 :: t3 :: t4 :: t5 :: rest
    /\ to_path (decoded p)
       = Ok ("/gpfs_750/projects/CMIP5/data/"
             ++ join "/" [s1; s2; s3; t3; t4; s6; s7; t2; t5; s10; t1; s12])%string
    /\ (s4 = t3 -> s5 = t4 -> s8 = t2 -> s9 = t5 -> s11 = t1 ->
        to_path (decoded p) = Ok p).
Proof.
  intros p. apply (encode_after_decode_cmip5 (fun q => q) p (decoded p)).
  - reflexivity.
  - intros key Hin. cbn in Hin.
    repeat (destruct Hin as [<-|Hin]; [vm_compute; discriminate|]).
    contradiction.
Defined.

Lemma short_file_name_fails_witness :
  from_path (fun p => p) "/gpfs_750/projects/CMIP5/data/cmip5/output1/MPI-M/MPI-ESM-LR/historical/mon/atmos/Amon/r1i1p1/v20110502/tas/tas_Amon.nc" 0 = Raise IndexError.
Proof.
  apply (short_file_name_fails (fun p => p) "/gpfs_750/projects/CMIP5/data/cmip5/output1/MPI-M/MPI-ESM-LR/historical/mon/atmos/Amon/r1i1p1/v20110502/tas/tas_Amon.nc"
           ["cmip5"; "output1"; "MPI-M"; "MPI-ESM-LR"; "historical"; "mon"; "atmos";
            "Amon"; "r1i1p1"; "v20110502"; "tas"; "tas_Amon.nc"]%string).
  - reflexivity.
  - reflexivity.
  - repeat constructor.
  - vm_compute. lia.
  - intros [H _]. vm_compute in H. discriminate H.
Defined.

Lemma versioned_dataset_key_witness :
  to_dataset (decoded "/gpfs_750/projects/CMIP5/data/cmip5/output1/MPI-M/MPI-ESM-LR/historical/mon/atmos/Amon/r1i1p1/v20110502/tas/tas_Amon_MPI-ESM-LR_historical_r1i1p1_185001-200512.nc") true
  = Ok "cmip5.output1.MPI-M.MPI-ESM-LR.historical.mon.atmos.Amon.r1i1p1.v20110502"%string.
Proof.
  apply (proj2 (proj2 (versioned_dataset_key (decoded "/gpfs_750/projects/CMIP5/data/cmip5/output1/MPI-M/MPI-ESM-LR/historical/mon/atmos/Amon/r1i1p1/v20110502/tas/tas_Amon_MPI-ESM-LR_historical_r1i1p1_185001-200512.nc")))
           "cmip5.output1.MPI-M.MPI-ESM-LR.historical.mon.atmos.Amon.r1i1p1"%string
           "v20110502"%string);
    reflexivity.
Defined.

Lemma pinned_version_disables_resolution_witness :
  search (fun p => p) (fun _ => ["/gpfs_750/projects/CMIP5/data/cmip5/output1/MPI-M/MPI-ESM-LR/historical/mon/atmos/Amon/r1i1p1/v20110502/tas/tas_Amon_MPI-ESM-LR_historical_r1i1p1_185001-200512.nc"; "/gpfs_750/projects/CMIP5/data/cmip5/output1/MPI-M/MPI-ESM-LR/historical/mon/atmos/Amon/r1i1p1/v20120101/tas/tas_Amon_MPI-ESM-LR_historical_r1i1p1_185001-200512.nc"]%string) 0 true
    [("version", "v*")]%string
  = search (fun p => p) (fun _ => ["/gpfs_750/projects/CMIP5/data/cmip5/output1/MPI-M/MPI-ESM-LR/historical/mon/atmos/Amon/r1i1p1/v20110502/tas/tas_Amon_MPI-ESM-LR_historical_r1i1p1_185001-200512.nc"; "/gpfs_750/projects/CMIP5/data/cmip5/output1/MPI-M/MPI-ESM-LR/historical/mon/atmos/Amon/r1i1p1/v20120101/tas/tas_Amon_MPI-ESM-LR_historical_r1i1p1_185001-200512.nc"]%string) 0 false
      [("version", "v*")]%string.
Proof.
  apply (pinned_version_disables_resolution (fun p => p)
           (fun _ => ["/gpfs_750/projects/CMIP5/data/cmip5/output1/MPI-M/MPI-ESM-LR/historical/mon/atmos/Amon/r1i1p1/v20110502/tas/tas_Amon_MPI-ESM-LR_historical_r1i1p1_185001-200512.nc"; "/gpfs_750/projects/CMIP5/data/cmip5/output1/MPI-M/MPI-ESM-LR/historical/mon/atmos/Amon/r1i1p1/v20120101/tas/tas_Amon_MPI-ESM-LR_historical_r1i1p1_185001-200512.nc"]%string) 0 [("version", "v*")]%string).
  right. reflexivity.
Defined.

Lemma streaming_search_witness :
  let p1 := "/gpfs_750/projects/CMIP5/data/cmip5/output1/MPI-M/MPI-ESM-LR/historical/mon/atmos/Amon/r1i1p1/v20110502/tas/tas_Amon_MPI-ESM-LR_historical_r1i1p1_185001-200512.nc"%string in
  let p2 := "/gpfs_750/projects/CMIP5/data/cmip5/output1/MPI-M/MPI-ESM-LR/historical/mon/atmos/Amon/r1i1p1/v20120101/tas/tas_Amon_MPI-ESM-LR_historical_r1i1p1_185001-200512.nc"%string in
  let pattern := "/gpfs_750/projects/CMIP5/data/cmip5/*/MPI-M/MPI-ESM-LR/*/*/*/*/*/*/tas/*"%string in
  search (fun p => p) (fun _ => [p1; p2]) 0 false [("variable", "tas")]%string
  = {| found := [decoded p1; decoded p2]; globbed := [pattern]; stderr := [];
       ended := Done |}
  /\ search (fun p => p) (fun _ => [p1; p2; "/tmp/tas.nc"%string; p1]) 0 false
       [("variable", "tas")]%string
     = {| found := [decoded p1; decoded p2]; globbed := [pattern]; stderr := [];
          ended := Failed (Exception "This file does not correspond to baseline 0") |}.
Proof.
  intros p1 p2 pattern. split.
  - apply (proj1 (streaming_search (fun p => p) (fun _ => [p1; p2]) 0
                    [("variable", "tas")]%string (nth 0 BASELINE (mkBaseline "" [] [] None [] "" [])) [p1; p2]
                    [decoded p1; decoded p2] eq_refl
                    ltac:(intros k [<-|[]]; simpl; tauto)
                    ltac:(repeat constructor))).
    reflexivity.
  - apply (proj2 (streaming_search (fun p => p)
                    (fun _ => [p1; p2; "/tmp/tas.nc"%string; p1]) 0
                    [("variable", "tas")]%string (nth 0 BASELINE (mkBaseline "" [] [] None [] "" [])) [p1; p2]
                    [decoded p1; decoded p2] eq_refl
                    ltac:(intros k [<-|[]]; simpl; tauto)
                    ltac:(repeat constructor))
             "/tmp/tas.nc"%string [p1]).
    + reflexivity.
    + reflexivity.
Defined.

Lemma buffered_search_failure_witness :
  exists e',
    search (fun p => p) (fun _ => ["/gpfs_750/projects/CMIP5/data/cmip5/output1/MPI-M/MPI-ESM-LR/historical/mon/atmos/Amon/r1i1p1/v20110502/tas/tas_Amon_MPI-ESM-LR_historical_r1i1p1_185001-200512.nc"; "/tmp/tas.nc"]%string) 0 true []
    = {| found := [];
         globbed := ["/gpfs_750/projects/CMIP5/data/cmip5/*/MPI-M/MPI-ESM-LR/*/*/*/*/*/*/*/*"%string];
         stderr := []; ended := Failed e' |}.
Proof.
  apply (buffered_search_failure (fun p => p)
           (fun _ => ["/gpfs_750/projects/CMIP5/data/cmip5/output1/MPI-M/MPI-ESM-LR/historical/mon/atmos/Amon/r1i1p1/v20110502/tas/tas_Amon_MPI-ESM-LR_historical_r1i1p1_185001-200512.nc"; "/tmp/tas.nc"]%string) [] "/tmp/tas.nc"%string
           (Exception "This file does not correspond to baseline 0")).
  - reflexivity.
  - intros k [].
  - right. left. reflexivity.
  - reflexivity.
Defined.

Lemma absolute_constraint_replaces_root_witness :
  fst (build_path baseline0_parts_dir "/gpfs_750/projects/CMIP5/data"
         (dict_update [("project", "cmip5"); ("institute", "MPI-M");
                       ("model", "MPI-ESM-LR")]%string
            [("institute", "/scratch/MPI-M")]%string))
  = "/scratch/MPI-M/MPI-ESM-LR/*/*/*/*/*/*/*/*"%string.
Proof.
  apply (absolute_constraint_replaces_root 0 [("institute", "/scratch/MPI-M")]%string
           (nth 0 BASELINE (mkBaseline "" [] [] None [] "" [])) ["project"; "product"]%string
           ["model"; "experiment"; "time_frequency"; "realm"; "cmor_table";
            "ensemble"; "version"; "variable"; "file_name"]%string
           "institute"%string "/scratch/MPI-M"%string).
  - reflexivity.
  - repeat constructor. intros [].
  - reflexivity.
  - reflexivity.
  - reflexivity.
Defined.

Lemma latest_loop_keeps_the_latest_witness :
  let p1 := "/gpfs_750/projects/CMIP5/data/cmip5/output1/MPI-M/MPI-ESM-LR/historical/mon/atmos/Amon/r1i1p1/v20110502/tas/tas_Amon_MPI-ESM-LR_historical_r1i1p1_185001-200512.nc"%string in
  let p2 := "/gpfs_750/projects/CMIP5/data/cmip5/output1/MPI-M/MPI-ESM-LR/historical/mon/atmos/Amon/r1i1p1/v20120101/tas/tas_Amon_MPI-ESM-LR_historical_r1i1p1_185001-200512.nc"%string in
  let p3 := "/gpfs_750/projects/CMIP5/data/cmip5/output1/MPI-M/MPI-ESM-LR/rcp45/mon/atmos/Amon/r1i1p1/v20110502/tas/tas_Amon_MPI-ESM-LR_rcp45_r1i1p1_200601-210012.nc"%string in
  let candidates := [decoded p1; decoded p3; decoded p2; decoded p1] in
  exists datasets,
    search_loop (fun p => p) [p1; p3; p2; p1] 0 true [] = ([], Ok datasets)
    /\ NoDup (keys datasets)
    /\ (forall k, In k (keys datasets)
                  <-> exists c, In c candidates /\ to_dataset c false = Ok k)
    /\ (forall k sub,
           dict_get k datasets = Some sub ->
           sub <> []
           /\ sub = filter (fun c => String.eqb (key_of c) k && is_latest candidates c)
                           candidates).
Proof.
  intros p1 p2 p3 candidates.
  apply (latest_loop_keeps_the_latest (fun p => p) [p1; p3; p2; p1] candidates).
  repeat constructor.
Defined.

Lemma latest_search_yields_the_latest_witness :
  let p1 := "/gpfs_750/projects/CMIP5/data/cmip5/output1/MPI-M/MPI-ESM-LR/historical/mon/atmos/Amon/r1i1p1/v20110502/tas/tas_Amon_MPI-ESM-LR_historical_r1i1p1_185001-200512.nc"%string in
  let p2 := "/gpfs_750/projects/CMIP5/data/cmip5/output1/MPI-M/MPI-ESM-LR/historical/mon/atmos/Amon/r1i1p1/v20120101/tas/tas_Amon_MPI-ESM-LR_historical_r1i1p1_185001-200512.nc"%string in
  let p3 := "/gpfs_750/projects/CMIP5/data/cmip5/output1/MPI-M/MPI-ESM-LR/rcp45/mon/atmos/Amon/r1i1p1/v20110502/tas/tas_Amon_MPI-ESM-LR_rcp45_r1i1p1_200601-210012.nc"%string in
  let iglob := fun _ : string => [p1; p3; p2; p1] in
  let candidates := [decoded p1; decoded p3; decoded p2; decoded p1] in
  ended (search (fun p => p) iglob 0 true []) = Done
  /\ Permutation (found (search (fun p => p) iglob 0 true []))
                 (filter (is_latest candidates) candidates)
  /\ (forall c, In c candidates ->
                exists c', In c' (found (search (fun p => p) iglob 0 true []))
                           /\ to_dataset c' false = to_dataset c false).
Proof.
  intros p1 p2 p3 iglob candidates.
  apply (latest_search_yields_the_latest (fun p => p) iglob [] candidates).
  - reflexivity.
  - intros k [].
  - repeat constructor.
Defined.

End FileMore.
